(** * kde-browser-picker: browser discovery, profile registry and secure launch

    A shallow embedding of the discovery / registry / launch core of
    kde-browser-picker (BrowserDetector, ProfileManager, ConfigManager)
    together with the properties stated about it.

    Conventions of the embedding:
    - [QString] is [string]; every [ascii] stands for one code unit.
    - [QMap<QString, V>] is [gmap string V]; [QList<T>] is [list T].
    - [int] values are compared and clamped only, never added, so they are
      kept in [Z].
    - [QDateTime] is [option Z]: milliseconds since the epoch, [None] for an
      invalid (default constructed) date.
    - Qt services that live outside the repository ([QUrl] parsing, the
      process spawn of [QProcess::startDetached], the file system seen through
      [QFile]/[QDir]/[QFileInfo], [QStandardPaths::findExecutable]) are inputs
      of the model: section variables or fields of [FileSystem].
    - [tr] is the identity (no translation catalogue), and [emit] appends to
      the list of signals a call returns. *)

From Stdlib Require Import ZArith Ascii String List Bool Sorting.Sorted Sorting.Permutation.
From stdpp Require Import base gmap strings list fin_maps pretty.

Set Warnings "-register-all".

Open Scope string_scope.
Open Scope Z_scope.

(** ** QString helpers *)

Module QStr.

Definition isEmpty (s : string) : bool :=
  match s with EmptyString => true | _ => false end.

Fixpoint startsWith (s pre : string) : bool :=
  match pre, s with
  | EmptyString, _ => true
  | String c pre', String d s' => if decide (c = d) then startsWith s' pre' else false
  | String _ _, EmptyString => false
  end.

(** [QString::contains(needle)]: [needle] occurs somewhere in [s]. *)
Fixpoint contains (s needle : string) : bool :=
  startsWith s needle ||
  match s with
  | EmptyString => false
  | String _ s' => contains s' needle
  end.

Definition chars (s : string) : list ascii := list_ascii_of_string s.

Definition filterChars (keep : ascii -> bool) (s : string) : string :=
  string_of_list_ascii (List.filter keep (chars s)).

Definition code (c : ascii) : N := N_of_ascii c.

Definition inRange (lo hi : N) (c : ascii) : bool :=
  ((lo <=? code c) && (code c <=? hi))%N.

Definition isUpper (c : ascii) : bool := inRange 65 90 c.
Definition isLower (c : ascii) : bool := inRange 97 122 c.
Definition isDigit (c : ascii) : bool := inRange 48 57 c.

Definition lowerChar (c : ascii) : ascii :=
  if isUpper c then ascii_of_N (code c + 32) else c.

Fixpoint toLower (s : string) : string :=
  match s with
  | EmptyString => EmptyString
  | String c s' => String (lowerChar c) (toLower s')
  end.

(** [QChar::isSpace] on the code units 0..255: TAB..CR, SPACE, NEL, NBSP. *)
Definition isSpace (c : ascii) : bool :=
  inRange 9 13 c || (code c =? 32)%N || (code c =? 133)%N || (code c =? 160)%N.

Fixpoint dropSpaces (l : list ascii) : list ascii :=
  match l with
  | c :: l' => if isSpace c then dropSpaces l' else l
  | [] => []
  end.

(** [QString::trimmed]: white space removed at both ends. *)
Definition trimmed (s : string) : string :=
  string_of_list_ascii (List.rev (dropSpaces (List.rev (dropSpaces (chars s))))).

(** [QString::remove(QChar('\0'))]. *)
Definition removeNul (s : string) : string :=
  filterChars (fun c => negb (code c =? 0)%N) s.

End QStr.

(** ** URL and profile-name validation (browserdetector.cpp) *)

(** What the code observes of a [QUrl] built from a string. *)
Record QUrl := mkQUrl { isValid : bool; scheme : string }.

Definition allowedSchemes : list string :=
  ["http"; "https"; "file"; "about"; "chrome"; "edge"].

Definition stringListContains (l : list string) (s : string) : bool :=
  existsb (fun x => bool_decide (x = s)) l.

(** The character class [[;|`$\(\)\{\}\[\]<>]]. *)
Definition dangerousChars : list ascii :=
  [";"; "|"; "`"; "$"; "("; ")"; "{"; "}"; "["; "]"; "<"; ">"]%char.

Definition isDangerousChar (c : ascii) : bool :=
  existsb (fun d => bool_decide (d = c)) dangerousChars.

(** [dangerousChars.match(url).hasMatch()]. *)
Definition hasDangerousChar (url : string) : bool :=
  existsb isDangerousChar (QStr.chars url).

(** The character class [[a-zA-Z0-9 ._\-]]. *)
Definition isProfileChar (c : ascii) : bool :=
  QStr.isLower c || QStr.isUpper c || QStr.isDigit c ||
  existsb (fun d => bool_decide (d = c)) [" "; "."; "_"; "-"]%char.

(** [^[a-zA-Z0-9 ._\-]+$] under PCRE: [$] also matches before one final
    newline. *)
Fixpoint matchesValidProfile (l : list ascii) : bool :=
  match l with
  | [] => false
  | [c] => isProfileChar c
  | c :: (d :: rest) as tl =>
      isProfileChar c &&
      (matchesValidProfile tl ||
       match rest with [] => bool_decide (d = "010"%char) | _ => false end)
  end.

Section Validation.

(** [QUrl qurl(url)] in the default tolerant mode. *)
Variable parseUrl : string -> QUrl.

Definition isValidUrl (url : string) : bool :=
  if QStr.isEmpty url then false
  else
    let qurl := parseUrl url in
    (* URLs without "://" are let through too (https:// gets prefixed) *)
    let schemeless :=
      if negb (QStr.contains url "://") then negb (hasDangerousChar url) else false in
    if isValid qurl then
      let scheme := QStr.toLower (scheme qurl) in
      if QStr.isEmpty scheme || stringListContains allowedSchemes scheme
      then negb (hasDangerousChar url)
      else schemeless
    else schemeless.

End Validation.

Definition isValidProfileName (profileName : string) : bool :=
  if QStr.isEmpty profileName then false
  else matchesValidProfile (QStr.chars profileName).

Definition sanitizeUrl (url : string) : string :=
  QStr.trimmed (QStr.removeNul url).

Definition sanitizeProfileName (profileName : string) : string :=
  QStr.filterChars isProfileChar (QStr.trimmed (QStr.removeNul profileName)).


(** ** The file system as the detector reads it *)

(** Parsed JSON, as [QJsonDocument::fromJson] hands it over.  Numbers are
    kept to the integers; a document that does not parse is [JNull]. *)
Inductive Json :=
| JNull
| JBool (b : bool)
| JNumber (n : Z)
| JString (s : string)
| JArray (items : list Json)
| JObject (members : list (string * Json)).

(** What a regular file holds, seen through the reader that opens it:
    a JSON text, an INI text (groups in [QSettings::childGroups] order, each
    with its keys), or anything else. *)
Inductive FileContent :=
| JsonText (doc : Json)
| IniText (groups : list (string * list (string * string)))
| OtherData.

Record FsNode := mkFsNode {
  isDir : bool;
  isExecutable : bool;
  isReadable : bool;
  lastModified : Z;
  content : FileContent
}.

(** [nodes] answers for a path string as it is handed to Qt;
    [searchPath] is [QStandardPaths::findExecutable]. *)
Record FileSystem := mkFileSystem {
  homePath : string;
  nodes : gmap string FsNode;
  searchPath : gmap string string
}.

Module Fs.

(** [QFile::exists]. *)
Definition exists_ (fs : FileSystem) (p : string) : bool :=
  bool_decide (is_Some (nodes fs !! p)).

(** [QFileInfo(p).isExecutable()]. *)
Definition executable (fs : FileSystem) (p : string) : bool :=
  match nodes fs !! p with Some n => isExecutable n | None => false end.

(** [QDir(p).exists()]. *)
Definition dirExists (fs : FileSystem) (p : string) : bool :=
  match nodes fs !! p with Some n => isDir n | None => false end.

(** [QFileInfo(p).lastModified()]: invalid when there is no such path. *)
Definition modified (fs : FileSystem) (p : string) : option Z :=
  lastModified <$> nodes fs !! p.

(** [QFile::open(ReadOnly)] followed by [readAll]. *)
Definition open (fs : FileSystem) (p : string) : option FileContent :=
  match nodes fs !! p with
  | Some n => if negb (isDir n) && isReadable n then Some (content n) else None
  | None => None
  end.

(** [QJsonDocument::fromJson] of what was read. *)
Definition asJson (c : FileContent) : Json :=
  match c with JsonText doc => doc | _ => JNull end.

(** [QSettings(path, IniFormat)]: no groups when the file cannot be read. *)
Definition iniGroups (fs : FileSystem) (p : string) : list (string * list (string * string)) :=
  match open fs p with Some (IniText groups) => groups | _ => [] end.

End Fs.

Module Js.

Definition isObject (j : Json) : bool :=
  match j with JObject _ => true | _ => false end.

(** [QJsonDocument::object] / [QJsonValue::toObject]: empty unless an object. *)
Definition toObject (j : Json) : list (string * Json) :=
  match j with JObject members => members | _ => [] end.

(** [QJsonObject::operator[]]: [JNull] stands in for the undefined value. *)
Fixpoint value (members : list (string * Json)) (key : string) : Json :=
  match members with
  | [] => JNull
  | (k, v) :: rest => if decide (k = key) then v else value rest key
  end.

Definition toString (j : Json) : string :=
  match j with JString s => s | _ => "" end.

(** [QJsonValue::toDouble], on the integers. *)
Definition toDouble (j : Json) : Z :=
  match j with JNumber n => n | _ => 0 end.

End Js.

(** ** Constants (constants.h) *)

Module Constants.
Definition DEFAULT_TIMEOUT : Z := 10.
Definition MIN_TIMEOUT : Z := 5.
Definition MAX_TIMEOUT : Z := 60.
Definition FIREFOX_CONFIG : string := "profiles.ini".
Definition CHROME_CONFIG : string := "Local State".
Definition FIREFOX_EXECUTABLE : string := "firefox".
Definition CHROME_EXECUTABLE : string := "google-chrome".
Definition CHROMIUM_EXECUTABLE : string := "chromium".
Definition CHROME_EXECUTABLE_VARIANTS : list string :=
  ["google-chrome"; "google-chrome-stable"; "google-chrome-beta"; "google-chrome-unstable"].
Definition CONFIG_GROUP_GENERAL : string := "General".
Definition CONFIG_GROUP_BROWSERS : string := "Browsers".
Definition CONFIG_GROUP_LAST_USED : string := "LastUsed".
Definition CONFIG_KEY_DEFAULT_TIMEOUT : string := "DefaultTimeout".
Definition CONFIG_KEY_REMEMBER_LAST_USED : string := "RememberLastUsed".
Inductive BrowserType := Firefox | Chrome | Chromium | Unknown.
End Constants.

(** ** BrowserDetector (browserdetector.h, browserdetector.cpp) *)

Record ProfileInfo := mkProfileInfo {
  pi_name : string;
  pi_path : string;
  pi_displayName : string;
  pi_lastUsed : option Z;
  pi_isDefault : bool
}.

(** [ProfileInfo(n, p)]. *)
Definition newProfileInfo (n p : string) : ProfileInfo :=
  mkProfileInfo n p n None false.

Record BrowserInfo := mkBrowserInfo {
  bi_name : string;
  bi_executable : string;
  bi_iconPath : string;
  bi_profiles : gmap string ProfileInfo;
  bi_type : Constants.BrowserType
}.

(** The detector's members. The two discovery signals ([browserDetected],
    [profileDetected]) only reach a debug log and are left out. *)
Record BrowserDetector := mkBrowserDetector {
  m_cachedBrowsers : gmap string BrowserInfo;
  m_lastDetection : option Z;
  m_execOverrides : gmap string string;
  m_enabledOverrides : gmap string bool
}.

(** The detector right after its constructor. *)
Definition newBrowserDetector : BrowserDetector :=
  mkBrowserDetector ∅ None ∅ ∅.

Definition setExecutableOverrides (overrides : gmap string string) (d : BrowserDetector)
  : BrowserDetector :=
  mkBrowserDetector (m_cachedBrowsers d) (m_lastDetection d) overrides (m_enabledOverrides d).

Definition setEnabledOverrides (overrides : gmap string bool) (d : BrowserDetector)
  : BrowserDetector :=
  mkBrowserDetector (m_cachedBrowsers d) (m_lastDetection d) (m_execOverrides d) overrides.

(** [QDateTime::secsTo]: whole seconds, rounded towards zero. *)
Definition secsTo (from to : Z) : Z := Z.quot (to - from) 1000.

Definition commonPaths (fs : FileSystem) (name : string) : list string :=
  [ "/usr/bin/" +:+ name;
    "/usr/local/bin/" +:+ name;
    "/opt/" +:+ name +:+ "/" +:+ name;
    homePath fs +:+ "/.local/bin/" +:+ name ].

Definition findExecutable (fs : FileSystem) (name : string) : string :=
  let path := default "" (searchPath fs !! name) in
  if negb (QStr.isEmpty path) then path
  else
    match List.find (fun p => Fs.exists_ fs p && Fs.executable fs p) (commonPaths fs name) with
    | Some p => p
    | None => ""
    end.

Fixpoint findExecutableFromList (fs : FileSystem) (names : list string) : string :=
  match names with
  | [] => ""
  | name :: rest =>
      let exec := findExecutable fs name in
      if negb (QStr.isEmpty exec) then exec else findExecutableFromList fs rest
  end.

Definition getFirefoxProfilePath (fs : FileSystem) : string :=
  homePath fs +:+ "/.mozilla/firefox".

Definition getChromeProfilePath (fs : FileSystem) (browserName : string) : string :=
  homePath fs +:+ "/.config/" +:+ browserName.

Definition getProfileLastUsed (fs : FileSystem) (browserPath profilePath : string) : option Z :=
  let fallback := Fs.modified fs profilePath in
  if decide (browserPath = "firefox") then
    let timesPath := profilePath +:+ "/times.json" in
    if Fs.exists_ fs timesPath then
      match Fs.open fs timesPath with
      | Some c =>
          let doc := Fs.asJson c in
          if Js.isObject doc then
            (* milliseconds to seconds *)
            let firstUse := Z.quot (Js.toDouble (Js.value (Js.toObject doc) "firstUse")) 1000 in
            if 0 <? firstUse then Some (firstUse * 1000) else fallback
          else fallback
      | None => fallback
      end
    else fallback
  else if bool_decide (browserPath = "chrome") || bool_decide (browserPath = "chromium") then
    let prefsPath := profilePath +:+ "/Preferences" in
    if Fs.exists_ fs prefsPath then Fs.modified fs prefsPath
    else fallback
  else fallback.

Definition withLastUsed (t : option Z) (p : ProfileInfo) : ProfileInfo :=
  mkProfileInfo (pi_name p) (pi_path p) (pi_displayName p) t (pi_isDefault p).

Definition withDisplayName (n : string) (p : ProfileInfo) : ProfileInfo :=
  mkProfileInfo (pi_name p) (pi_path p) n (pi_lastUsed p) (pi_isDefault p).

Definition withIsDefault (b : bool) (p : ProfileInfo) : ProfileInfo :=
  mkProfileInfo (pi_name p) (pi_path p) (pi_displayName p) (pi_lastUsed p) b.

(** [QSettings::value(key).toString()]: empty when the key is missing. *)
Fixpoint iniValue (keys : list (string * string)) (key : string) : string :=
  match keys with
  | [] => ""
  | (k, v) :: rest => if decide (k = key) then v else iniValue rest key
  end.

(** [QVariant::toBool] of a string: false for the empty string, "0" and
    "false" in any case. *)
Definition variantToBool (v : string) : bool :=
  negb (stringListContains [""; "0"; "false"] (QStr.toLower v)).

Fixpoint parseFirefoxIni (groups : list (string * list (string * string)))
    (profiles : gmap string ProfileInfo) : gmap string ProfileInfo :=
  match groups with
  | [] => profiles
  | (group, keys) :: rest =>
      if negb (QStr.startsWith group "Profile") then parseFirefoxIni rest profiles
      else
        let name := iniValue keys "Name" in
        let path := iniValue keys "Path" in
        let isDefault := variantToBool (iniValue keys "Default") in
        if negb (QStr.isEmpty name) && negb (QStr.isEmpty path)
        then parseFirefoxIni rest (<[name := withIsDefault isDefault (newProfileInfo name path)]> profiles)
        else parseFirefoxIni rest profiles
  end.

Definition getFirefoxProfiles (fs : FileSystem) : gmap string ProfileInfo :=
  let profilesPath := getFirefoxProfilePath fs in
  let iniPath := profilesPath +:+ "/" +:+ Constants.FIREFOX_CONFIG in
  if negb (Fs.exists_ fs iniPath) then ∅
  else
    let profiles := parseFirefoxIni (Fs.iniGroups fs iniPath) ∅ in
    (fun profile =>
       withLastUsed (getProfileLastUsed fs "firefox" (profilesPath +:+ "/" +:+ pi_path profile))
                    profile) <$> profiles.

(** The loop over [info_cache] of [parseChromiumLocalState]. *)
Fixpoint addCachedProfiles (fs : FileSystem) (configDir : string)
    (infoCache : list (string * Json)) (profiles : gmap string ProfileInfo)
  : gmap string ProfileInfo :=
  match infoCache with
  | [] => profiles
  | (profileDir, info) :: rest =>
      let name0 := Js.toString (Js.value (Js.toObject info) "name") in
      let name := if QStr.isEmpty name0 then profileDir else name0 in
      let profile := withDisplayName name (newProfileInfo name profileDir) in
      let profilePath := configDir +:+ "/" +:+ profileDir in
      if Fs.dirExists fs profilePath
      then addCachedProfiles fs configDir rest (<[profileDir := profile]> profiles)
      else addCachedProfiles fs configDir rest profiles
  end.

Definition parseChromiumLocalState (fs : FileSystem) (localStatePath configDir : string)
    (profiles : gmap string ProfileInfo) : gmap string ProfileInfo :=
  match Fs.open fs localStatePath with
  | None => profiles
  | Some data =>
      let doc := Fs.asJson data in
      if negb (Js.isObject doc) then profiles
      else
        let root := Js.toObject doc in
        let profileObj := Js.toObject (Js.value root "profile") in
        let infoCache := Js.toObject (Js.value profileObj "info_cache") in
        (* Always add Default profile *)
        let defaultProfile := withDisplayName "Default" (newProfileInfo "Default" "Default") in
        addCachedProfiles fs configDir infoCache (<["Default" := defaultProfile]> profiles)
  end.

Definition getChromeProfiles (fs : FileSystem) (browserName : string) : gmap string ProfileInfo :=
  let configPath := getChromeProfilePath fs browserName in
  let localStatePath := configPath +:+ "/" +:+ Constants.CHROME_CONFIG in
  if negb (Fs.exists_ fs localStatePath) then ∅
  else
    let profiles := parseChromiumLocalState fs localStatePath configPath ∅ in
    (fun profile =>
       withLastUsed (getProfileLastUsed fs browserName (configPath +:+ "/" +:+ pi_path profile))
                    profile) <$> profiles.

(** [m_enabledOverrides.contains(id) && !m_enabledOverrides.value(id)]. *)
Definition explicitlyDisabled (d : BrowserDetector) (id : string) : bool :=
  match m_enabledOverrides d !! id with Some false => true | _ => false end.

Definition detectFirefox (d : BrowserDetector) (fs : FileSystem)
    (browsers : gmap string BrowserInfo) : gmap string BrowserInfo :=
  if explicitlyDisabled d "firefox" then browsers
  else
    let override := default "" (m_execOverrides d !! "firefox") in
    let firefoxExec :=
      if QStr.isEmpty override then findExecutable fs Constants.FIREFOX_EXECUTABLE else override in
    if negb (QStr.isEmpty firefoxExec) then
      <["firefox" := mkBrowserInfo "Firefox" firefoxExec
                       "/usr/share/icons/hicolor/48x48/apps/firefox.png"
                       (getFirefoxProfiles fs) Constants.Firefox]> browsers
    else browsers.

Definition detectChrome (d : BrowserDetector) (fs : FileSystem)
    (browsers : gmap string BrowserInfo) : gmap string BrowserInfo :=
  if explicitlyDisabled d "chrome" then browsers
  else
    let override := default "" (m_execOverrides d !! "chrome") in
    let chromeExec :=
      if QStr.isEmpty override
      then findExecutableFromList fs Constants.CHROME_EXECUTABLE_VARIANTS else override in
    if negb (QStr.isEmpty chromeExec) then
      <["chrome" := mkBrowserInfo "Google Chrome" chromeExec
                      "/usr/share/icons/hicolor/48x48/apps/google-chrome.png"
                      (getChromeProfiles fs "google-chrome") Constants.Chrome]> browsers
    else browsers.

Definition detectChromium (d : BrowserDetector) (fs : FileSystem)
    (browsers : gmap string BrowserInfo) : gmap string BrowserInfo :=
  if explicitlyDisabled d "chromium" then browsers
  else
    let override := default "" (m_execOverrides d !! "chromium") in
    let chromiumExec :=
      if QStr.isEmpty override then findExecutable fs Constants.CHROMIUM_EXECUTABLE else override in
    if negb (QStr.isEmpty chromiumExec) then
      <["chromium" := mkBrowserInfo "Chromium" chromiumExec
                        "/usr/share/icons/hicolor/48x48/apps/chromium.png"
                        (getChromeProfiles fs "chromium") Constants.Chromium]> browsers
    else browsers.

(** The scan of [detectBrowsers], past the cache test. *)
Definition scanBrowsers (d : BrowserDetector) (fs : FileSystem) : gmap string BrowserInfo :=
  detectChromium d fs (detectChrome d fs (detectFirefox d fs ∅)).

(** The cache test that opens [detectBrowsers]. *)
Definition cacheIsFresh (d : BrowserDetector) (now : Z) : bool :=
  negb (bool_decide (m_cachedBrowsers d = ∅)) &&
  match m_lastDetection d with
  | Some last => secsTo last now <? 5
  | None => false
  end.

(** [detectBrowsers()] against the file system [fs]: the returned map and the
    detector afterwards.  [now] is the clock reading of the cache test, [stamp]
    the later reading stored with a fresh scan. *)
Definition detectBrowsers (d : BrowserDetector) (fs : FileSystem) (now stamp : Z)
  : gmap string BrowserInfo * BrowserDetector :=
  if cacheIsFresh d now then (m_cachedBrowsers d, d)
  else
    let browsers := scanBrowsers d fs in
    (browsers, mkBrowserDetector browsers (Some stamp) (m_execOverrides d) (m_enabledOverrides d)).

(** *** Launching *)

Inductive DetectorSignal :=
| launchError (error : string).

(** What [QProcess::startDetached] reports back: whether the spawn request
    was accepted, and the [QProcess::ProcessError] it raised through
    [errorOccurred] while doing so, if any. *)
Record SpawnReport := mkSpawnReport {
  accepted : bool;
  errorOccurred : option Z
}.

Record LaunchOutcome := mkLaunchOutcome {
  lo_success : bool;
  lo_signals : list DetectorSignal;
  (** the spawn requests handed to the operating system: program and arguments *)
  lo_spawned : list (string * list string)
}.

Definition launchFailure (error : string) : LaunchOutcome :=
  mkLaunchOutcome false [launchError error] [].

Section Launch.

Variable parseUrl : string -> QUrl.
Variable startDetached : string -> list string -> SpawnReport.

Definition launchBrowser (d : BrowserDetector) (browser profile url : string) : LaunchOutcome :=
  let sanitizedUrl := sanitizeUrl url in
  let sanitizedProfile := sanitizeProfileName profile in
  if negb (isValidUrl parseUrl sanitizedUrl) then
    launchFailure ("Invalid URL: " +:+ url)
  else if negb (isValidProfileName sanitizedProfile) then
    launchFailure ("Invalid profile name: " +:+ profile)
  else
    match m_cachedBrowsers d !! browser with
    | None => launchFailure ("Browser " +:+ browser +:+ " not found")
    | Some browserInfo =>
        if negb (bool_decide (is_Some (bi_profiles browserInfo !! sanitizedProfile))) then
          launchFailure ("Profile " +:+ sanitizedProfile +:+ " not found for browser " +:+ browser)
        else
          let spawn args :=
            let report := startDetached (bi_executable browserInfo) args in
            mkLaunchOutcome (accepted report)
              match errorOccurred report with
              | Some error =>
                  [launchError ("Failed to launch " +:+ browser +:+ ": " +:+ pretty error)]
              | None => []
              end
              [(bi_executable browserInfo, args)] in
          match bi_type browserInfo with
          | Constants.Firefox => spawn ["-P"; sanitizedProfile; sanitizedUrl]
          | Constants.Chrome | Constants.Chromium =>
              spawn ["--profile-directory=" +:+ sanitizedProfile; sanitizedUrl]
          | Constants.Unknown => launchFailure "Unknown browser type"
          end
    end.

End Launch.

(** ** ConfigManager (configmanager.cpp) *)

(** A [KConfig] entry.  The store keeps the value as it was written: reading
    back at the type written returns it, reading at another type returns the
    caller's default. *)
Inductive ConfigValue :=
| CfgInt (n : Z)
| CfgBool (b : bool)
| CfgString (s : string).

Inductive ConfigSignal :=
| configChanged
| cfg_profileSettingsChanged (browser profile : string).

(** [m_config] is keyed by (group, key); [sync] writes the store out and
    does not change it. *)
Record ConfigManager := mkConfigManager {
  m_config : gmap (string * string) ConfigValue;
  m_browserExecOverrides : gmap string string;
  m_browserEnabledOverrides : gmap string bool
}.

Module KConfig.

Definition readInt (c : ConfigManager) (group key : string) (def : Z) : Z :=
  match m_config c !! (group, key) with Some (CfgInt n) => n | _ => def end.

Definition readBool (c : ConfigManager) (group key : string) (def : bool) : bool :=
  match m_config c !! (group, key) with Some (CfgBool b) => b | _ => def end.

Definition readString (c : ConfigManager) (group key : string) (def : string) : string :=
  match m_config c !! (group, key) with Some (CfgString s) => s | _ => def end.

Definition writeEntry (c : ConfigManager) (group key : string) (v : ConfigValue) : ConfigManager :=
  mkConfigManager (<[(group, key) := v]> (m_config c))
                  (m_browserExecOverrides c) (m_browserEnabledOverrides c).

End KConfig.

(** [qBound(min, val, max)]. *)
Definition qBound (min val max : Z) : Z := Z.max min (Z.min max val).

(** The group path ["Browsers/<browser>/<profile>"]. *)
Definition profileGroup (browser profile : string) : string :=
  Constants.CONFIG_GROUP_BROWSERS +:+ "/" +:+ browser +:+ "/" +:+ profile.

Definition defaultTimeout (c : ConfigManager) : Z :=
  KConfig.readInt c Constants.CONFIG_GROUP_GENERAL Constants.CONFIG_KEY_DEFAULT_TIMEOUT
                  Constants.DEFAULT_TIMEOUT.

Definition setDefaultTimeout (c : ConfigManager) (seconds : Z)
  : ConfigManager * list ConfigSignal :=
  let seconds := qBound Constants.MIN_TIMEOUT seconds Constants.MAX_TIMEOUT in
  (KConfig.writeEntry c Constants.CONFIG_GROUP_GENERAL Constants.CONFIG_KEY_DEFAULT_TIMEOUT
                      (CfgInt seconds),
   [configChanged]).

Definition rememberLastUsed (c : ConfigManager) : bool :=
  KConfig.readBool c Constants.CONFIG_GROUP_GENERAL Constants.CONFIG_KEY_REMEMBER_LAST_USED true.

Definition setRememberLastUsed (c : ConfigManager) (remember : bool)
  : ConfigManager * list ConfigSignal :=
  (KConfig.writeEntry c Constants.CONFIG_GROUP_GENERAL Constants.CONFIG_KEY_REMEMBER_LAST_USED
                      (CfgBool remember),
   [configChanged]).

Definition isProfileEnabled (c : ConfigManager) (browser profile : string) : bool :=
  KConfig.readBool c (profileGroup browser profile) "Enabled" true.

Definition getProfileDisplayName (c : ConfigManager) (browser profile : string) : string :=
  KConfig.readString c (profileGroup browser profile) "DisplayName" profile.

Definition getProfileOrder (c : ConfigManager) (browser profile : string) : Z :=
  KConfig.readInt c (profileGroup browser profile) "Order" 999.

Definition getLastUsed (c : ConfigManager) : string * string :=
  (KConfig.readString c Constants.CONFIG_GROUP_LAST_USED "Browser" "",
   KConfig.readString c Constants.CONFIG_GROUP_LAST_USED "Profile" "").

Definition setLastUsed (c : ConfigManager) (browser profile : string) : ConfigManager :=
  if negb (rememberLastUsed c) then c
  else
    KConfig.writeEntry
      (KConfig.writeEntry c Constants.CONFIG_GROUP_LAST_USED "Browser" (CfgString browser))
      Constants.CONFIG_GROUP_LAST_USED "Profile" (CfgString profile).

(** ** ProfileManager (profilemanager.h, profilemanager.cpp) *)

Record ProfileEntry := mkProfileEntry {
  browser : string;
  browserDisplayName : string;
  profileId : string;
  profileDisplayName : string;
  iconPath : string;
  lastUsed : option Z;
  isEnabled : bool;
  isDefault : bool;
  order : Z
}.

(** [ProfileEntry()]: the empty entry, told apart by its empty browser id. *)
Definition emptyProfileEntry : ProfileEntry :=
  mkProfileEntry "" "" "" "" "" None true false 999.

(** [ProfileEntry::operator<]. *)
Definition entry_lt (a b : ProfileEntry) : bool :=
  if negb (order a =? order b) then order a <? order b
  else if negb (bool_decide (browser a = browser b)) then String.ltb (browser a) (browser b)
  else String.ltb (profileDisplayName a) (profileDisplayName b).

Section InsertionSort.
Context {A : Type} (lt : A -> A -> bool).

Fixpoint insertSorted (x : A) (l : list A) : list A :=
  match l with
  | [] => [x]
  | y :: l' => if lt y x then y :: insertSorted x l' else x :: l
  end.

Fixpoint insertionSort (l : list A) : list A :=
  match l with
  | [] => []
  | x :: l' => insertSorted x (insertionSort l')
  end.
End InsertionSort.

(** What [std::sort] with [operator<] promises of its result: the same
    elements, none placed after one it precedes.  The order among equivalent
    elements is left open. *)
Abbreviation SortedEntries := (StronglySorted (fun a b => entry_lt b a = false)).

Definition std_sort_result (l l' : list ProfileEntry) : Prop :=
  Permutation l l' /\ SortedEntries l'.

(** [sortProfiles]: one sort that [std::sort] may perform (see
    [sortProfiles_is_std_sort]). *)
Definition sortProfiles (profiles : list ProfileEntry) : list ProfileEntry :=
  insertionSort entry_lt profiles.

(** Iteration over a [QMap<QString, V>]: by ascending key. *)
Definition qmapItems {V : Type} (m : gmap string V) : list (string * V) :=
  insertionSort (fun a b => String.ltb (fst a) (fst b)) (map_to_list m).

Inductive ManagerSignal :=
| profilesRefreshed
| profileLaunched (browser profile : string)
| profileLaunchFailed (error : string)
| profileSettingsChanged (browser profile : string).

(** The manager with the detector it owns and the configuration it points to. *)
Record ProfileManager := mkProfileManager {
  m_browserDetector : BrowserDetector;
  m_configManager : ConfigManager;
  m_profiles : list ProfileEntry;
  m_lastRefresh : option Z
}.

Definition updateProfileFromConfig (c : ConfigManager) (entry : ProfileEntry) : ProfileEntry :=
  let enabled := isProfileEnabled c (browser entry) (profileId entry) in
  let customName := getProfileDisplayName c (browser entry) (profileId entry) in
  let displayName :=
    if negb (QStr.isEmpty customName) && negb (bool_decide (customName = profileId entry))
    then customName else profileDisplayName entry in
  mkProfileEntry (browser entry) (browserDisplayName entry) (profileId entry) displayName
                 (iconPath entry) (lastUsed entry) enabled (isDefault entry)
                 (getProfileOrder c (browser entry) (profileId entry)).

(** The body of the two nested loops of [refreshProfiles]. *)
Definition makeEntry (c : ConfigManager) (browserId : string) (browserInfo : BrowserInfo)
    (profileId : string) (profileInfo : ProfileInfo) : ProfileEntry :=
  updateProfileFromConfig c
    (mkProfileEntry browserId (bi_name browserInfo) profileId (pi_displayName profileInfo)
                    (bi_iconPath browserInfo) (pi_lastUsed profileInfo)
                    true (pi_isDefault profileInfo) 999).

Definition flattenProfiles (c : ConfigManager) (browsers : gmap string BrowserInfo)
  : list ProfileEntry :=
  List.concat
    (List.map (fun '(browserId, browserInfo) =>
                 List.map (fun '(profileId, profileInfo) =>
                             makeEntry c browserId browserInfo profileId profileInfo)
                          (qmapItems (bi_profiles browserInfo)))
              (qmapItems browsers)).

Definition refreshProfiles (pm : ProfileManager) (fs : FileSystem) (now stamp refreshed : Z)
  : ProfileManager * list ManagerSignal :=
  let '(browsers, detector) := detectBrowsers (m_browserDetector pm) fs now stamp in
  (mkProfileManager detector (m_configManager pm)
                    (sortProfiles (flattenProfiles (m_configManager pm) browsers))
                    (Some refreshed),
   [profilesRefreshed]).

Definition getAllProfiles (pm : ProfileManager) (enabledOnly : bool) : list ProfileEntry :=
  if enabledOnly then List.filter isEnabled (m_profiles pm) else m_profiles pm.

Definition matchesKey (browser0 profileId0 : string) (entry : ProfileEntry) : bool :=
  bool_decide (browser entry = browser0) && bool_decide (profileId entry = profileId0).

Definition getProfile (pm : ProfileManager) (browser0 profileId0 : string) : ProfileEntry :=
  match List.find (matchesKey browser0 profileId0) (m_profiles pm) with
  | Some entry => entry
  | None => emptyProfileEntry
  end.

Definition hasProfile (pm : ProfileManager) (browser0 profileId0 : string) : bool :=
  existsb (matchesKey browser0 profileId0) (m_profiles pm).

Definition getDefaultProfile (pm : ProfileManager) : ProfileEntry :=
  let lastUsedPair := getLastUsed (m_configManager pm) in
  let firstEnabled :=
    match getAllProfiles pm true with
    | entry :: _ => entry
    | [] => emptyProfileEntry
    end in
  if negb (QStr.isEmpty (fst lastUsedPair)) && negb (QStr.isEmpty (snd lastUsedPair)) then
    let entry := getProfile pm (fst lastUsedPair) (snd lastUsedPair) in
    if negb (QStr.isEmpty (browser entry)) && isEnabled entry then entry
    else firstEnabled
  else firstEnabled.

(** [onLaunchError], the slot connected to the detector's [launchError]. *)
Definition onLaunchError (s : DetectorSignal) : ManagerSignal :=
  match s with launchError error => profileLaunchFailed error end.

Record ManagerLaunch := mkManagerLaunch {
  ml_success : bool;
  ml_manager : ProfileManager;
  ml_signals : list ManagerSignal;
  ml_spawned : list (string * list string)
}.

Section ManagerLaunch.

Variable parseUrl : string -> QUrl.
Variable startDetached : string -> list string -> SpawnReport.

Definition launchProfile (pm : ProfileManager) (browser0 profileId0 url : string)
  : ManagerLaunch :=
  let out := launchBrowser parseUrl startDetached (m_browserDetector pm) browser0 profileId0 url in
  let forwarded := List.map onLaunchError (lo_signals out) in
  if lo_success out then
    mkManagerLaunch true
      (mkProfileManager (m_browserDetector pm)
                        (setLastUsed (m_configManager pm) browser0 profileId0)
                        (m_profiles pm) (m_lastRefresh pm))
      (forwarded ++ [profileLaunched browser0 profileId0])
      (lo_spawned out)
  else
    mkManagerLaunch false pm forwarded (lo_spawned out).

End ManagerLaunch.

(** [ProfileManager(configManager)]: a manager with a detector of its own. *)
Definition newProfileManager (c : ConfigManager) : ProfileManager :=
  mkProfileManager newBrowserDetector c [] None.

(** ** Runs and sample installations *)

(** A detector that received its overrides before any discovery. *)
Definition configuredDetector (execOverrides : gmap string string)
    (enabledOverrides : gmap string bool) : BrowserDetector :=
  setEnabledOverrides enabledOverrides (setExecutableOverrides execOverrides newBrowserDetector).


(** The last-used time discovery attached to a profile, if it listed it. *)
Definition discoveredLastUsed (browsers : gmap string BrowserInfo) (browserId profile : string)
  : option (option Z) :=
  match browsers !! browserId with
  | Some browserInfo => pi_lastUsed <$> bi_profiles browserInfo !! profile
  | None => None
  end.

(** The manager [pm] pointed at another configuration. *)
Definition withConfig (c : ConfigManager) (pm : ProfileManager) : ProfileManager :=
  mkProfileManager (m_browserDetector pm) c (m_profiles pm) (m_lastRefresh pm).

(** The sort key [operator<] looks at. *)
Definition sortKey (e : ProfileEntry) : Z * string * string :=
  (order e, browser e, profileDisplayName e).

Module Sample.

Definition dir (mtime : Z) : FsNode := mkFsNode true true true mtime OtherData.
Definition program : FsNode := mkFsNode false true true 0 OtherData.
Definition file (mtime : Z) (c : FileContent) : FsNode := mkFsNode false false true mtime c.

Definition home : string := "/home/user".

(** Two Chromium profile directories that carry the same human name. *)
Definition localState : Json :=
  JObject [("profile",
    JObject [("info_cache",
      JObject [("Profile 1", JObject [("name", JString "Work")]);
               ("Profile 2", JObject [("name", JString "Work")])])])].

Definition chromiumTree (root : string) (state : FileContent) : list (string * FsNode) :=
  [ (root +:+ "/Local State", file 50 state);
    (root +:+ "/Default", dir 100);
    (root +:+ "/Default/Preferences", file 200 (JsonText (JObject [])));
    (root +:+ "/Profile 1", dir 110);
    (root +:+ "/Profile 2", dir 120) ].

(** Google Chrome and Chromium installed, with the same profile layout. *)
Definition chromeFamily : FileSystem :=
  mkFileSystem home
    (list_to_map
       ([ ("/usr/bin/google-chrome", program); ("/usr/bin/chromium", program) ]
        ++ chromiumTree "/home/user/.config/google-chrome" (JsonText localState)
        ++ chromiumTree "/home/user/.config/chromium" (JsonText localState)))
    ∅.

(** Chromium whose state file is there but holds no JSON object. *)
Definition brokenState : FileSystem :=
  mkFileSystem home
    (list_to_map
       (("/usr/bin/chromium", program)
        :: chromiumTree "/home/user/.config/chromium" (JsonText (JArray []))))
    ∅.

(** Firefox installed, with one profile named Work. *)
Definition firefoxOnly : FileSystem :=
  mkFileSystem home
    (list_to_map
       [ ("/usr/bin/firefox", program);
         ("/home/user/.mozilla/firefox/profiles.ini",
          file 10 (IniText [("General", [("StartWithLastProfile", "1")]);
                            ("Profile0", [("Name", "Work"); ("Path", "work.default");
                                          ("Default", "1")])]));
         ("/home/user/.mozilla/firefox/work.default", dir 300) ])
    {["firefox" := "/usr/bin/firefox"]}.

(** Nothing installed. *)
Definition bare : FileSystem := mkFileSystem home ∅ ∅.

(** A [QUrl] stand-in: valid, with the text before the first colon as the
    scheme when the string contains "://", and no scheme otherwise. *)
Fixpoint beforeColon (s : string) : string :=
  match s with
  | EmptyString => ""
  | String c s' => if decide (c = ":"%char) then "" else String c (beforeColon s')
  end.

Definition parseUrl (s : string) : QUrl :=
  mkQUrl true (if QStr.contains s "://" then beforeColon s else "").

(** A process layer that accepts every spawn request. *)
Definition spawnOk (prog : string) (args : list string) : SpawnReport :=
  mkSpawnReport true None.


Definition emptyConfig : ConfigManager := mkConfigManager ∅ ∅ ∅.

(** The registry a first refresh builds on [chromeFamily]. *)
Definition chromeRegistry : list ProfileEntry :=
  m_profiles (fst (refreshProfiles (newProfileManager emptyConfig) chromeFamily 0 0 0)).

Definition chromeWork (profileDir : string) (mtime : Z) : ProfileEntry :=
  mkProfileEntry "chrome" "Google Chrome" profileDir "Work"
                 "/usr/share/icons/hicolor/48x48/apps/google-chrome.png"
                 (Some mtime) true false 999.

End Sample.


(** ** The rest of BrowserDetector *)

(** [QFileInfo(p).isFile()]. *)
Definition isRegularFile (fs : FileSystem) (p : string) : bool :=
  match nodes fs !! p with Some n => negb (isDir n) | None => false end.

(** The lambda [existsAndExec] of [isBrowserInstalled]. *)
Definition existsAndExec (fs : FileSystem) (p : string) : bool :=
  if QStr.isEmpty p then false
  else Fs.exists_ fs p && isRegularFile fs p && Fs.executable fs p.

Definition isBrowserInstalled (d : BrowserDetector) (fs : FileSystem) (browserName : string)
  : bool :=
  if decide (browserName = "firefox") then
    if explicitlyDisabled d "firefox" then false
    else if existsAndExec fs (default "" (m_execOverrides d !! "firefox")) then true
    else negb (QStr.isEmpty (findExecutable fs Constants.FIREFOX_EXECUTABLE))
  else if decide (browserName = "chrome") then
    if explicitlyDisabled d "chrome" then false
    else if existsAndExec fs (default "" (m_execOverrides d !! "chrome")) then true
    else negb (QStr.isEmpty (findExecutable fs Constants.CHROME_EXECUTABLE))
  else if decide (browserName = "chromium") then
    if explicitlyDisabled d "chromium" then false
    else if existsAndExec fs (default "" (m_execOverrides d !! "chromium")) then true
    else negb (QStr.isEmpty (findExecutable fs Constants.CHROMIUM_EXECUTABLE))
  else false.

Definition getBrowserIcon (d : BrowserDetector) (browserName : string) : string :=
  match m_cachedBrowsers d !! browserName with
  | Some info => bi_iconPath info
  | None => ""
  end.

(** The three ids discovery knows. *)
Definition knownBrowsers : list string := ["firefox"; "chrome"; "chromium"].

(** The [BrowserType] discovery gives to an id. *)
Definition typeOfBrowser (id : string) : Constants.BrowserType :=
  if decide (id = "firefox") then Constants.Firefox
  else if decide (id = "chrome") then Constants.Chrome
  else if decide (id = "chromium") then Constants.Chromium
  else Constants.Unknown.

(** ** The rest of ConfigManager *)

Definition CONFIG_KEY_SHOW_TRAY_ICON : string := "ShowTrayIcon".

(** [KConfigGroup::deleteEntry]. *)
Definition deleteEntry (c : ConfigManager) (group key : string) : ConfigManager :=
  mkConfigManager (delete (group, key) (m_config c))
                  (m_browserExecOverrides c) (m_browserEnabledOverrides c).

(** [KConfigGroup::exists]: the group has an entry. *)
Definition groupExists (c : ConfigManager) (group : string) : bool :=
  existsb (fun kv : string * string * ConfigValue => bool_decide (fst (fst kv) = group))
          (map_to_list (m_config c)).

(** [hasKey(group, key)]. *)
Definition hasKey (c : ConfigManager) (group key : string) : bool :=
  bool_decide (is_Some (m_config c !! (group, key))).

Definition showTrayIcon (c : ConfigManager) : bool :=
  KConfig.readBool c Constants.CONFIG_GROUP_GENERAL CONFIG_KEY_SHOW_TRAY_ICON false.

Definition setShowTrayIcon (c : ConfigManager) (show : bool) : ConfigManager * list ConfigSignal :=
  (KConfig.writeEntry c Constants.CONFIG_GROUP_GENERAL CONFIG_KEY_SHOW_TRAY_ICON (CfgBool show),
   [configChanged]).

Definition setProfileEnabled (c : ConfigManager) (browser0 profile : string) (enabled : bool)
  : ConfigManager * list ConfigSignal :=
  (KConfig.writeEntry c (profileGroup browser0 profile) "Enabled" (CfgBool enabled),
   [cfg_profileSettingsChanged browser0 profile]).

Definition setProfileDisplayName (c : ConfigManager) (browser0 profile name : string)
  : ConfigManager * list ConfigSignal :=
  (if QStr.isEmpty name || bool_decide (name = profile)
   then deleteEntry c (profileGroup browser0 profile) "DisplayName"
   else KConfig.writeEntry c (profileGroup browser0 profile) "DisplayName" (CfgString name),
   [cfg_profileSettingsChanged browser0 profile]).

Definition setProfileOrder (c : ConfigManager) (browser0 profile : string) (order0 : Z)
  : ConfigManager * list ConfigSignal :=
  (KConfig.writeEntry c (profileGroup browser0 profile) "Order" (CfgInt order0),
   [cfg_profileSettingsChanged browser0 profile]).

Definition browserExecutableOverride (c : ConfigManager) (browser0 : string) : string :=
  default "" (m_browserExecOverrides c !! browser0).

Definition isBrowserEnabledOverride (c : ConfigManager) (browser0 : string) : bool :=
  match m_browserEnabledOverrides c !! browser0 with
  | Some enabled => enabled
  | None => true
  end.

Definition migrateOldConfig (c : ConfigManager) : ConfigManager :=
  let configVersion := KConfig.readInt c Constants.CONFIG_GROUP_GENERAL "ConfigVersion" 1 in
  if configVersion <? 2
  then KConfig.writeEntry c Constants.CONFIG_GROUP_GENERAL "ConfigVersion" (CfgInt 2)
  else c.

Definition ensureConfigValid (c : ConfigManager) : ConfigManager * list ConfigSignal :=
  let '(c', signals) :=
    if negb (groupExists c Constants.CONFIG_GROUP_GENERAL) then
      let '(c1, s1) := setDefaultTimeout c Constants.DEFAULT_TIMEOUT in
      let '(c2, s2) := setRememberLastUsed c1 true in
      let '(c3, s3) := setShowTrayIcon c2 false in
      (c3, (s1 ++ s2 ++ s3)%list)
    else (c, []) in
  (migrateOldConfig c', signals).

(** ** The rest of ProfileManager *)

Definition withEnabled (enabled : bool) (e : ProfileEntry) : ProfileEntry :=
  mkProfileEntry (browser e) (browserDisplayName e) (profileId e) (profileDisplayName e)
                 (iconPath e) (lastUsed e) enabled (isDefault e) (order e).

Definition withProfileDisplayName (name : string) (e : ProfileEntry) : ProfileEntry :=
  mkProfileEntry (browser e) (browserDisplayName e) (profileId e) name
                 (iconPath e) (lastUsed e) (isEnabled e) (isDefault e) (order e).

Definition withOrder (order0 : Z) (e : ProfileEntry) : ProfileEntry :=
  mkProfileEntry (browser e) (browserDisplayName e) (profileId e) (profileDisplayName e)
                 (iconPath e) (lastUsed e) (isEnabled e) (isDefault e) order0.

(** [std::find_if] followed by an assignment through the iterator: the first
    entry that satisfies [pred] is replaced. *)
Fixpoint updateFirst (pred : ProfileEntry -> bool) (f : ProfileEntry -> ProfileEntry)
    (l : list ProfileEntry) : list ProfileEntry :=
  match l with
  | [] => []
  | e :: rest => if pred e then f e :: rest else e :: updateFirst pred f rest
  end.

(** The connection of [ConfigManager::profileSettingsChanged] to the
    manager's signal of the same name. *)
Definition forwardConfigSignal (s : ConfigSignal) : list ManagerSignal :=
  match s with
  | cfg_profileSettingsChanged b p => [profileSettingsChanged b p]
  | configChanged => []
  end.

(** The (browser id, profile id) key of an entry. *)
Definition entryKey (e : ProfileEntry) : string * string := (browser e, profileId e).

Module PM.

Definition getProfilesForBrowser (pm : ProfileManager) (browser0 : string) (enabledOnly : bool)
  : list ProfileEntry :=
  List.filter (fun entry => bool_decide (browser entry = browser0) &&
                            (negb enabledOnly || isEnabled entry))
              (m_profiles pm).

Definition setProfileEnabled (pm : ProfileManager) (browser0 profileId0 : string) (enabled : bool)
  : ProfileManager * list ManagerSignal :=
  let '(c, signals) := setProfileEnabled (m_configManager pm) browser0 profileId0 enabled in
  (mkProfileManager (m_browserDetector pm) c
     (updateFirst (matchesKey browser0 profileId0) (withEnabled enabled) (m_profiles pm))
     (m_lastRefresh pm),
   List.concat (List.map forwardConfigSignal signals)).

Definition setProfileDisplayName (pm : ProfileManager) (browser0 profileId0 name : string)
  : ProfileManager * list ManagerSignal :=
  let '(c, signals) := setProfileDisplayName (m_configManager pm) browser0 profileId0 name in
  (mkProfileManager (m_browserDetector pm) c
     (updateFirst (matchesKey browser0 profileId0)
                  (withProfileDisplayName (if QStr.isEmpty name then profileId0 else name))
                  (m_profiles pm))
     (m_lastRefresh pm),
   List.concat (List.map forwardConfigSignal signals)).

Definition setProfileOrder (pm : ProfileManager) (browser0 profileId0 : string) (order0 : Z)
  : ProfileManager * list ManagerSignal :=
  let '(c, signals) := setProfileOrder (m_configManager pm) browser0 profileId0 order0 in
  (mkProfileManager (m_browserDetector pm) c
     (if existsb (matchesKey browser0 profileId0) (m_profiles pm)
      then sortProfiles (updateFirst (matchesKey browser0 profileId0) (withOrder order0)
                                     (m_profiles pm))
      else m_profiles pm)
     (m_lastRefresh pm),
   List.concat (List.map forwardConfigSignal signals)).

(** The loop of [moveProfileUp]: the first position from 1 on that holds the
    key, with the entry before it. *)
Fixpoint findWithPrevious (browser0 profileId0 : string) (prev : ProfileEntry)
    (l : list ProfileEntry) : option (ProfileEntry * ProfileEntry) :=
  match l with
  | [] => None
  | e :: rest =>
      if matchesKey browser0 profileId0 e then Some (prev, e)
      else findWithPrevious browser0 profileId0 e rest
  end.

(** The loop of [moveProfileDown]: the first position before the last that
    holds the key, with the entry after it. *)
Fixpoint findWithNext (browser0 profileId0 : string) (l : list ProfileEntry)
  : option (ProfileEntry * ProfileEntry) :=
  match l with
  | e :: (next :: _) as rest =>
      if matchesKey browser0 profileId0 e then Some (e, next)
      else findWithNext browser0 profileId0 rest
  | _ => None
  end.

Definition moveProfileUp (pm : ProfileManager) (browser0 profileId0 : string)
  : ProfileManager * list ManagerSignal :=
  match getAllProfiles pm false with
  | [] => (pm, [])
  | first :: rest =>
      match findWithPrevious browser0 profileId0 first rest with
      | None => (pm, [])
      | Some (prev, curr) =>
          let prevOrder := order prev in
          let currOrder := order curr in
          let '(pm1, s1) := setProfileOrder pm (browser prev) (profileId prev) currOrder in
          let '(pm2, s2) := setProfileOrder pm1 browser0 profileId0 prevOrder in
          (pm2, (s1 ++ s2)%list)
      end
  end.

Definition moveProfileDown (pm : ProfileManager) (browser0 profileId0 : string)
  : ProfileManager * list ManagerSignal :=
  match findWithNext browser0 profileId0 (getAllProfiles pm false) with
  | None => (pm, [])
  | Some (curr, next) =>
      let currOrder := order curr in
      let nextOrder := order next in
      let '(pm1, s1) := setProfileOrder pm (browser next) (profileId next) currOrder in
      let '(pm2, s2) := setProfileOrder pm1 browser0 profileId0 nextOrder in
      (pm2, (s1 ++ s2)%list)
  end.

End PM.

(** ** The callers: main.cpp and MainWindow *)


Inductive DialogResult := Accepted | Rejected.

Section Window.

Variable parseUrl : string -> QUrl.
Variable startDetached : string -> list string -> SpawnReport.

(** [MainWindow::onTimeout]: the launch it makes, if any, and how the dialog
    closes. *)
Definition onTimeout (pm : ProfileManager) (url : string)
  : option ManagerLaunch * DialogResult :=
  let defaultProfile := getDefaultProfile pm in
  if negb (QStr.isEmpty (browser defaultProfile)) then
    (Some (launchProfile parseUrl startDetached pm
                         (browser defaultProfile) (profileId defaultProfile) url),
     Accepted)
  else (None, Rejected).

End Window.

(** ** The override file (ConfigManager::loadYamlOverrides) *)

Module QText.

Definition size (s : string) : Z := Z.of_nat (String.length s).

(** [QString::endsWith]. *)
Definition endsWith (s suffix : string) : bool :=
  QStr.startsWith (string_of_list_ascii (List.rev (QStr.chars s)))
                  (string_of_list_ascii (List.rev (QStr.chars suffix))).

(** [QString::mid(position, n)] for a position inside the string: the rest
    of the string when [n] is negative or reaches past the end. *)
Definition mid (s : string) (position : nat) (n : Z) : string :=
  let rest := List.skipn position (QStr.chars s) in
  string_of_list_ascii (if n <? 0 then rest else List.firstn (Z.to_nat n) rest).

Fixpoint firstIndex (c : ascii) (l : list ascii) : option nat :=
  match l with
  | [] => None
  | x :: l' => if decide (x = c) then Some 0%nat else S <$> firstIndex c l'
  end.

(** [QString::indexOf(c, from)]: -1 when [c] does not occur from [from] on. *)
Definition indexOf (s : string) (c : ascii) (from : nat) : Z :=
  match firstIndex c (List.skipn from (QStr.chars s)) with
  | Some k => Z.of_nat (from + k)
  | None => -1
  end.

(** The number of blanks a line starts with. *)
Fixpoint indentOf (l : list ascii) : nat :=
  match l with
  | c :: l' => if decide (c = " "%char) then S (indentOf l') else 0%nat
  | [] => 0%nat
  end.

End QText.

Module Yaml.

Definition doubleQuote : string := String "034"%char EmptyString.
Definition singleQuote : string := String "039"%char EmptyString.

(** The lambda [cleanValue]. *)
Definition cleanValue (v : string) : string :=
  let v := QStr.trimmed v in
  let v :=
    if (QStr.startsWith v doubleQuote && QText.endsWith v doubleQuote) ||
       (QStr.startsWith v singleQuote && QText.endsWith v singleQuote)
    then QText.mid v 1 (QText.size v - 2)
    else v in
  QStr.trimmed v.

(** The lambda [parseBool]: the value, or [None] where the code clears [ok]. *)
Definition parseBool (v : string) : option bool :=
  let s := QStr.toLower (QStr.trimmed v) in
  if stringListContains ["true"; "yes"; "on"; "1"] s then Some true
  else if stringListContains ["false"; "no"; "off"; "0"] s then Some false
  else None.

(** The local variables of the reading loop, with the two maps it fills. *)
Record Reader := mkReader {
  inBrowsers : bool;
  baseIndent : Z;
  currentKey : string;
  currentKeyIndent : Z;
  execOverrides : gmap string string;
  enabledOverrides : gmap string bool
}.

Definition initialReader : Reader := mkReader false (-1) "" (-1) ∅ ∅.

Definition setPosition (r : Reader) (inside : bool) (base : Z) (key : string) (keyIndent : Z)
  : Reader :=
  mkReader inside base key keyIndent (execOverrides r) (enabledOverrides r).

Definition insertExec (r : Reader) (key path : string) : Reader :=
  mkReader (inBrowsers r) (baseIndent r) (currentKey r) (currentKeyIndent r)
           (<[key := path]> (execOverrides r)) (enabledOverrides r).

Definition insertEnabled (r : Reader) (key : string) (val : bool) : Reader :=
  mkReader (inBrowsers r) (baseIndent r) (currentKey r) (currentKeyIndent r)
           (execOverrides r) (<[key := val]> (enabledOverrides r)).

Section Loader.

Variable fs : FileSystem.

(** The lambda [isExecutableFile]. *)
Definition isExecutableFile (p : string) : bool :=
  negb (QStr.isEmpty p) && Fs.exists_ fs p && isRegularFile fs p && Fs.executable fs p.

(** One turn of the [while (!in.atEnd())] loop, on the line just read. *)
Definition readLine (r : Reader) (line : string) : Reader :=
  let trimmed := QStr.trimmed line in
  if QStr.isEmpty trimmed || QStr.startsWith trimmed "#" then r
  else
    let indentN := QText.indentOf (QStr.chars line) in
    let indent := Z.of_nat indentN in
    if negb (inBrowsers r) then
      if bool_decide (trimmed = "browsers:") then setPosition r true indent "" (-1)
      else r
    else if indent <=? baseIndent r then
      (* end of the browsers block *)
      setPosition r false (baseIndent r) "" (-1)
    else if indent =? baseIndent r + 2 then
      (* a new browser key *)
      let cpos := QText.indexOf line ":"%char indentN in
      if cpos <=? indent then r
      else
        let key := QStr.trimmed (QText.mid line indentN (cpos - indent)) in
        let rest := QStr.trimmed (QText.mid line (Z.to_nat (cpos + 1)) (-1)) in
        if stringListContains ["firefox"; "chrome"; "chromium"] key then
          if negb (QStr.isEmpty rest) then
            let path := cleanValue rest in
            let r' := if isExecutableFile path then insertExec r key path else r in
            setPosition r' (inBrowsers r) (baseIndent r) "" (-1)
          else setPosition r (inBrowsers r) (baseIndent r) key indent
        else setPosition r (inBrowsers r) (baseIndent r) "" (-1)
    else if negb (QStr.isEmpty (currentKey r)) && (baseIndent r + 4 <=? indent) then
      let cpos := QText.indexOf line ":"%char indentN in
      if indent <? cpos then
        let subKey := QStr.trimmed (QText.mid line indentN (cpos - indent)) in
        let subRest := QStr.trimmed (QText.mid line (Z.to_nat (cpos + 1)) (-1)) in
        if bool_decide (subKey = "path") && negb (QStr.isEmpty subRest) then
          let path := cleanValue subRest in
          if isExecutableFile path then insertExec r (currentKey r) path else r
        else if bool_decide (subKey = "enabled") && negb (QStr.isEmpty subRest) then
          match parseBool (cleanValue subRest) with
          | Some val => insertEnabled r (currentKey r) val
          | None => r
          end
        else r
      else r
    else r.

Definition readLines (lines : list string) : Reader :=
  List.fold_left readLine lines initialReader.

(** The value of the environment variable that names the file (empty when
    unset), and the two file names looked for under ~/.config; these
    constants are not part of the sources at hand. *)
Variable yamlEnvPath : string.
Variable YAML_CONFIG_FILENAME_YAML YAML_CONFIG_FILENAME_YML : string.

(** [QFile::open(ReadOnly | Text)] and the lines [QTextStream::readLine]
    then delivers; [None] when the file cannot be opened. *)
Variable openText : string -> option (list string).

Definition yamlPath : string :=
  if negb (QStr.isEmpty yamlEnvPath) then yamlEnvPath
  else
    let cfgDir := homePath fs +:+ "/.config" in
    let yaml1 := cfgDir +:+ "/" +:+ YAML_CONFIG_FILENAME_YAML in
    let yaml2 := cfgDir +:+ "/" +:+ YAML_CONFIG_FILENAME_YML in
    if Fs.exists_ fs yaml1 then yaml1
    else if Fs.exists_ fs yaml2 then yaml2
    else "".

Definition loadYamlOverrides (c : ConfigManager) : ConfigManager :=
  if QStr.isEmpty yamlPath then mkConfigManager (m_config c) ∅ ∅
  else
    match openText yamlPath with
    | None => mkConfigManager (m_config c) ∅ ∅
    | Some lines =>
        let r := readLines lines in
        mkConfigManager (m_config c) (execOverrides r) (enabledOverrides r)
    end.

(** [ConfigManager::ConfigManager] on the store [c] found on disk. *)
Definition newConfigManager (c : ConfigManager) : ConfigManager :=
  loadYamlOverrides (fst (ensureConfigValid c)).

End Loader.

End Yaml.

(** The override file written by the repository's test, with the path of
    the stand-in executable. *)
Definition testYaml (path enabled : string) : list string :=
  [ "browsers:";
    "  firefox:";
    "    path: " +:+ path;
    "    enabled: " +:+ enabled ].

(** [trimmed] on the characters. *)
Definition trimList (l : list ascii) : list ascii :=
  List.rev (QStr.dropSpaces (List.rev (QStr.dropSpaces l))).

(** What discovery guarantees of a map of browsers: known ids only, each
    with the type of its id and a non-empty executable path. *)
Definition wellFormedBrowsers (browsers : gmap string BrowserInfo) : Prop :=
  forall id info,
    browsers !! id = Some info ->
    In id knownBrowsers /\ bi_type info = typeOfBrowser id /\ bi_executable info <> "".

(** The executable [detectBrowsers] settles on for an id: the override when
    there is one, else what the search finds. *)
Definition resolvedExecutable (d : BrowserDetector) (fs : FileSystem) (id : string) : string :=
  let override := default "" (m_execOverrides d !! id) in
  if QStr.isEmpty override then
    if decide (id = "chrome") then findExecutableFromList fs Constants.CHROME_EXECUTABLE_VARIANTS
    else findExecutable fs id
  else override.

(** What the configuration holds for one profile, and for the application. *)
Definition profileSettings (c : ConfigManager) (browser0 profile : string)
  : bool * string * Z :=
  (isProfileEnabled c browser0 profile, getProfileDisplayName c browser0 profile,
   getProfileOrder c browser0 profile).

Definition generalSettings (c : ConfigManager) : Z * bool * bool * (string * string) :=
  (defaultTimeout c, rememberLastUsed c, showTrayIcon c, getLastUsed c).

(** What a move does to an entry: the entry with the key (b, p) takes the
    order [mine], the neighbour with the key (b', p') takes the order [theirs]. *)
Definition swapOrders (b p : string) (mine : Z) (b' p' : string) (theirs : Z)
    (e : ProfileEntry) : ProfileEntry :=
  if matchesKey b p e then withOrder mine e
  else if matchesKey b' p' e then withOrder theirs e
  else e.

(** What the loop of [loadYamlOverrides] keeps true of its reader: override
    keys are known browser ids, override paths are executable regular files,
    and the key being read, if any, is a known browser id. *)
Definition readerInvariant (fs : FileSystem) (r : Yaml.Reader) : Prop :=
  (forall id path,
      Yaml.execOverrides r !! id = Some path ->
      In id knownBrowsers /\ Yaml.isExecutableFile fs path = true) /\
  (forall id (val : bool), Yaml.enabledOverrides r !! id = Some val -> In id knownBrowsers) /\
  (Yaml.currentKey r <> "" -> In (Yaml.currentKey r) knownBrowsers).

(** Two entries with different orders, for the moves. *)
Definition plainEntry (b p : string) (order0 : Z) : ProfileEntry :=
  mkProfileEntry b b p p "" None true false order0.

(** * Properties *)

(** ** The order on strings and on entries *)

Lemma string_ltb_irrefl (s : string) : String.ltb s s = false.
Proof.
  unfold String.ltb.
  destruct (String.compare s s) eqn:E; try reflexivity.
  pose proof (String.compare_antisym s s) as H. rewrite E in H. discriminate.
Qed.

Lemma string_ltb_asym (s1 s2 : string) :
  String.ltb s1 s2 = true -> String.ltb s2 s1 = false.
Proof.
  unfold String.ltb. rewrite (String.compare_antisym s2 s1).
  destruct (String.compare s1 s2); simpl; congruence.
Qed.

Lemma string_ltb_leb (s1 s2 : string) :
  String.ltb s1 s2 = true -> String.leb s1 s2 = true.
Proof. unfold String.ltb, String.leb. destruct (String.compare s1 s2); congruence. Qed.

Lemma string_ltb_trans (s1 s2 s3 : string) :
  String.ltb s1 s2 = true -> String.ltb s2 s3 = true -> String.ltb s1 s3 = true.
Proof.
  intros H12 H23.
  assert (Hle : String.le s1 s3).
  { transitivity s2; unfold String.le; apply Is_true_true; by apply string_ltb_leb. }
  unfold String.le in Hle. apply Is_true_true in Hle.
  unfold String.ltb, String.leb in *.
  destruct (String.compare s1 s3) eqn:E13; try congruence.
  apply String.compare_eq_iff in E13. subst s3.
  pose proof (string_ltb_asym s1 s2) as Ha. unfold String.ltb in Ha.
  rewrite Ha in H23; [discriminate | exact H12].
Qed.

Lemma string_ltb_connected (s1 s2 : string) :
  String.ltb s1 s2 = false -> String.ltb s2 s1 = false -> s1 = s2.
Proof.
  unfold String.ltb. rewrite (String.compare_antisym s2 s1).
  destruct (String.compare s1 s2) eqn:E; simpl; try congruence.
  intros _ _. by apply String.compare_eq_iff.
Qed.

(** [entry_lt] is the lexicographic order of the three sort keys. *)
Lemma entry_lt_spec (a b : ProfileEntry) :
  entry_lt a b = true <->
  order a < order b \/
  (order a = order b /\
   (String.ltb (browser a) (browser b) = true \/
    (browser a = browser b /\
     String.ltb (profileDisplayName a) (profileDisplayName b) = true))).
Proof.
  unfold entry_lt.
  destruct (Z.eqb_spec (order a) (order b)) as [Ho|Ho]; simpl.
  - case_bool_decide as Hb; simpl.
    + split.
      * intros H. right. split; [done|]. right. done.
      * intros [H|[_ [H|[_ H]]]]; [lia | | done].
        rewrite Hb, string_ltb_irrefl in H. discriminate.
    + split.
      * intros H. right. split; [done|]. left. done.
      * intros [H|[_ [H|[H _]]]]; [lia | done | done].
  - rewrite Z.ltb_lt. split.
    + intros H. by left.
    + intros [H|[H _]]; [done | lia].
Qed.

Lemma entry_lt_irrefl (a : ProfileEntry) : entry_lt a a = false.
Proof.
  destruct (entry_lt a a) eqn:E; [|done].
  apply entry_lt_spec in E as [H|[_ [H|[_ H]]]]; [lia | |];
    rewrite string_ltb_irrefl in H; discriminate.
Qed.

Lemma entry_lt_trans (a b c : ProfileEntry) :
  entry_lt a b = true -> entry_lt b c = true -> entry_lt a c = true.
Proof.
  rewrite !entry_lt_spec.
  intros [H1|[H1 [H1'|[H1' H1'']]]] [H2|[H2 [H2'|[H2' H2'']]]]; try (left; lia);
    right; (split; [lia|]).
  - left. eauto using string_ltb_trans.
  - left. by rewrite <- H2'.
  - left. by rewrite H1'.
  - right. split; [congruence|]. eauto using string_ltb_trans.
Qed.

Lemma entry_lt_asym (a b : ProfileEntry) : entry_lt a b = true -> entry_lt b a = false.
Proof.
  intros H. destruct (entry_lt b a) eqn:E; [|done].
  pose proof (entry_lt_trans _ _ _ H E) as Haa. rewrite entry_lt_irrefl in Haa. discriminate.
Qed.

(** Two entries are equivalent for the sort exactly when their keys agree. *)
Lemma entry_equiv_sortKey (a b : ProfileEntry) :
  entry_lt a b = false /\ entry_lt b a = false <-> sortKey a = sortKey b.
Proof.
  unfold sortKey. split.
  - intros [Hab Hba].
    assert (Ho : order a = order b).
    { destruct (Z.lt_trichotomy (order a) (order b)) as [H|[H|H]]; [|done|].
      - assert (entry_lt a b = true) by (apply entry_lt_spec; auto). congruence.
      - assert (entry_lt b a = true) by (apply entry_lt_spec; auto). congruence. }
    assert (Hb : browser a = browser b).
    { apply string_ltb_connected.
      - destruct (String.ltb (browser a) (browser b)) eqn:E; [|done].
        assert (entry_lt a b = true) by (apply entry_lt_spec; auto). congruence.
      - destruct (String.ltb (browser b) (browser a)) eqn:E; [|done].
        assert (entry_lt b a = true) by (apply entry_lt_spec; auto). congruence. }
    assert (Hn : profileDisplayName a = profileDisplayName b).
    { apply string_ltb_connected.
      - destruct (String.ltb (profileDisplayName a) (profileDisplayName b)) eqn:E; [|done].
        assert (entry_lt a b = true) by (apply entry_lt_spec; auto). congruence.
      - destruct (String.ltb (profileDisplayName b) (profileDisplayName a)) eqn:E; [|done].
        assert (entry_lt b a = true) by (apply entry_lt_spec; auto). congruence. }
    congruence.
  - intros [=Ho Hb Hn]. unfold entry_lt.
    rewrite Ho, Hb, Hn, Z.eqb_refl. simpl.
    rewrite !bool_decide_eq_true_2 by done. simpl.
    by rewrite string_ltb_irrefl.
Qed.

(** [operator<] reads nothing but the sort key. *)
Lemma entry_lt_sortKey_l (a a' c : ProfileEntry) :
  sortKey a = sortKey a' -> entry_lt a c = entry_lt a' c.
Proof. unfold sortKey, entry_lt. intros [= -> -> ->]. reflexivity. Qed.

Lemma entry_lt_negtrans (a b c : ProfileEntry) :
  entry_lt a b = false -> entry_lt b c = false -> entry_lt a c = false.
Proof.
  intros Hab Hbc. destruct (entry_lt a c) eqn:Hac; [|done].
  destruct (entry_lt b a) eqn:Hba.
  - pose proof (entry_lt_trans _ _ _ Hba Hac). congruence.
  - assert (Hk : sortKey a = sortKey b) by (by apply entry_equiv_sortKey).
    rewrite (entry_lt_sortKey_l _ _ _ Hk) in Hac. congruence.
Qed.

(** ** Sorting *)

Section InsertionSortFacts.
Context {A : Type} (lt : A -> A -> bool).

Lemma insertSorted_perm (x : A) (l : list A) :
  Permutation (x :: l) (insertSorted lt x l).
Proof.
  induction l as [|y l IH]; simpl; [done|].
  destruct (lt y x); [|done].
  rewrite perm_swap. by constructor.
Qed.

Lemma insertionSort_perm (l : list A) : Permutation l (insertionSort lt l).
Proof.
  induction l as [|x l IH]; simpl; [done|].
  rewrite <- insertSorted_perm. by constructor.
Qed.
End InsertionSortFacts.

Lemma insertSorted_sorted (x : ProfileEntry) (l : list ProfileEntry) :
  SortedEntries l -> SortedEntries (insertSorted entry_lt x l).
Proof.
  induction 1 as [|y l Hs IH Hy]; simpl.
  - repeat constructor.
  - destruct (entry_lt y x) eqn:Hyx.
    + constructor; [exact IH|].
      eapply Permutation_Forall; [apply insertSorted_perm|].
      constructor; [by apply entry_lt_asym | exact Hy].
    + constructor; [by constructor|].
      constructor; [exact Hyx|].
      eapply Forall_impl; [exact Hy|]. simpl. intros z Hz.
      eapply entry_lt_negtrans; eauto.
Qed.

(** The insertion sort is one of the results [std::sort] may deliver, so a
    result exists for every list. *)
Lemma sortProfiles_is_std_sort (l : list ProfileEntry) : std_sort_result l (sortProfiles l).
Proof.
  split; [apply insertionSort_perm|].
  unfold sortProfiles. induction l as [|x l IH]; simpl; [constructor|].
  by apply insertSorted_sorted.
Qed.

(** A list sorted by [operator<] whose sort keys are pairwise different has
    no other sorted arrangement. *)
Lemma sorted_arrangement_unique (l l' : list ProfileEntry) :
  SortedEntries l -> SortedEntries l' -> Permutation l l' ->
  NoDup (List.map sortKey l) -> l = l'.
Proof.
  revert l'. induction l as [|a l IH]; intros l' Hs Hs' Hp Hnd.
  - by apply Permutation_nil in Hp.
  - destruct l' as [|b l']; [by apply Permutation_sym, Permutation_nil in Hp|].
    apply StronglySorted_inv in Hs as [Hs Ha].
    apply StronglySorted_inv in Hs' as [Hs' Hb].
    simpl in Hnd. apply NoDup_cons in Hnd as [Hnotin Hnd].
    rewrite Forall_forall in Ha, Hb.
    assert (Hab : a = b).
    { assert (Hin_a : In a (b :: l')) by (eapply Permutation_in; [exact Hp | by left]).
      assert (Hin_b : In b (a :: l))
        by (eapply Permutation_in; [apply Permutation_sym, Hp | by left]).
      destruct Hin_a as [->|Hin_a]; [done|].
      destruct Hin_b as [->|Hin_b]; [done|].
      exfalso. apply Hnotin.
      assert (Hk : sortKey a = sortKey b).
      { apply entry_equiv_sortKey. split; [by apply Hb, list_elem_of_In | by apply Ha, list_elem_of_In]. }
      rewrite Hk. apply list_elem_of_In, in_map, Hin_b. }
    subst b. f_equal. apply IH; try done.
    by apply Permutation_cons_inv in Hp.
Qed.

(** C3, the claim as written fails: the registry built for a Chrome
    installation with two profile directories of the same human name holds
    two different entries (different profile id) that [operator<] does not
    tell apart. *)
Lemma entry_lt_not_total_on_registry :
  In (Sample.chromeWork "Profile 1" 110) Sample.chromeRegistry /\
  In (Sample.chromeWork "Profile 2" 120) Sample.chromeRegistry /\
  Sample.chromeWork "Profile 1" 110 <> Sample.chromeWork "Profile 2" 120 /\
  entry_lt (Sample.chromeWork "Profile 1" 110) (Sample.chromeWork "Profile 2" 120) = false /\
  entry_lt (Sample.chromeWork "Profile 2" 120) (Sample.chromeWork "Profile 1" 110) = false.
Proof.
  split; [vm_compute; tauto|].
  split; [vm_compute; tauto|].
  split; [discriminate|].
  split; reflexivity.
Qed.

(** C3, amended: [operator<] (order ascending, then browser id, then profile
    display name) is a strict weak order: irreflexive, transitive, and two
    entries are equivalent exactly when they agree on these three keys,
    whatever their other fields; every list has a [std::sort] result, and a
    sorted list whose keys are pairwise different is the only sorted
    arrangement of its entries, so sorting it again yields the same
    sequence. *)
Theorem entry_lt_strict_weak_order :
  (forall a, entry_lt a a = false) /\
  (forall a b c, entry_lt a b = true -> entry_lt b c = true -> entry_lt a c = true) /\
  (forall a b, entry_lt a b = false /\ entry_lt b a = false <->
               order a = order b /\ browser a = browser b /\
               profileDisplayName a = profileDisplayName b) /\
  (forall l, std_sort_result l (sortProfiles l)) /\
  (forall l l', SortedEntries l -> NoDup (List.map sortKey l) ->
                std_sort_result l l' -> l' = l).
Proof.
  split; [exact entry_lt_irrefl|].
  split; [exact entry_lt_trans|].
  split.
  { intros a b. rewrite entry_equiv_sortKey. unfold sortKey.
    split; [intros [= -> -> ->]; done | intros (-> & -> & ->); done]. }
  split; [exact sortProfiles_is_std_sort|].
  intros l l' Hs Hnd [Hp Hs']. symmetry. by apply sorted_arrangement_unique.
Qed.

(** The amended C3 at work on a registry with two browsers. *)
Lemma entry_lt_strict_weak_order_witness :
  let l := [ Sample.chromeWork "Profile 1" 110;
             mkProfileEntry "firefox" "Firefox" "Work" "Work" "" None true false 999 ] in
  SortedEntries l /\ NoDup (List.map sortKey l) /\ std_sort_result l (sortProfiles l) /\
  sortProfiles l = l.
Proof.
  intros l.
  assert (Hs : SortedEntries l).
  { repeat constructor. }
  assert (Hnd : NoDup (List.map sortKey l)).
  { apply NoDup_cons. split; [|apply NoDup_singleton].
    intros H. apply list_elem_of_In in H. simpl in H. destruct H as [H|[]]. discriminate. }
  destruct entry_lt_strict_weak_order as (_ & _ & _ & Hsort & Huniq).
  split; [exact Hs|]. split; [exact Hnd|]. split; [apply Hsort|].
  apply (Huniq l (sortProfiles l) Hs Hnd (Hsort l)).
Defined.

(** ** URL validation *)

Lemma stringListContains_In (l : list string) (s : string) :
  stringListContains l s = true <-> In s l.
Proof.
  unfold stringListContains. rewrite existsb_exists. split.
  - intros (x & Hx & Heq). apply bool_decide_eq_true in Heq. by subst.
  - intros H. exists s. split; [done|]. by apply bool_decide_eq_true.
Qed.

Lemma isEmpty_true (s : string) : QStr.isEmpty s = true <-> s = "".
Proof. destruct s; simpl; split; congruence. Qed.

(** What [isValidUrl] accepts, read off the code: besides a valid URL with
    an empty or allow-listed scheme, every string without "://" passes the
    scheme test. *)
Lemma isValidUrl_accepts_iff (parseUrl : string -> QUrl) (url : string) :
  isValidUrl parseUrl url = true <->
  url <> "" /\ hasDangerousChar url = false /\
  ((isValid (parseUrl url) = true /\
    (QStr.toLower (scheme (parseUrl url)) = "" \/
     In (QStr.toLower (scheme (parseUrl url))) allowedSchemes)) \/
   QStr.contains url "://" = false).
Proof.
  unfold isValidUrl.
  destruct (QStr.isEmpty url) eqn:He.
  { apply isEmpty_true in He. split; [discriminate | intros [? _]; done]. }
  assert (Hne : url <> "") by (intros ->; discriminate).
  set (q := parseUrl url). set (sch := QStr.toLower (scheme q)).
  destruct (isValid q) eqn:Hv.
  - destruct (QStr.isEmpty sch || stringListContains allowedSchemes sch) eqn:Hs.
    + rewrite negb_true_iff. split.
      * intros Hd. split; [done|]. split; [done|]. left. split; [done|].
        apply orb_true_iff in Hs. by rewrite isEmpty_true, stringListContains_In in Hs.
      * by intros (_ & Hd & _).
    + apply orb_false_iff in Hs as [Hs1 Hs2].
      destruct (QStr.contains url "://") eqn:Hc; cbn [negb].
      * split; [discriminate|]. intros (_ & _ & [[_ Hs']|Hc']); [|discriminate].
        exfalso. destruct Hs' as [Hs'|Hs'].
        -- apply isEmpty_true in Hs'. congruence.
        -- apply stringListContains_In in Hs'. congruence.
      * rewrite negb_true_iff. split.
        -- intros Hd. split; [done|]. split; [done|]. by right.
        -- by intros (_ & Hd & _).
  - destruct (QStr.contains url "://") eqn:Hc; cbn [negb].
    + split; [discriminate|]. intros (_ & _ & [[Hv' _]|Hc']); discriminate.
    + rewrite negb_true_iff. split.
      * intros Hd. split; [done|]. split; [done|]. by right.
      * by intros (_ & Hd & _).
Qed.

(** C1, the code at the failing input: "javascript:alert" carries a scheme
    outside the allow-list, yet [isValidUrl] accepts it whatever [QUrl]
    makes of it, because a string without "://" is let through as
    scheme-less. *)
Theorem isValidUrl_accepts_javascript_scheme :
  forall parseUrl : string -> QUrl,
    stringListContains allowedSchemes "javascript" = false /\
    isValidUrl parseUrl "javascript:alert" = true.
Proof.
  intros parseUrl. split; [reflexivity|].
  apply isValidUrl_accepts_iff.
  split; [discriminate|]. split; [reflexivity|]. right. reflexivity.
Qed.

(** ** The default timeout *)

(** C9: [setDefaultTimeout] stores the argument clamped to [5, 60], and
    [defaultTimeout] reads exactly that value back. *)
Theorem setDefaultTimeout_clamps :
  forall (c : ConfigManager) (s : Z),
    defaultTimeout (fst (setDefaultTimeout c s)) = Z.max 5 (Z.min 60 s) /\
    5 <= defaultTimeout (fst (setDefaultTimeout c s)) <= 60.
Proof.
  intros c s.
  assert (H : defaultTimeout (fst (setDefaultTimeout c s)) = Z.max 5 (Z.min 60 s)).
  { unfold defaultTimeout, setDefaultTimeout, KConfig.readInt, KConfig.writeEntry; simpl.
    by rewrite lookup_insert_eq. }
  split; [exact H|]. rewrite H. lia.
Qed.

(** ** The default profile *)

Lemma matchesKey_true (b p : string) (e : ProfileEntry) :
  matchesKey b p e = true <-> browser e = b /\ profileId e = p.
Proof.
  unfold matchesKey. rewrite andb_true_iff, !bool_decide_eq_true. tauto.
Qed.

Lemma getProfile_found (pm : ProfileManager) (b p : string) :
  hasProfile pm b p = true ->
  In (getProfile pm b p) (m_profiles pm) /\
  browser (getProfile pm b p) = b /\ profileId (getProfile pm b p) = p.
Proof.
  unfold hasProfile, getProfile. intros H.
  destruct (List.find (matchesKey b p) (m_profiles pm)) as [e|] eqn:Hf.
  - apply find_some in Hf as [Hin Hm]. apply matchesKey_true in Hm. tauto.
  - apply existsb_exists in H as (e & Hin & Hm).
    pose proof (find_none _ _ Hf e Hin). congruence.
Qed.

Lemma getProfile_absent (pm : ProfileManager) (b p : string) :
  hasProfile pm b p = false -> getProfile pm b p = emptyProfileEntry.
Proof.
  unfold hasProfile, getProfile. intros H.
  destruct (List.find (matchesKey b p) (m_profiles pm)) as [e|] eqn:Hf; [|done].
  apply find_some in Hf as [Hin Hm].
  assert (existsb (matchesKey b p) (m_profiles pm) = true)
    by (apply existsb_exists; eauto).
  congruence.
Qed.



(** ** Chromium profile enumeration *)

Lemma Fs_open_exists (fs : FileSystem) (p : string) (c : FileContent) :
  Fs.open fs p = Some c -> Fs.exists_ fs p = true.
Proof.
  unfold Fs.open, Fs.exists_. destruct (nodes fs !! p); [|discriminate].
  intros _. apply bool_decide_eq_true. eauto.
Qed.

Lemma addCachedProfiles_keys (fs : FileSystem) (configDir : string)
    (infoCache : list (string * Json)) (profiles : gmap string ProfileInfo) (dir : string) :
  is_Some (addCachedProfiles fs configDir infoCache profiles !! dir) <->
  is_Some (profiles !! dir) \/
  exists info, In (dir, info) infoCache /\
               Fs.dirExists fs (configDir +:+ "/" +:+ dir) = true.
Proof.
  revert profiles. induction infoCache as [|[profileDir info] rest IH]; intros profiles; simpl.
  - split; [auto | intros [H|(info & [] & _)]; exact H].
  - destruct (Fs.dirExists fs (configDir +:+ "/" +:+ profileDir)) eqn:Hd; rewrite IH.
    + rewrite lookup_insert_is_Some'. split.
      * intros [[->|H]|(i & Hin & Hex)]; eauto 6.
      * intros [H|(i & [[= <- <-]|Hin] & Hex)]; eauto 6.
    + split.
      * intros [H|(i & Hin & Hex)]; eauto 6.
      * intros [H|(i & [[= <- <-]|Hin] & Hex)]; [auto | congruence | eauto 6].
Qed.

Lemma addCachedProfiles_paths (fs : FileSystem) (configDir : string)
    (infoCache : list (string * Json)) (profiles : gmap string ProfileInfo) :
  (forall dir p, profiles !! dir = Some p -> pi_path p = dir) ->
  forall dir p, addCachedProfiles fs configDir infoCache profiles !! dir = Some p ->
                pi_path p = dir.
Proof.
  revert profiles. induction infoCache as [|[profileDir info] rest IH]; intros profiles Hp; simpl.
  - exact Hp.
  - destruct (Fs.dirExists fs (configDir +:+ "/" +:+ profileDir)); apply IH; [|exact Hp].
    intros dir p. rewrite lookup_insert. case_decide as Hk.
    + intros [= <-]. by subst.
    + apply Hp.
Qed.

(** C4, the claim as written fails: the state file of [Sample.brokenState]
    is present, yet the enumeration does not even contain "Default", because
    the file holds no JSON object. *)
Lemma getChromeProfiles_present_without_default :
  Fs.exists_ Sample.brokenState "/home/user/.config/chromium/Local State" = true /\
  getChromeProfiles Sample.brokenState "chromium" !! "Default" = None /\
  getChromeProfiles Sample.brokenState "chromium" = ∅.
Proof. vm_compute. repeat split. Qed.

(** C4, amended: without the Local State file the enumeration is empty; when
    the file is present, readable and holds a JSON object, the result contains
    "Default" and, besides it, exactly one profile per [info_cache] entry whose
    directory exists, keyed by (and pointing to) that directory; when the file
    is present but unreadable or not a JSON object, the result is empty. *)
Theorem getChromeProfiles_enumeration :
  forall (fs : FileSystem) (browserName : string),
    let configPath := getChromeProfilePath fs browserName in
    let statePath := configPath +:+ "/" +:+ Constants.CHROME_CONFIG in
    let profiles := getChromeProfiles fs browserName in
    (Fs.exists_ fs statePath = false -> profiles = ∅) /\
    (forall members,
       Fs.open fs statePath = Some (JsonText (JObject members)) ->
       let infoCache :=
         Js.toObject (Js.value (Js.toObject (Js.value members "profile")) "info_cache") in
       is_Some (profiles !! "Default") /\
       (forall dir,
          is_Some (profiles !! dir) <->
          dir = "Default" \/
          exists info, In (dir, info) infoCache /\
                       Fs.dirExists fs (configPath +:+ "/" +:+ dir) = true) /\
       (forall dir p, profiles !! dir = Some p -> pi_path p = dir)) /\
    (Fs.exists_ fs statePath = true ->
     (Fs.open fs statePath = None \/
      exists data, Fs.open fs statePath = Some data /\ Js.isObject (Fs.asJson data) = false) ->
     profiles = ∅).
Proof.
  intros fs browserName configPath statePath profiles.
  unfold profiles, getChromeProfiles. fold configPath. fold statePath.
  split; [|split].
  - by intros ->.
  - intros members Hopen.
    set (infoCache :=
           Js.toObject (Js.value (Js.toObject (Js.value members "profile")) "info_cache")).
    rewrite (Fs_open_exists _ _ _ Hopen). simpl.
    unfold parseChromiumLocalState. rewrite Hopen. simpl. fold infoCache.
    set (start := <["Default" := _]> (∅ : gmap string ProfileInfo)).
    assert (Hkeys : forall dir,
              is_Some (addCachedProfiles fs configPath infoCache start !! dir) <->
              dir = "Default" \/
              exists info, In (dir, info) infoCache /\
                           Fs.dirExists fs (configPath +:+ "/" +:+ dir) = true).
    { intros dir. rewrite addCachedProfiles_keys. unfold start.
      rewrite lookup_insert_is_Some', lookup_empty, is_Some_alt. intuition. }
    split; [|split].
    + rewrite lookup_fmap, fmap_is_Some. apply Hkeys. by left.
    + intros dir. rewrite lookup_fmap, fmap_is_Some. apply Hkeys.
    + intros dir p. rewrite lookup_fmap.
      destruct (addCachedProfiles fs configPath infoCache start !! dir) as [q|] eqn:Hq;
        [|discriminate].
      intros [= <-]. simpl.
      eapply addCachedProfiles_paths; [|exact Hq].
      intros k r. unfold start. rewrite lookup_insert. case_decide as Hk.
      * intros [= <-]. by subst.
      * by rewrite lookup_empty.
  - intros -> Hbad. simpl. unfold parseChromiumLocalState.
    destruct Hbad as [->|(data & -> & ->)]; simpl; apply fmap_empty.
Qed.

(** The amended C4 on the Chromium installation of [Sample.chromeFamily]. *)
Lemma getChromeProfiles_enumeration_witness :
  is_Some (getChromeProfiles Sample.chromeFamily "chromium" !! "Default") /\
  is_Some (getChromeProfiles Sample.chromeFamily "chromium" !! "Profile 1") /\
  getChromeProfiles Sample.bare "chromium" = ∅.
Proof.
  destruct (getChromeProfiles_enumeration Sample.chromeFamily "chromium") as (_ & Hok & _).
  destruct (getChromeProfiles_enumeration Sample.bare "chromium") as (Hnone & _ & _).
  specialize (Hok (Js.toObject Sample.localState)).
  destruct Hok as (Hdefault & Hkeys & _); [vm_compute; reflexivity|].
  split; [exact Hdefault|]. split.
  - apply Hkeys. right. exists (JObject [("name", JString "Work")]).
    split; [vm_compute; tauto | vm_compute; reflexivity].
  - apply Hnone. vm_compute. reflexivity.
Defined.

(** ** Discovery: disabled browsers and the cache *)

Lemma explicitlyDisabled_true (d : BrowserDetector) (id : string) :
  explicitlyDisabled d id = true <-> m_enabledOverrides d !! id = Some false.
Proof.
  unfold explicitlyDisabled.
  destruct (m_enabledOverrides d !! id) as [[]|]; split; congruence.
Qed.

Lemma detectFirefox_lookup (d : BrowserDetector) (fs : FileSystem)
    (browsers : gmap string BrowserInfo) (id : string) :
  id <> "firefox" \/ explicitlyDisabled d "firefox" = true ->
  detectFirefox d fs browsers !! id = browsers !! id.
Proof.
  unfold detectFirefox. intros [Hne| ->]; [|done].
  destruct (explicitlyDisabled d "firefox"); [done|].
  destruct (negb _); [|done]. by rewrite lookup_insert_ne.
Qed.

Lemma detectChrome_lookup (d : BrowserDetector) (fs : FileSystem)
    (browsers : gmap string BrowserInfo) (id : string) :
  id <> "chrome" \/ explicitlyDisabled d "chrome" = true ->
  detectChrome d fs browsers !! id = browsers !! id.
Proof.
  unfold detectChrome. intros [Hne| ->]; [|done].
  destruct (explicitlyDisabled d "chrome"); [done|].
  destruct (negb _); [|done]. by rewrite lookup_insert_ne.
Qed.

Lemma detectChromium_lookup (d : BrowserDetector) (fs : FileSystem)
    (browsers : gmap string BrowserInfo) (id : string) :
  id <> "chromium" \/ explicitlyDisabled d "chromium" = true ->
  detectChromium d fs browsers !! id = browsers !! id.
Proof.
  unfold detectChromium. intros [Hne| ->]; [|done].
  destruct (explicitlyDisabled d "chromium"); [done|].
  destruct (negb _); [|done]. by rewrite lookup_insert_ne.
Qed.

(** A scan never lists a browser that an override disables, whatever the
    executable override and the file system say. *)
Lemma scanBrowsers_omits_disabled (d : BrowserDetector) (fs : FileSystem) (id : string) :
  m_enabledOverrides d !! id = Some false -> scanBrowsers d fs !! id = None.
Proof.
  intros Hoff. apply explicitlyDisabled_true in Hoff. unfold scanBrowsers.
  rewrite detectChromium_lookup, detectChrome_lookup, detectFirefox_lookup.
  - apply lookup_empty.
  - destruct (decide (id = "firefox")) as [->|]; auto.
  - destruct (decide (id = "chrome")) as [->|]; auto.
  - destruct (decide (id = "chromium")) as [->|]; auto.
Qed.





Lemma secsTo_lt_5 (from to : Z) : secsTo from to < 5 <-> to - from < 5000.
Proof.
  unfold secsTo.
  pose proof (Z.quot_rem' (to - from) 1000) as Hqr.
  destruct (Z_lt_le_dec (to - from) 0) as [Hneg|Hpos].
  - pose proof (Z.rem_bound_pos_neg (to - from) 1000 ltac:(lia) ltac:(lia)). lia.
  - pose proof (Z.rem_bound_pos (to - from) 1000 ltac:(lia) ltac:(lia)). lia.
Qed.

(** C6, the claim as written fails: a first call that finds nothing leaves
    nothing to return, so a second call one second later scans again and
    returns something else. *)
Lemma detectBrowsers_rescans_after_empty_result :
  fst (detectBrowsers newBrowserDetector Sample.bare 0 0) = ∅ /\
  1000 - 0 < 5000 /\
  fst (detectBrowsers (snd (detectBrowsers newBrowserDetector Sample.bare 0 0))
                      Sample.firefoxOnly 1000 1000)
    <> fst (detectBrowsers newBrowserDetector Sample.bare 0 0) /\
  is_Some (fst (detectBrowsers (snd (detectBrowsers newBrowserDetector Sample.bare 0 0))
                               Sample.firefoxOnly 1000 1000) !! "firefox").
Proof.
  split; [reflexivity|]. split; [lia|].
  assert (Hfound :
            is_Some (fst (detectBrowsers (snd (detectBrowsers newBrowserDetector Sample.bare 0 0))
                                         Sample.firefoxOnly 1000 1000) !! "firefox")).
  { vm_compute. eauto. }
  split; [|exact Hfound].
  intros Heq. rewrite Heq in Hfound.
  change (fst (detectBrowsers newBrowserDetector Sample.bare 0 0)) with (∅ : gmap string BrowserInfo) in Hfound.
  rewrite lookup_empty in Hfound. by destruct Hfound.
Qed.

(** C6, amended: when a call of [detectBrowsers] returned a non-empty result,
    the detector holds that result together with the time of the scan that
    produced it (the call's own, unless the call was itself answered from
    the cache), and a second call less than 5 seconds after that scan returns
    the same result and leaves the detector as it is, whatever the file
    system and the overrides have become; when the first result was empty
    the second call scans again. *)
Theorem detectBrowsers_cache_window :
  forall (d : BrowserDetector) (fs1 fs2 : FileSystem) (now1 stamp1 now2 stamp2 : Z)
         (execOverrides : gmap string string) (enabledOverrides : gmap string bool),
    let first := fst (detectBrowsers d fs1 now1 stamp1) in
    let d1 := setEnabledOverrides enabledOverrides
                (setExecutableOverrides execOverrides (snd (detectBrowsers d fs1 now1 stamp1))) in
    (first <> ∅ ->
     exists scanned,
       m_lastDetection d1 = Some scanned /\
       (cacheIsFresh d now1 = false -> scanned = stamp1) /\
       (now2 - scanned < 5000 -> detectBrowsers d1 fs2 now2 stamp2 = (first, d1))) /\
    (first = ∅ -> fst (detectBrowsers d1 fs2 now2 stamp2) = scanBrowsers d1 fs2).
Proof.
  intros d fs1 fs2 now1 stamp1 now2 stamp2 execOverrides enabledOverrides first d1.
  assert (Hcache : m_cachedBrowsers d1 = first).
  { unfold d1, first, detectBrowsers. by destruct (cacheIsFresh d now1). }
  split.
  - intros Hne.
    assert (Hlast : exists scanned,
               m_lastDetection d1 = Some scanned /\
               (cacheIsFresh d now1 = false -> scanned = stamp1)).
    { unfold d1, detectBrowsers. destruct (cacheIsFresh d now1) eqn:Hfresh; simpl.
      - unfold cacheIsFresh in Hfresh. apply andb_true_iff in Hfresh as [_ Hfresh].
        destruct (m_lastDetection d) as [last|]; [|discriminate].
        exists last. split; [done | discriminate].
      - exists stamp1. by split. }
    destruct Hlast as (scanned & Hlast & Hown). exists scanned.
    split; [exact Hlast|]. split; [exact Hown|].
    intros Hwindow. unfold detectBrowsers.
    assert (cacheIsFresh d1 now2 = true) as ->; [|by rewrite Hcache].
    unfold cacheIsFresh. rewrite Hcache, Hlast.
    rewrite bool_decide_eq_false_2 by done. simpl.
    apply Z.ltb_lt, secsTo_lt_5, Hwindow.
  - intros Hempty. unfold detectBrowsers.
    assert (cacheIsFresh d1 now2 = false) as ->; [|done].
    unfold cacheIsFresh. rewrite Hcache, Hempty.
    by rewrite bool_decide_eq_true_2.
Qed.

(** The amended C6 on [Sample.firefoxOnly]: four seconds after a scan that
    found Firefox, with Firefox gone and disabled, the call still returns it. *)
Lemma detectBrowsers_cache_window_witness :
  let first := fst (detectBrowsers newBrowserDetector Sample.firefoxOnly 0 7) in
  let d1 := setEnabledOverrides {["firefox" := false]}
              (setExecutableOverrides ∅
                 (snd (detectBrowsers newBrowserDetector Sample.firefoxOnly 0 7))) in
  first <> ∅ /\ 4007 - 7 < 5000 /\
  detectBrowsers d1 Sample.bare 4007 4008 = (first, d1).
Proof.
  intros first d1.
  assert (Hne : first <> ∅).
  { intros Heq. assert (Hf : is_Some (first !! "firefox")) by (vm_compute; eauto).
    rewrite Heq, lookup_empty in Hf. by destruct Hf. }
  split; [exact Hne|]. split; [lia|].
  destruct (detectBrowsers_cache_window newBrowserDetector Sample.firefoxOnly Sample.bare
              0 7 4007 4008 ∅ {["firefox" := false]}) as [Hhit _].
  destruct (Hhit Hne) as (scanned & Hlast & Hown & Hsame).
  apply Hsame. rewrite (Hown eq_refl). lia.
Defined.

(** ** Last-used times of Chromium-family profiles *)

(** Under the name Chrome is scanned with, the Preferences branch of
    [getProfileLastUsed] is never taken. *)
Lemma getProfileLastUsed_google_chrome (fs : FileSystem) (profilePath : string) :
  getProfileLastUsed fs "google-chrome" profilePath = Fs.modified fs profilePath.
Proof. reflexivity. Qed.

Lemma getProfileLastUsed_chromium (fs : FileSystem) (profilePath : string) :
  getProfileLastUsed fs "chromium" profilePath =
  if Fs.exists_ fs (profilePath +:+ "/Preferences")
  then Fs.modified fs (profilePath +:+ "/Preferences")
  else Fs.modified fs profilePath.
Proof. reflexivity. Qed.

(** C7, the code at the failing input: Chrome and Chromium have the same
    profile tree in [Sample.chromeFamily], with a Preferences file (modified
    at 200) in the Default directory (modified at 100).  Chromium's Default
    profile gets the time of the Preferences file, Chrome's gets the time of
    the directory. *)
Theorem chrome_lastUsed_ignores_preferences :
  Fs.modified Sample.chromeFamily "/home/user/.config/google-chrome/Default/Preferences"
    = Some 200 /\
  Fs.modified Sample.chromeFamily "/home/user/.config/google-chrome/Default" = Some 100 /\
  discoveredLastUsed (fst (detectBrowsers newBrowserDetector Sample.chromeFamily 0 0))
                     "chrome" "Default" = Some (Some 100) /\
  discoveredLastUsed (fst (detectBrowsers newBrowserDetector Sample.chromeFamily 0 0))
                     "chromium" "Default" = Some (Some 200).
Proof. vm_compute. repeat split. Qed.

(** ** Launching *)

Section LaunchFacts.

Variable parseUrl : string -> QUrl.
Variable startDetached : string -> list string -> SpawnReport.


End LaunchFacts.

(** C10: [launchBrowser] looks the browser up in the cached discovery result
    only (it takes no file system and returns no new detector state); with an
    empty cache, as right after construction, it returns false and hands no
    spawn request to the system, wherever the browser may be installed, and
    for inputs that pass validation the one signal it raises is the
    "Browser ... not found" error. *)
Theorem launchBrowser_needs_cached_discovery :
  forall (parseUrl : string -> QUrl) (startDetached : string -> list string -> SpawnReport)
         (d : BrowserDetector) (browser0 profile url : string),
    m_cachedBrowsers d = ∅ ->
    let out := launchBrowser parseUrl startDetached d browser0 profile url in
    lo_success out = false /\
    lo_spawned out = [] /\
    (isValidUrl parseUrl (sanitizeUrl url) = true ->
     isValidProfileName (sanitizeProfileName profile) = true ->
     lo_signals out = [launchError ("Browser " +:+ browser0 +:+ " not found")]).
Proof.
  intros parseUrl startDetached d browser0 profile url Hempty.
  unfold launchBrowser. rewrite Hempty, lookup_empty.
  destruct (isValidUrl parseUrl (sanitizeUrl url)); simpl; [|by repeat split].
  destruct (isValidProfileName (sanitizeProfileName profile)); simpl; by repeat split.
Qed.

(** C10 with Firefox installed and a Work profile on disk: the fresh detector
    refuses the launch that succeeds once discovery has run. *)
Lemma launchBrowser_needs_cached_discovery_witness :
  let out := launchBrowser Sample.parseUrl Sample.spawnOk newBrowserDetector
                           "firefox" "Work" "https://example.org" in
  let discovered := snd (detectBrowsers newBrowserDetector Sample.firefoxOnly 0 0) in
  (lo_success out = false /\
   lo_signals out = [launchError "Browser firefox not found"] /\
   lo_spawned out = []) /\
  lo_success (launchBrowser Sample.parseUrl Sample.spawnOk discovered
                            "firefox" "Work" "https://example.org") = true.
Proof.
  intros out discovered. split.
  - destruct (launchBrowser_needs_cached_discovery Sample.parseUrl Sample.spawnOk
                newBrowserDetector "firefox" "Work" "https://example.org" eq_refl)
      as (Hfalse & Hnone & Herror).
    split; [exact Hfalse|]. split; [|exact Hnone].
    apply Herror; reflexivity.
  - vm_compute. reflexivity.
Defined.


Lemma setLastUsed_on (c : ConfigManager) (b p : string) :
  rememberLastUsed c = true -> getLastUsed (setLastUsed c b p) = (b, p).
Proof.
  unfold setLastUsed. intros ->. simpl.
  unfold getLastUsed, KConfig.readString, KConfig.writeEntry. simpl.
  rewrite lookup_insert_ne by done. by rewrite !lookup_insert_eq.
Qed.



(** * Further properties of the code *)

(** ** Sanitizing *)

Lemma chars_of_list (l : list ascii) : QStr.chars (string_of_list_ascii l) = l.
Proof. apply list_ascii_of_string_of_list_ascii. Qed.

Lemma isEmpty_of_list (l : list ascii) :
  QStr.isEmpty (string_of_list_ascii l) = true <-> l = [].
Proof. destruct l; simpl; split; congruence. Qed.

Lemma dropSpaces_split (l : list ascii) :
  exists spaces, l = (spaces ++ QStr.dropSpaces l)%list.
Proof.
  induction l as [|c l [spaces IH]]; simpl; [by exists []|].
  destruct (QStr.isSpace c); [|by exists []].
  exists (c :: spaces). simpl. by rewrite <- IH.
Qed.

Lemma dropSpaces_head (l : list ascii) (c : ascii) (t : list ascii) :
  QStr.dropSpaces l = c :: t -> QStr.isSpace c = false.
Proof.
  induction l as [|x l IH]; simpl; [discriminate|].
  destruct (QStr.isSpace x) eqn:Hx; [exact IH|]. by intros [= <- _].
Qed.

Lemma dropSpaces_fixed (l : list ascii) :
  match l with [] => True | c :: _ => QStr.isSpace c = false end ->
  QStr.dropSpaces l = l.
Proof. destruct l as [|c l]; simpl; [done|]. by intros ->. Qed.

Lemma dropSpaces_idem (l : list ascii) :
  QStr.dropSpaces (QStr.dropSpaces l) = QStr.dropSpaces l.
Proof.
  apply dropSpaces_fixed. destruct (QStr.dropSpaces l) eqn:E; [done|].
  by apply dropSpaces_head in E.
Qed.

Lemma trimmed_trimList (s : string) :
  QStr.trimmed s = string_of_list_ascii (trimList (QStr.chars s)).
Proof. reflexivity. Qed.

Lemma trimList_prefix (l : list ascii) :
  exists tail, QStr.dropSpaces l = (trimList l ++ tail)%list.
Proof.
  unfold trimList.
  destruct (dropSpaces_split (List.rev (QStr.dropSpaces l))) as [spaces Hs].
  exists (List.rev spaces).
  rewrite <- rev_app_distr, <- Hs. by rewrite rev_involutive.
Qed.

Lemma trimList_idem (l : list ascii) : trimList (trimList l) = trimList l.
Proof.
  assert (Hfix : QStr.dropSpaces (trimList l) = trimList l).
  { apply dropSpaces_fixed. destruct (trimList_prefix l) as [tail Ht].
    destruct (trimList l) as [|c t] eqn:E; [done|].
    simpl in Ht. by apply dropSpaces_head in Ht. }
  unfold trimList at 1. rewrite Hfix. unfold trimList.
  by rewrite rev_involutive, dropSpaces_idem.
Qed.

Lemma trimList_incl (l : list ascii) (c : ascii) : In c (trimList l) -> In c l.
Proof.
  intros Hin.
  destruct (trimList_prefix l) as [tail Ht].
  destruct (dropSpaces_split l) as [spaces Hs].
  rewrite Hs, Ht. apply in_or_app. right. apply in_or_app. by left.
Qed.

Lemma filter_all {A : Type} (f : A -> bool) (l : list A) :
  (forall x, In x l -> f x = true) -> List.filter f l = l.
Proof.
  induction l as [|x l IH]; simpl; [done|]. intros H.
  rewrite (H x) by auto. f_equal. apply IH. auto.
Qed.

(** X1: sanitizing a URL twice gives what sanitizing it once gives. *)
Theorem sanitizeUrl_idempotent :
  forall url : string, sanitizeUrl (sanitizeUrl url) = sanitizeUrl url.
Proof.
  intros url. unfold sanitizeUrl, QStr.removeNul, QStr.filterChars.
  rewrite !trimmed_trimList, !chars_of_list.
  set (l := List.filter _ (QStr.chars url)).
  rewrite filter_all; [by rewrite trimList_idem|].
  intros c Hc. apply trimList_incl in Hc. unfold l in Hc.
  by apply filter_In in Hc as [_ Hc].
Qed.

Lemma isProfileChar_not_nul (c : ascii) :
  isProfileChar c = true -> negb (QStr.code c =? 0)%N = true.
Proof. destruct c as [[] [] [] [] [] [] [] []]; vm_compute; congruence. Qed.

Lemma matchesValidProfile_all (l : list ascii) :
  l <> [] -> (forall c, In c l -> isProfileChar c = true) -> matchesValidProfile l = true.
Proof.
  induction l as [|c l IH]; [done|]. intros _ Hall.
  destruct l as [|d rest]; [simpl; apply Hall; by left|].
  change (matchesValidProfile (c :: d :: rest))
    with (isProfileChar c &&
          (matchesValidProfile (d :: rest) ||
           match rest with [] => bool_decide (d = "010"%char) | _ => false end)).
  rewrite (Hall c) by (by left). rewrite IH; [done | done |].
  intros x Hx. apply Hall. by right.
Qed.

Lemma sanitizeProfileName_chars (profileName : string) (c : ascii) :
  In c (QStr.chars (sanitizeProfileName profileName)) -> isProfileChar c = true.
Proof.
  unfold sanitizeProfileName, QStr.filterChars. rewrite chars_of_list.
  intros Hc. by apply filter_In in Hc as [_ Hc].
Qed.

(** X2: a sanitized profile name consists of the permitted characters only;
    it passes [isValidProfileName] exactly when it is not empty; and
    sanitizing it once more only trims it (the removal of forbidden
    characters can uncover blanks at either end). *)
Theorem sanitizeProfileName_result :
  forall profileName : string,
    let sanitized := sanitizeProfileName profileName in
    (forall c, In c (QStr.chars sanitized) -> isProfileChar c = true) /\
    isValidProfileName sanitized = negb (QStr.isEmpty sanitized) /\
    sanitizeProfileName sanitized = QStr.trimmed sanitized.
Proof.
  intros profileName sanitized.
  assert (Hall : forall c, In c (QStr.chars sanitized) -> isProfileChar c = true)
    by apply sanitizeProfileName_chars.
  split; [exact Hall|]. split.
  - unfold isValidProfileName.
    destruct (QStr.isEmpty sanitized) eqn:He; [done|]. simpl.
    apply matchesValidProfile_all; [|exact Hall].
    intros Hnil. destruct sanitized; [discriminate | discriminate Hnil].
  - unfold sanitizeProfileName at 1. unfold QStr.removeNul, QStr.filterChars.
    rewrite (filter_all _ (QStr.chars sanitized))
      by (intros c Hc; apply isProfileChar_not_nul, Hall, Hc).
    rewrite string_of_list_ascii_of_string.
    rewrite trimmed_trimList, chars_of_list.
    rewrite filter_all; [done|].
    intros c Hc. apply Hall. by apply trimList_incl.
Qed.

(** ** What validation lets through *)

Lemma hasDangerousChar_false (url : string) :
  hasDangerousChar url = false <->
  forall c, In c (QStr.chars url) -> ~ In c dangerousChars.
Proof.
  unfold hasDangerousChar, isDangerousChar. split.
  - intros Hno c Hc Hd.
    assert (existsb (fun c => existsb (fun d => bool_decide (d = c)) dangerousChars)
                    (QStr.chars url) = true); [|congruence].
    apply existsb_exists. exists c. split; [done|].
    apply existsb_exists. exists c. split; [done|]. by apply bool_decide_eq_true.
  - intros Hno. apply not_true_is_false. intros Hex.
    apply existsb_exists in Hex as (c & Hc & Hd).
    apply existsb_exists in Hd as (d & Hd & Heq).
    apply bool_decide_eq_true in Heq. subst d. by apply (Hno c).
Qed.

(** X3: a string [isValidUrl] accepts is not empty and holds none of the
    characters ; | ` $ ( ) { } [ ] < >, whatever its scheme; and if it
    contains "://", then [QUrl] found it valid with no scheme or a scheme
    of the allow-list (compared in lower case). *)
Theorem isValidUrl_guards :
  forall (parseUrl : string -> QUrl) (url : string),
    isValidUrl parseUrl url = true ->
    url <> "" /\
    (forall c, In c (QStr.chars url) -> ~ In c dangerousChars) /\
    (QStr.contains url "://" = true ->
     isValid (parseUrl url) = true /\
     (QStr.toLower (scheme (parseUrl url)) = "" \/
      In (QStr.toLower (scheme (parseUrl url))) allowedSchemes)).
Proof.
  intros parseUrl url Hok.
  apply isValidUrl_accepts_iff in Hok as (Hne & Hsafe & Hscheme).
  split; [exact Hne|]. split; [by apply hasDangerousChar_false|].
  intros Hc. destruct Hscheme as [H|H]; [exact H | congruence].
Qed.

(** X3 on an https URL. *)
Lemma isValidUrl_guards_witness :
  "https://example.org" <> "" /\
  isValid (Sample.parseUrl "https://example.org") = true.
Proof.
  destruct (isValidUrl_guards Sample.parseUrl "https://example.org" eq_refl)
    as (Hne & _ & Hscheme).
  split; [exact Hne|]. apply Hscheme. reflexivity.
Defined.

(** ** What launchBrowser hands to the system *)

(** X4: every spawn request [launchBrowser] makes is the only one of the
    call; its program is the executable cached for the requested browser;
    its arguments are "-P", the sanitized profile name and the sanitized
    URL for Firefox, and "--profile-directory=<sanitized name>" and the
    sanitized URL for Chrome and Chromium; the sanitized name is a profile of
    that browser and holds permitted characters only, the sanitized URL passed
    [isValidUrl]; and the call returns what the spawn returned. *)
Theorem launchBrowser_spawn_request :
  forall (parseUrl : string -> QUrl) (startDetached : string -> list string -> SpawnReport)
         (d : BrowserDetector) (browser0 profile url prog : string) (args : list string),
    let out := launchBrowser parseUrl startDetached d browser0 profile url in
    let name := sanitizeProfileName profile in
    In (prog, args) (lo_spawned out) ->
    lo_spawned out = [(prog, args)] /\
    lo_success out = accepted (startDetached prog args) /\
    isValidUrl parseUrl (sanitizeUrl url) = true /\
    (forall c, In c (QStr.chars name) -> isProfileChar c = true) /\
    exists info,
      m_cachedBrowsers d !! browser0 = Some info /\
      prog = bi_executable info /\
      is_Some (bi_profiles info !! name) /\
      ((bi_type info = Constants.Firefox /\ args = ["-P"; name; sanitizeUrl url]) \/
       ((bi_type info = Constants.Chrome \/ bi_type info = Constants.Chromium) /\
        args = ["--profile-directory=" +:+ name; sanitizeUrl url])).
Proof.
  intros parseUrl startDetached d browser0 profile url prog args out name.
  pose proof (sanitizeProfileName_chars profile) as Hchars.
  unfold out, launchBrowser. fold name.
  destruct (isValidUrl parseUrl (sanitizeUrl url)) eqn:Hurl; simpl; [|intros []].
  destruct (isValidProfileName name); simpl; [|intros []].
  destruct (m_cachedBrowsers d !! browser0) as [info|] eqn:Hinfo; [|intros []].
  destruct (bool_decide (is_Some (bi_profiles info !! name))) eqn:Hprofile; simpl; [|intros []].
  apply bool_decide_eq_true in Hprofile.
  destruct (bi_type info) eqn:Htype; cbn [lo_spawned lo_success launchFailure In].
  all: try (intros Hnone; exact (False_ind _ Hnone)).
  all: intros [[= <- <-]|[]].
  all: (split; [reflexivity|]); (split; [reflexivity|]); (split; [reflexivity|]);
    (split; [exact Hchars|]); exists info; repeat split; auto.
Qed.

(** X4 on the Firefox installation of [Sample.firefoxOnly], once discovered. *)
Lemma launchBrowser_spawn_request_witness :
  let d := snd (detectBrowsers newBrowserDetector Sample.firefoxOnly 0 0) in
  lo_spawned (launchBrowser Sample.parseUrl Sample.spawnOk d "firefox" " Work/ " " https://example.org ")
  = [("/usr/bin/firefox", ["-P"; "Work"; "https://example.org"])].
Proof.
  intros d.
  assert (Hin : In ("/usr/bin/firefox", ["-P"; "Work"; "https://example.org"])
                   (lo_spawned (launchBrowser Sample.parseUrl Sample.spawnOk d
                                              "firefox" " Work/ " " https://example.org ")))
    by (vm_compute; tauto).
  by destruct (launchBrowser_spawn_request Sample.parseUrl Sample.spawnOk d
                 "firefox" " Work/ " " https://example.org " _ _ Hin) as [Hone _].
Defined.

(** ** What a scan lists *)

Lemma isEmpty_false (s : string) : QStr.isEmpty s = false <-> s <> "".
Proof. destruct s; simpl; split; congruence. Qed.

(** What a scan decides for each of the three ids. *)
Lemma scanBrowsers_known (d : BrowserDetector) (fs : FileSystem) (id : string) :
  In id knownBrowsers ->
  scanBrowsers d fs !! id =
  if explicitlyDisabled d id then None
  else if QStr.isEmpty (resolvedExecutable d fs id) then None
  else Some (mkBrowserInfo
               (if decide (id = "firefox") then "Firefox"
                else if decide (id = "chrome") then "Google Chrome" else "Chromium")
               (resolvedExecutable d fs id)
               ("/usr/share/icons/hicolor/48x48/apps/" +:+
                (if decide (id = "chrome") then "google-chrome" else id) +:+ ".png")
               (if decide (id = "firefox") then getFirefoxProfiles fs
                else if decide (id = "chrome") then getChromeProfiles fs "google-chrome"
                else getChromeProfiles fs "chromium")
               (typeOfBrowser id)).
Proof.
  intros [<-|[<-|[<-|[]]]]; unfold scanBrowsers, resolvedExecutable.
  - rewrite detectChromium_lookup, detectChrome_lookup by (by left).
    unfold detectFirefox. destruct (explicitlyDisabled d "firefox"); [apply lookup_empty|].
    cbv zeta. change Constants.FIREFOX_EXECUTABLE with "firefox".
    repeat case_decide; try done.
    destruct (QStr.isEmpty (default "" (m_execOverrides d !! "firefox")));
      destruct (QStr.isEmpty _); cbn [negb];
      first [apply lookup_empty | by rewrite lookup_insert_eq].
  - rewrite detectChromium_lookup by (by left).
    unfold detectChrome. destruct (explicitlyDisabled d "chrome").
    { rewrite detectFirefox_lookup by (by left). apply lookup_empty. }
    cbv zeta. repeat case_decide; try done.
    destruct (QStr.isEmpty (default "" (m_execOverrides d !! "chrome")));
      destruct (QStr.isEmpty _); cbn [negb];
      first [by rewrite lookup_insert_eq
            | rewrite detectFirefox_lookup by (by left); apply lookup_empty].
  - unfold detectChromium. destruct (explicitlyDisabled d "chromium").
    { rewrite detectChrome_lookup, detectFirefox_lookup by (by left). apply lookup_empty. }
    cbv zeta. change Constants.CHROMIUM_EXECUTABLE with "chromium".
    repeat case_decide; try done.
    destruct (QStr.isEmpty (default "" (m_execOverrides d !! "chromium")));
      destruct (QStr.isEmpty _); cbn [negb];
      first [by rewrite lookup_insert_eq
            | rewrite detectChrome_lookup, detectFirefox_lookup by (by left);
              apply lookup_empty].
Qed.

Lemma scanBrowsers_unknown (d : BrowserDetector) (fs : FileSystem) (id : string) :
  ~ In id knownBrowsers -> scanBrowsers d fs !! id = None.
Proof.
  intros Hid. unfold scanBrowsers.
  rewrite detectChromium_lookup, detectChrome_lookup, detectFirefox_lookup;
    [apply lookup_empty | left..]; intros ->; apply Hid; simpl; auto.
Qed.

Lemma scanBrowsers_wellFormed (d : BrowserDetector) (fs : FileSystem) :
  wellFormedBrowsers (scanBrowsers d fs).
Proof.
  intros id info Hlookup.
  destruct (decide (In id knownBrowsers)) as [Hid|Hid];
    [|by rewrite scanBrowsers_unknown in Hlookup].
  split; [exact Hid|].
  rewrite (scanBrowsers_known d fs id Hid) in Hlookup.
  destruct (explicitlyDisabled d id); [discriminate|].
  destruct (QStr.isEmpty (resolvedExecutable d fs id)) eqn:He; [discriminate|].
  injection Hlookup as <-. simpl. split; [reflexivity|]. by apply isEmpty_false.
Qed.

(** X5: a scan lists only firefox, chrome and chromium, each with the browser
    type of its id and a non-empty executable path; and a detector whose cache
    has this shape (as the new detector's empty cache has) returns maps of
    this shape from [detectBrowsers] and keeps such a cache. *)
Theorem discovery_wellFormed :
  forall (d : BrowserDetector) (fs : FileSystem) (now stamp : Z),
    wellFormedBrowsers (scanBrowsers d fs) /\
    wellFormedBrowsers (m_cachedBrowsers newBrowserDetector) /\
    (wellFormedBrowsers (m_cachedBrowsers d) ->
     wellFormedBrowsers (fst (detectBrowsers d fs now stamp)) /\
     wellFormedBrowsers (m_cachedBrowsers (snd (detectBrowsers d fs now stamp)))).
Proof.
  intros d fs now stamp.
  split; [apply scanBrowsers_wellFormed|].
  split; [intros id info H; simpl in H; by rewrite lookup_empty in H|].
  intros Hcache. unfold detectBrowsers.
  destruct (cacheIsFresh d now); simpl; split; auto using scanBrowsers_wellFormed.
Qed.

(** X5 on the detector after a scan of [Sample.chromeFamily]. *)
Lemma discovery_wellFormed_witness :
  wellFormedBrowsers
    (fst (detectBrowsers (snd (detectBrowsers newBrowserDetector Sample.chromeFamily 0 0))
                         Sample.bare 1000 1000)).
Proof.
  destruct (discovery_wellFormed newBrowserDetector Sample.chromeFamily 0 0)
    as (_ & Hnew & Hstep).
  destruct (Hstep Hnew) as [_ Hcache].
  destruct (discovery_wellFormed (snd (detectBrowsers newBrowserDetector Sample.chromeFamily 0 0))
              Sample.bare 1000 1000) as (_ & _ & Hstep2).
  exact (proj1 (Hstep2 Hcache)).
Defined.

(** X6: an executable override is taken as it is: a scan lists a known,
    not disabled browser that has a non-empty override with exactly that
    path, whether or not the file system holds such a file. *)
Theorem scanBrowsers_trusts_override :
  forall (d : BrowserDetector) (fs : FileSystem) (id path : string),
    In id knownBrowsers ->
    explicitlyDisabled d id = false ->
    m_execOverrides d !! id = Some path ->
    path <> "" ->
    exists info, scanBrowsers d fs !! id = Some info /\ bi_executable info = path.
Proof.
  intros d fs id path Hid Hon Hoverride Hpath.
  rewrite (scanBrowsers_known d fs id Hid), Hon.
  assert (Hres : resolvedExecutable d fs id = path).
  { unfold resolvedExecutable. rewrite Hoverride. simpl.
    apply isEmpty_false in Hpath. by rewrite Hpath. }
  rewrite Hres. apply isEmpty_false in Hpath. rewrite Hpath. eauto.
Qed.

(** X6 with an override that points nowhere. *)
Lemma scanBrowsers_trusts_override_witness :
  Fs.exists_ Sample.bare "/opt/missing/firefox" = false /\
  exists info,
    scanBrowsers (configuredDetector {["firefox" := "/opt/missing/firefox"]} ∅) Sample.bare
      !! "firefox" = Some info /\
    bi_executable info = "/opt/missing/firefox".
Proof.
  split; [reflexivity|].
  apply (scanBrowsers_trusts_override
           (configuredDetector {["firefox" := "/opt/missing/firefox"]} ∅) Sample.bare
           "firefox" "/opt/missing/firefox");
    [simpl; auto | reflexivity | reflexivity | discriminate].
Defined.

Lemma existsAndExec_nonempty (fs : FileSystem) (p : string) :
  existsAndExec fs p = true -> QStr.isEmpty p = false.
Proof. unfold existsAndExec. by destruct (QStr.isEmpty p). Qed.

(** X7: [isBrowserInstalled] answers false for an id an override disables
    and for an id other than firefox, chrome and chromium; and whenever it
    answers true, a scan of the same file system lists the browser. *)
Theorem isBrowserInstalled_sound :
  forall (d : BrowserDetector) (fs : FileSystem) (id : string),
    (explicitlyDisabled d id = true -> isBrowserInstalled d fs id = false) /\
    (~ In id knownBrowsers -> isBrowserInstalled d fs id = false) /\
    (isBrowserInstalled d fs id = true -> is_Some (scanBrowsers d fs !! id)).
Proof.
  intros d fs id. split; [|split].
  - intros Hoff. unfold isBrowserInstalled.
    repeat case_decide; subst; try rewrite Hoff; reflexivity.
  - intros Hid. unfold isBrowserInstalled.
    repeat case_decide; subst; try reflexivity; exfalso; apply Hid; simpl; auto.
  - unfold isBrowserInstalled. intros Hyes.
    assert (Hid : In id knownBrowsers).
    { repeat case_decide; subst; simpl; auto. discriminate. }
    rewrite (scanBrowsers_known d fs id Hid).
    assert (Hres : explicitlyDisabled d id = false /\
                   QStr.isEmpty (resolvedExecutable d fs id) = false).
    { unfold resolvedExecutable.
      destruct Hid as [<-|[<-|[<-|[]]]]; repeat case_decide; try done;
        destruct (explicitlyDisabled d _); try discriminate; (split; [reflexivity|]);
        (destruct (existsAndExec fs _) eqn:Hover;
         [apply existsAndExec_nonempty in Hover; by rewrite Hover|]);
        (destruct (QStr.isEmpty (default "" _)) eqn:Ho; [|exact Ho]);
        apply negb_true_iff in Hyes.
      - exact Hyes.
      - unfold Constants.CHROME_EXECUTABLE_VARIANTS. cbn [findExecutableFromList].
        change Constants.CHROME_EXECUTABLE with "google-chrome" in Hyes.
        by rewrite Hyes.
      - exact Hyes. }
    destruct Hres as [-> ->]. eauto.
Qed.

(** X7 where Firefox is on the search path. *)
Lemma isBrowserInstalled_sound_witness :
  isBrowserInstalled newBrowserDetector Sample.firefoxOnly "firefox" = true /\
  is_Some (scanBrowsers newBrowserDetector Sample.firefoxOnly !! "firefox").
Proof.
  split; [reflexivity|].
  by apply (isBrowserInstalled_sound newBrowserDetector Sample.firefoxOnly "firefox").
Defined.

(** X8: on a cache of the shape discovery produces, a request whose
    sanitized URL and profile name pass validation and whose browser and
    profile are cached always reaches the spawn: exactly one request, for the
    cached, non-empty executable; the "unknown browser type" exit is never
    taken. *)
Theorem launchBrowser_valid_request_spawns :
  forall (parseUrl : string -> QUrl) (startDetached : string -> list string -> SpawnReport)
         (d : BrowserDetector) (browser0 profile url : string) (info : BrowserInfo),
    wellFormedBrowsers (m_cachedBrowsers d) ->
    isValidUrl parseUrl (sanitizeUrl url) = true ->
    isValidProfileName (sanitizeProfileName profile) = true ->
    m_cachedBrowsers d !! browser0 = Some info ->
    is_Some (bi_profiles info !! sanitizeProfileName profile) ->
    let out := launchBrowser parseUrl startDetached d browser0 profile url in
    bi_executable info <> "" /\
    exists args,
      lo_spawned out = [(bi_executable info, args)] /\
      lo_success out = accepted (startDetached (bi_executable info) args).
Proof.
  intros parseUrl startDetached d browser0 profile url info Hwf Hurl Hname Hinfo Hprofile.
  destruct (Hwf browser0 info Hinfo) as (Hid & Htype & Hexe).
  split; [exact Hexe|].
  unfold launchBrowser. rewrite Hurl, Hname, Hinfo. simpl.
  rewrite bool_decide_eq_true_2 by done. simpl. rewrite Htype.
  destruct Hid as [<-|[<-|[<-|[]]]]; simpl; eauto.
Qed.

(** X8 on the Chromium installation of [Sample.chromeFamily]. *)
Lemma launchBrowser_valid_request_spawns_witness :
  let d := snd (detectBrowsers newBrowserDetector Sample.chromeFamily 0 0) in
  exists info args,
    m_cachedBrowsers d !! "chromium" = Some info /\
    lo_spawned (launchBrowser Sample.parseUrl Sample.spawnOk d
                              "chromium" "Profile 1" "https://example.org")
    = [(bi_executable info, args)].
Proof.
  intros d.
  assert (Hcache : wellFormedBrowsers (m_cachedBrowsers d))
    by apply (scanBrowsers_wellFormed newBrowserDetector Sample.chromeFamily).
  destruct (m_cachedBrowsers d !! "chromium") as [info|] eqn:Hinfo;
    [|vm_compute in Hinfo; discriminate].
  assert (Hprofile : is_Some (bi_profiles info !! sanitizeProfileName "Profile 1")).
  { assert (Hsome : Some info = m_cachedBrowsers d !! "chromium") by done.
    vm_compute in Hsome. injection Hsome as ->. vm_compute. eauto. }
  destruct (launchBrowser_valid_request_spawns Sample.parseUrl Sample.spawnOk d
              "chromium" "Profile 1" "https://example.org" info Hcache
              eq_refl eq_refl Hinfo Hprofile) as (_ & args & Hspawn & _).
  exists info, args. by split.
Defined.

(** ** Finding executables *)



(** X10: [findExecutableFromList] returns what [findExecutable] finds for the
    first name of the list that resolves, and the empty string exactly when
    no name resolves. *)
Theorem findExecutableFromList_first_match :
  forall (fs : FileSystem) (names : list string),
    (findExecutableFromList fs names = "" <->
     forall name, In name names -> findExecutable fs name = "") /\
    (forall before name after,
        names = (before ++ name :: after)%list ->
        (forall other, In other before -> findExecutable fs other = "") ->
        findExecutable fs name <> "" ->
        findExecutableFromList fs names = findExecutable fs name).
Proof.
  intros fs names. split.
  - induction names as [|n rest IH]; simpl; [by split|].
    destruct (QStr.isEmpty (findExecutable fs n)) eqn:He; simpl.
    + apply isEmpty_true in He. rewrite IH. split.
      * intros H name [<-|Hin]; auto.
      * intros H name Hin. apply H. by right.
    + apply isEmpty_false in He. split; [done|]. intros H. apply H. by left.
  - intros before. revert names.
    induction before as [|b before IH]; intros names name after -> Hbefore Hname; simpl.
    + apply isEmpty_false in Hname. by rewrite Hname.
    + rewrite (Hbefore b) by (by left). simpl.
      apply (IH _ name after eq_refl); [|done]. intros other Hin. apply Hbefore. by right.
Qed.

(** X10 with Chrome installed under its stable name only. *)
Lemma findExecutableFromList_first_match_witness :
  let fs := mkFileSystem "/home/user" ∅ {["google-chrome-stable" := "/opt/google/chrome"]} in
  findExecutableFromList fs Constants.CHROME_EXECUTABLE_VARIANTS = "/opt/google/chrome".
Proof.
  intros fs.
  destruct (findExecutableFromList_first_match fs Constants.CHROME_EXECUTABLE_VARIANTS)
    as [_ Hfirst].
  rewrite (Hfirst ["google-chrome"] "google-chrome-stable"
                  ["google-chrome-beta"; "google-chrome-unstable"] eq_refl).
  - reflexivity.
  - intros other [<-|[]]. reflexivity.
  - discriminate.
Defined.

(** ** Firefox profile enumeration *)

Lemma parseFirefoxIni_keys (groups : list (string * list (string * string)))
    (profiles : gmap string ProfileInfo) (name : string) :
  is_Some (parseFirefoxIni groups profiles !! name) <->
  is_Some (profiles !! name) \/
  exists group keys,
    In (group, keys) groups /\ QStr.startsWith group "Profile" = true /\
    iniValue keys "Name" = name /\ name <> "" /\ iniValue keys "Path" <> "".
Proof.
  revert profiles. induction groups as [|[group keys] rest IH]; intros profiles; simpl.
  - split; [auto | intros [H|(g & k & [] & _)]; exact H].
  - destruct (QStr.startsWith group "Profile") eqn:Hstart; simpl.
    + destruct (QStr.isEmpty (iniValue keys "Name")) eqn:Hn; simpl;
        [|destruct (QStr.isEmpty (iniValue keys "Path")) eqn:Hp; simpl];
        rewrite IH; try rewrite lookup_insert_is_Some'.
      * apply isEmpty_true in Hn. split.
        -- intros [H|(g & k & Hin & Hrest)]; [auto | right; exists g, k; auto].
        -- intros [H|(g & k & [[= <- <-]|Hin] & Hs & Hname & Hne & Hpath)];
             [auto | congruence | right; exists g, k; auto].
      * apply isEmpty_true in Hp. split.
        -- intros [H|(g & k & Hin & Hrest)]; [auto | right; exists g, k; auto].
        -- intros [H|(g & k & [[= <- <-]|Hin] & Hs & Hname & Hne & Hpath)];
             [auto | congruence | right; exists g, k; auto].
      * apply isEmpty_false in Hn, Hp. split.
        -- intros [[<-|H]|(g & k & Hin & Hrest)];
             [right; exists group, keys; auto 6 | auto | right; exists g, k; auto].
        -- intros [H|(g & k & [[= <- <-]|Hin] & Hs & Hname & Hne & Hpath)];
             [auto | left; by left | right; exists g, k; auto].
    + rewrite IH. split.
      * intros [H|(g & k & Hin & Hrest)]; [auto | right; exists g, k; auto].
      * intros [H|(g & k & [[= <- <-]|Hin] & Hs & Hrest)];
          [auto | congruence | right; exists g, k; auto].
Qed.

Lemma parseFirefoxIni_names (groups : list (string * list (string * string)))
    (profiles : gmap string ProfileInfo) :
  (forall name p, profiles !! name = Some p -> pi_name p = name) ->
  forall name p, parseFirefoxIni groups profiles !! name = Some p -> pi_name p = name.
Proof.
  revert profiles. induction groups as [|[group keys] rest IH]; intros profiles Hp; simpl.
  - exact Hp.
  - destruct (negb (QStr.startsWith group "Profile")); [by apply IH|].
    destruct (negb (QStr.isEmpty (iniValue keys "Name")) &&
              negb (QStr.isEmpty (iniValue keys "Path"))); apply IH; [|exact Hp].
    intros name p. rewrite lookup_insert. case_decide as Hk.
    + intros [= <-]. by subst.
    + apply Hp.
Qed.

(** X11: without profiles.ini Firefox has no profiles; with it, the profiles
    are keyed by the Name of the sections whose title starts with "Profile"
    and that give a non-empty Name and a non-empty Path, and each profile
    carries its key as its name. *)
Theorem getFirefoxProfiles_enumeration :
  forall (fs : FileSystem),
    let iniPath := getFirefoxProfilePath fs +:+ "/" +:+ Constants.FIREFOX_CONFIG in
    (Fs.exists_ fs iniPath = false -> getFirefoxProfiles fs = ∅) /\
    (Fs.exists_ fs iniPath = true ->
     forall name,
       is_Some (getFirefoxProfiles fs !! name) <->
       exists group keys,
         In (group, keys) (Fs.iniGroups fs iniPath) /\
         QStr.startsWith group "Profile" = true /\
         iniValue keys "Name" = name /\ name <> "" /\ iniValue keys "Path" <> "") /\
    (forall name p, getFirefoxProfiles fs !! name = Some p -> pi_name p = name).
Proof.
  intros fs iniPath. unfold getFirefoxProfiles. fold iniPath.
  split; [by intros ->|]. split.
  - intros -> name. simpl. rewrite lookup_fmap, fmap_is_Some, parseFirefoxIni_keys.
    rewrite lookup_empty, is_Some_alt. intuition.
  - intros name p. destruct (negb (Fs.exists_ fs iniPath)); [by rewrite lookup_empty|].
    rewrite lookup_fmap.
    destruct (parseFirefoxIni (Fs.iniGroups fs iniPath) ∅ !! name) as [q|] eqn:Hq;
      [|discriminate].
    intros [= <-]. simpl. eapply parseFirefoxIni_names; [|exact Hq].
    intros k r. by rewrite lookup_empty.
Qed.

(** X11 on [Sample.firefoxOnly]. *)
Lemma getFirefoxProfiles_enumeration_witness :
  is_Some (getFirefoxProfiles Sample.firefoxOnly !! "Work") /\
  getFirefoxProfiles Sample.bare = ∅.
Proof.
  destruct (getFirefoxProfiles_enumeration Sample.firefoxOnly) as (_ & Hkeys & _).
  destruct (getFirefoxProfiles_enumeration Sample.bare) as (Hnone & _ & _).
  split; [|by apply Hnone].
  apply (Hkeys eq_refl "Work").
  exists "Profile0", [("Name", "Work"); ("Path", "work.default"); ("Default", "1")].
  split; [vm_compute; tauto|]. repeat split; discriminate.
Defined.

(** ** The configuration store *)

Lemma writeEntry_lookup (c : ConfigManager) (g k : string) (v : ConfigValue) (g' k' : string) :
  m_config (KConfig.writeEntry c g k v) !! (g', k') =
  if decide ((g, k) = (g', k')) then Some v else m_config c !! (g', k').
Proof. unfold KConfig.writeEntry. simpl. apply lookup_insert. Qed.

Lemma deleteEntry_lookup (c : ConfigManager) (g k g' k' : string) :
  m_config (deleteEntry c g k) !! (g', k') =
  if decide ((g, k) = (g', k')) then None else m_config c !! (g', k').
Proof. unfold deleteEntry. simpl. apply lookup_delete. Qed.

(** X12: after [setProfileDisplayName(browser, profile, name)] the display
    name read back is [name], except that an empty name reads back as the
    profile id (the entry is removed and the default applies). *)
Theorem setProfileDisplayName_read_back :
  forall (c : ConfigManager) (browser0 profile name : string),
    getProfileDisplayName (fst (setProfileDisplayName c browser0 profile name)) browser0 profile
    = (if QStr.isEmpty name then profile else name) /\
    (name = profile ->
     hasKey (fst (setProfileDisplayName c browser0 profile name))
            (profileGroup browser0 profile) "DisplayName" = false).
Proof.
  intros c browser0 profile name.
  unfold getProfileDisplayName, setProfileDisplayName, KConfig.readString, hasKey.
  cbn [fst]. split.
  - destruct (QStr.isEmpty name) eqn:He; cbn [orb].
    + rewrite deleteEntry_lookup. by rewrite decide_True.
    + case_bool_decide as Hsame.
      * rewrite deleteEntry_lookup. rewrite decide_True; [by subst | done].
      * rewrite writeEntry_lookup. by rewrite decide_True.
  - intros ->. rewrite (bool_decide_eq_true_2 (profile = profile) eq_refl), orb_true_r.
    rewrite deleteEntry_lookup. rewrite decide_True; [|done].
    apply bool_decide_eq_false. by intros [? ?].
Qed.

(** X12 for a name that equals the profile id. *)
Lemma setProfileDisplayName_read_back_witness :
  hasKey (fst (setProfileDisplayName Sample.emptyConfig "firefox" "Work" "Work"))
         (profileGroup "firefox" "Work") "DisplayName" = false.
Proof.
  by apply (setProfileDisplayName_read_back Sample.emptyConfig "firefox" "Work" "Work").
Defined.

Lemma profileGroup_known_inj (b p b' p' : string) :
  In b knownBrowsers -> In b' knownBrowsers ->
  profileGroup b p = profileGroup b' p' -> b = b' /\ p = p'.
Proof.
  intros Hb Hb' H.
  destruct Hb as [<-|[<-|[<-|[]]]]; destruct Hb' as [<-|[<-|[<-|[]]]];
    vm_compute in H; simplify_eq; done.
Qed.

Lemma profileGroup_not_general (b p : string) :
  profileGroup b p <> Constants.CONFIG_GROUP_GENERAL /\
  profileGroup b p <> Constants.CONFIG_GROUP_LAST_USED.
Proof. split; intros H; vm_compute in H; discriminate. Qed.

Lemma writeEntry_profile_frame (c : ConfigManager) (b p key : string) (v : ConfigValue) :
  generalSettings (KConfig.writeEntry c (profileGroup b p) key v) = generalSettings c /\
  (forall b' p',
      In b knownBrowsers -> In b' knownBrowsers -> (b, p) <> (b', p') ->
      profileSettings (KConfig.writeEntry c (profileGroup b p) key v) b' p'
      = profileSettings c b' p').
Proof.
  destruct (profileGroup_not_general b p) as [Hg Hl].
  split.
  - unfold generalSettings, defaultTimeout, rememberLastUsed, showTrayIcon, getLastUsed,
      KConfig.readInt, KConfig.readBool, KConfig.readString.
    rewrite !writeEntry_lookup. rewrite !decide_False by congruence. reflexivity.
  - intros b' p' Hb Hb' Hne.
    assert (Hgroup : profileGroup b p <> profileGroup b' p').
    { intros H. apply profileGroup_known_inj in H as [-> ->]; done. }
    unfold profileSettings, isProfileEnabled, getProfileDisplayName, getProfileOrder,
      KConfig.readInt, KConfig.readBool, KConfig.readString.
    rewrite !writeEntry_lookup. rewrite !decide_False by congruence. reflexivity.
Qed.

Lemma deleteEntry_profile_frame (c : ConfigManager) (b p key : string) :
  generalSettings (deleteEntry c (profileGroup b p) key) = generalSettings c /\
  (forall b' p',
      In b knownBrowsers -> In b' knownBrowsers -> (b, p) <> (b', p') ->
      profileSettings (deleteEntry c (profileGroup b p) key) b' p' = profileSettings c b' p').
Proof.
  destruct (profileGroup_not_general b p) as [Hg Hl].
  split.
  - unfold generalSettings, defaultTimeout, rememberLastUsed, showTrayIcon, getLastUsed,
      KConfig.readInt, KConfig.readBool, KConfig.readString.
    rewrite !deleteEntry_lookup. rewrite !decide_False by congruence. reflexivity.
  - intros b' p' Hb Hb' Hne.
    assert (Hgroup : profileGroup b p <> profileGroup b' p').
    { intros H. apply profileGroup_known_inj in H as [-> ->]; done. }
    unfold profileSettings, isProfileEnabled, getProfileDisplayName, getProfileOrder,
      KConfig.readInt, KConfig.readBool, KConfig.readString.
    rewrite !deleteEntry_lookup. rewrite !decide_False by congruence. reflexivity.
Qed.

(** X13: the three per-profile setters leave the application settings
    (timeout, remember-last-used, tray icon, last-used pair) as they are, and,
    for the browsers discovery knows, the settings of every other
    (browser, profile) pair as well. *)
Theorem profile_setters_frame :
  forall (c : ConfigManager) (b p : string) (enabled : bool) (name : string) (order0 : Z),
    let after :=
      [ fst (setProfileEnabled c b p enabled);
        fst (setProfileDisplayName c b p name);
        fst (setProfileOrder c b p order0) ] in
    forall c', In c' after ->
      generalSettings c' = generalSettings c /\
      (forall b' p',
          In b knownBrowsers -> In b' knownBrowsers -> (b, p) <> (b', p') ->
          profileSettings c' b' p' = profileSettings c b' p').
Proof.
  intros c b p enabled name order0 after c' [<-|[<-|[<-|[]]]].
  - apply writeEntry_profile_frame.
  - unfold setProfileDisplayName. simpl.
    destruct (QStr.isEmpty name || bool_decide (name = p));
      [apply deleteEntry_profile_frame | apply writeEntry_profile_frame].
  - apply writeEntry_profile_frame.
Qed.

(** X13 for two profiles of Firefox. *)
Lemma profile_setters_frame_witness :
  profileSettings (fst (setProfileEnabled Sample.emptyConfig "firefox" "Work" false))
                  "firefox" "Home"
  = profileSettings Sample.emptyConfig "firefox" "Home".
Proof.
  destruct (profile_setters_frame Sample.emptyConfig "firefox" "Work" false "" 0
              (fst (setProfileEnabled Sample.emptyConfig "firefox" "Work" false)))
    as [_ Hother]; [by left|].
  apply Hother; [simpl; auto | simpl; auto | discriminate].
Defined.

Lemma groupExists_true (c : ConfigManager) (g : string) :
  groupExists c g = true <-> exists k v, m_config c !! (g, k) = Some v.
Proof.
  unfold groupExists. rewrite existsb_exists. split.
  - intros ([[g' k] v] & Hin & Hg). simpl in Hg. apply bool_decide_eq_true in Hg. subst g'.
    apply list_elem_of_In, elem_of_map_to_list in Hin. eauto.
  - intros (k & v & Hl). exists (g, k, v). split.
    + by apply list_elem_of_In, elem_of_map_to_list.
    + simpl. by apply bool_decide_eq_true.
Qed.

Lemma migrateOldConfig_settings (c : ConfigManager) :
  generalSettings (migrateOldConfig c) = generalSettings c /\
  (forall b p, profileSettings (migrateOldConfig c) b p = profileSettings c b p) /\
  2 <= KConfig.readInt (migrateOldConfig c) Constants.CONFIG_GROUP_GENERAL "ConfigVersion" 1 /\
  (groupExists c Constants.CONFIG_GROUP_GENERAL = true ->
   groupExists (migrateOldConfig c) Constants.CONFIG_GROUP_GENERAL = true) /\
  groupExists (migrateOldConfig c) Constants.CONFIG_GROUP_GENERAL = true.
Proof.
  unfold migrateOldConfig.
  destruct (Z.ltb_spec (KConfig.readInt c Constants.CONFIG_GROUP_GENERAL "ConfigVersion" 1) 2)
    as [Hold|Hnew].
  - assert (Hex : groupExists (KConfig.writeEntry c Constants.CONFIG_GROUP_GENERAL
                                                  "ConfigVersion" (CfgInt 2))
                              Constants.CONFIG_GROUP_GENERAL = true).
    { apply groupExists_true. exists "ConfigVersion", (CfgInt 2).
      rewrite writeEntry_lookup. by rewrite decide_True. }
    split; [|split; [|split; [|split]]]; auto.
    + unfold generalSettings, defaultTimeout, rememberLastUsed, showTrayIcon, getLastUsed,
        KConfig.readInt, KConfig.readBool, KConfig.readString.
      rewrite !writeEntry_lookup. rewrite !decide_False by (intros [=]). reflexivity.
    + intros b p. destruct (profileGroup_not_general b p) as [Hg _].
      unfold profileSettings, isProfileEnabled, getProfileDisplayName, getProfileOrder,
        KConfig.readInt, KConfig.readBool, KConfig.readString.
      rewrite !writeEntry_lookup. rewrite !decide_False by congruence. reflexivity.
    + unfold KConfig.readInt. rewrite writeEntry_lookup. by rewrite decide_True.
  - split; [|split; [|split; [|split]]]; auto.
    apply groupExists_true.
    unfold KConfig.readInt in Hnew.
    destruct (m_config c !! (Constants.CONFIG_GROUP_GENERAL, "ConfigVersion")) as [[n| |]|] eqn:Hv;
      try lia. eauto.
Qed.

(** X14: [ensureConfigValid] gives a store without General entries the
    defaults (timeout 10, remember-last-used on, tray icon off); a store that
    has General entries keeps its application settings and raises no signal;
    in both cases the per-profile settings and the last-used pair are kept,
    the store ends at configuration version 2 or more, and running it again
    changes nothing. *)
Theorem ensureConfigValid_outcome :
  forall c : ConfigManager,
    let c' := fst (ensureConfigValid c) in
    (groupExists c Constants.CONFIG_GROUP_GENERAL = false ->
     defaultTimeout c' = 10 /\ rememberLastUsed c' = true /\ showTrayIcon c' = false) /\
    (groupExists c Constants.CONFIG_GROUP_GENERAL = true ->
     generalSettings c' = generalSettings c /\ snd (ensureConfigValid c) = []) /\
    (forall b p, profileSettings c' b p = profileSettings c b p) /\
    getLastUsed c' = getLastUsed c /\
    2 <= KConfig.readInt c' Constants.CONFIG_GROUP_GENERAL "ConfigVersion" 1 /\
    ensureConfigValid c' = (c', []).
Proof.
  intros c c'. unfold c', ensureConfigValid.
  set (fresh :=
         KConfig.writeEntry
           (KConfig.writeEntry
              (KConfig.writeEntry c Constants.CONFIG_GROUP_GENERAL
                 Constants.CONFIG_KEY_DEFAULT_TIMEOUT
                 (CfgInt (qBound Constants.MIN_TIMEOUT Constants.DEFAULT_TIMEOUT
                                 Constants.MAX_TIMEOUT)))
              Constants.CONFIG_GROUP_GENERAL Constants.CONFIG_KEY_REMEMBER_LAST_USED
              (CfgBool true))
           Constants.CONFIG_GROUP_GENERAL CONFIG_KEY_SHOW_TRAY_ICON (CfgBool false)).
  assert (Hfresh_profiles : forall b p, profileSettings fresh b p = profileSettings c b p).
  { intros b p. destruct (profileGroup_not_general b p) as [Hg _].
    unfold fresh, profileSettings, isProfileEnabled, getProfileDisplayName, getProfileOrder,
      KConfig.readInt, KConfig.readBool, KConfig.readString.
    rewrite !writeEntry_lookup. rewrite !decide_False by congruence. reflexivity. }
  assert (Hfresh_last : getLastUsed fresh = getLastUsed c).
  { unfold fresh, getLastUsed, KConfig.readString.
    rewrite !writeEntry_lookup. rewrite !decide_False by (intros [=]). reflexivity. }
  assert (Hfresh_general :
            defaultTimeout fresh = 10 /\ rememberLastUsed fresh = true /\
            showTrayIcon fresh = false).
  { unfold fresh, defaultTimeout, rememberLastUsed, showTrayIcon,
      KConfig.readInt, KConfig.readBool.
    rewrite !writeEntry_lookup.
    repeat split; repeat (case_decide; simplify_eq; try reflexivity). }
  destruct (groupExists c Constants.CONFIG_GROUP_GENERAL) eqn:Hex; cbn [negb fst snd].
  - destruct (migrateOldConfig_settings c) as (Hgen & Hprof & Hver & Hkeep & Hnow).
    assert (Hlast : getLastUsed (migrateOldConfig c) = getLastUsed c).
    { exact (f_equal snd Hgen). }
    split; [discriminate|]. split; [by intros _|]. split; [exact Hprof|].
    split; [exact Hlast|]. split; [exact Hver|].
    rewrite Hnow. cbn [negb fst snd]. f_equal.
    unfold migrateOldConfig at 1.
    by destruct (Z.ltb_spec (KConfig.readInt (migrateOldConfig c)
                               Constants.CONFIG_GROUP_GENERAL "ConfigVersion" 1) 2); [lia|].
  - destruct (migrateOldConfig_settings fresh) as (Hgen & Hprof & Hver & Hkeep & Hnow).
    unfold setDefaultTimeout, setRememberLastUsed, setShowTrayIcon. cbn [fst snd].
    fold fresh. cbn [fst snd].
    pose proof (f_equal (fun s => fst (fst (fst s))) Hgen) as Ht.
    pose proof (f_equal (fun s => snd (fst (fst s))) Hgen) as Hr.
    pose proof (f_equal (fun s => snd (fst s)) Hgen) as Hs.
    pose proof (f_equal snd Hgen) as Hl. cbn [generalSettings fst snd] in Ht, Hr, Hs, Hl.
    destruct Hfresh_general as (H1 & H2 & H3).
    split; [intros _; by rewrite Ht, Hr, Hs|].
    split; [discriminate|].
    split; [intros b p; by rewrite Hprof|].
    split; [by rewrite Hl|].
    split; [exact Hver|].
    rewrite Hnow. cbn [negb fst snd]. f_equal.
    unfold migrateOldConfig at 1.
    by destruct (Z.ltb_spec (KConfig.readInt (migrateOldConfig fresh)
                               Constants.CONFIG_GROUP_GENERAL "ConfigVersion" 1) 2); [lia|].
Qed.

(** X14 on an empty store. *)
Lemma ensureConfigValid_outcome_witness :
  defaultTimeout (fst (ensureConfigValid Sample.emptyConfig)) = 10.
Proof.
  destruct (ensureConfigValid_outcome Sample.emptyConfig) as (Hfresh & _).
  by destruct (Hfresh eq_refl) as (Ht & _).
Defined.

(** ** The registry *)

(** The two kinds of result of [getDefaultProfile]. *)
Lemma getDefaultProfile_cases :
  forall pm : ProfileManager,
    getDefaultProfile pm = emptyProfileEntry \/
    (In (getDefaultProfile pm) (m_profiles pm) /\ isEnabled (getDefaultProfile pm) = true).
Proof.
  intros pm.
  assert (Hfirst :
            match getAllProfiles pm true with
            | entry :: _ => entry
            | [] => emptyProfileEntry
            end = emptyProfileEntry \/
            (In match getAllProfiles pm true with
                | entry :: _ => entry
                | [] => emptyProfileEntry
                end (m_profiles pm) /\
             isEnabled match getAllProfiles pm true with
                       | entry :: _ => entry
                       | [] => emptyProfileEntry
                       end = true)).
  { unfold getAllProfiles.
    destruct (List.filter isEnabled (m_profiles pm)) as [|e rest] eqn:Hf; [by left|].
    right. apply filter_In. rewrite Hf. by left. }
  unfold getDefaultProfile.
  destruct (negb (QStr.isEmpty (fst (getLastUsed (m_configManager pm)))) &&
            negb (QStr.isEmpty (snd (getLastUsed (m_configManager pm))))); [|exact Hfirst].
  cbv zeta.
  destruct (negb (QStr.isEmpty (browser (getProfile pm _ _))) && isEnabled (getProfile pm _ _))
    eqn:Hcond; [|exact Hfirst].
  apply andb_true_iff in Hcond as [Hb He]. right. split; [|exact He].
  unfold getProfile in *.
  destruct (List.find _ (m_profiles pm)) as [e|] eqn:Hfind; [|discriminate].
  by apply find_some in Hfind as [Hin _].
Qed.

(** X15: [getDefaultProfile] never returns a disabled profile: its result is
    the empty entry or an enabled entry of the registry. *)
Theorem getDefaultProfile_enabled :
  forall pm : ProfileManager,
    getDefaultProfile pm = emptyProfileEntry \/
    (In (getDefaultProfile pm) (m_profiles pm) /\ isEnabled (getDefaultProfile pm) = true).
Proof. exact getDefaultProfile_cases. Qed.

(** X16: for a non-empty browser id, [getProfile] returns the empty entry
    (empty browser id) exactly when the registry has no entry with the key, and
    otherwise an entry of the registry that carries the key. *)
Theorem getProfile_sentinel :
  forall (pm : ProfileManager) (browser0 profileId0 : string),
    browser0 <> "" ->
    (hasProfile pm browser0 profileId0 = false <->
     browser (getProfile pm browser0 profileId0) = "") /\
    (hasProfile pm browser0 profileId0 = false ->
     getProfile pm browser0 profileId0 = emptyProfileEntry) /\
    (hasProfile pm browser0 profileId0 = true ->
     In (getProfile pm browser0 profileId0) (m_profiles pm) /\
     entryKey (getProfile pm browser0 profileId0) = (browser0, profileId0)).
Proof.
  intros pm browser0 profileId0 Hne.
  split; [|split].
  - destruct (hasProfile pm browser0 profileId0) eqn:Hhas.
    + destruct (getProfile_found pm browser0 profileId0 Hhas) as (_ & Hb & _).
      split; [discriminate | congruence].
    + by rewrite (getProfile_absent pm browser0 profileId0 Hhas).
  - apply getProfile_absent.
  - intros Hhas. destruct (getProfile_found pm browser0 profileId0 Hhas) as (Hin & Hb & Hp).
    split; [exact Hin|]. unfold entryKey. by rewrite Hb, Hp.
Qed.

(** X16 on the registry of [Sample.firefoxOnly]. *)
Lemma getProfile_sentinel_witness :
  let pm := fst (refreshProfiles (newProfileManager Sample.emptyConfig)
                                 Sample.firefoxOnly 0 0 0) in
  getProfile pm "firefox" "Home" = emptyProfileEntry /\
  entryKey (getProfile pm "firefox" "Work") = ("firefox", "Work").
Proof.
  intros pm.
  destruct (getProfile_sentinel pm "firefox" "Home") as (_ & Habsent & _); [discriminate|].
  destruct (getProfile_sentinel pm "firefox" "Work") as (_ & _ & Hfound); [discriminate|].
  split; [apply Habsent; vm_compute; reflexivity|].
  apply Hfound. vm_compute. reflexivity.
Defined.

(** X17: after a successful [launchProfile] with remember-last-used on, the
    default profile is the one just launched, provided the registry holds it
    and it is enabled. *)
Theorem launchProfile_sets_default :
  forall (parseUrl : string -> QUrl) (startDetached : string -> list string -> SpawnReport)
         (pm : ProfileManager) (browser0 profileId0 url : string),
    let r := launchProfile parseUrl startDetached pm browser0 profileId0 url in
    ml_success r = true ->
    rememberLastUsed (m_configManager pm) = true ->
    browser0 <> "" -> profileId0 <> "" ->
    hasProfile pm browser0 profileId0 = true ->
    isEnabled (getProfile pm browser0 profileId0) = true ->
    getDefaultProfile (ml_manager r) = getProfile pm browser0 profileId0.
Proof.
  intros parseUrl startDetached pm browser0 profileId0 url r Hok Hremember Hb Hp Hhas Hen.
  assert (Hmanager :
            ml_manager r = withConfig (setLastUsed (m_configManager pm) browser0 profileId0) pm).
  { unfold r, launchProfile in *.
    by destruct (lo_success (launchBrowser parseUrl startDetached (m_browserDetector pm)
                                           browser0 profileId0 url)). }
  rewrite Hmanager. unfold getDefaultProfile, withConfig. cbn [m_configManager].
  rewrite (setLastUsed_on _ _ _ Hremember). cbn [fst snd].
  apply isEmpty_false in Hb, Hp. rewrite Hb, Hp. cbn [negb andb].
  change (getProfile (mkProfileManager (m_browserDetector pm)
                        (setLastUsed (m_configManager pm) browser0 profileId0)
                        (m_profiles pm) (m_lastRefresh pm)) browser0 profileId0)
    with (getProfile pm browser0 profileId0).
  destruct (getProfile_found pm browser0 profileId0 Hhas) as (_ & Hbrowser & _).
  by rewrite Hbrowser, Hb, Hen.
Qed.

(** X17 on the registry of [Sample.firefoxOnly]. *)
Lemma launchProfile_sets_default_witness :
  let pm := fst (refreshProfiles (newProfileManager Sample.emptyConfig)
                                 Sample.firefoxOnly 0 0 0) in
  let r := launchProfile Sample.parseUrl Sample.spawnOk pm
                         "firefox" "Work" "https://example.org" in
  getDefaultProfile (ml_manager r) = getProfile pm "firefox" "Work".
Proof.
  intros pm r.
  apply (launchProfile_sets_default Sample.parseUrl Sample.spawnOk pm
           "firefox" "Work" "https://example.org");
    first [discriminate | vm_compute; reflexivity].
Defined.

(** *** What a refresh builds *)

Lemma qmapItems_perm {V : Type} (m : gmap string V) :
  Permutation (map_to_list m) (qmapItems m).
Proof. apply insertionSort_perm. Qed.

Lemma qmapItems_In {V : Type} (m : gmap string V) (k : string) (v : V) :
  In (k, v) (qmapItems m) <-> m !! k = Some v.
Proof.
  rewrite <- elem_of_map_to_list, list_elem_of_In.
  split; apply Permutation_in; [symmetry|]; apply qmapItems_perm.
Qed.

Lemma qmapItems_NoDup {V : Type} (m : gmap string V) :
  NoDup (List.map fst (qmapItems m)).
Proof.
  rewrite <- (Permutation_map fst (qmapItems_perm m)).
  apply (NoDup_fst_map_to_list m).
Qed.

Lemma makeEntry_key (c : ConfigManager) (b : string) (info : BrowserInfo) (p : string)
    (pinfo : ProfileInfo) :
  entryKey (makeEntry c b info p pinfo) = (b, p).
Proof. reflexivity. Qed.

Lemma flattenProfiles_In (c : ConfigManager) (browsers : gmap string BrowserInfo)
    (e : ProfileEntry) :
  In e (flattenProfiles c browsers) <->
  exists b info p pinfo,
    browsers !! b = Some info /\ bi_profiles info !! p = Some pinfo /\
    e = makeEntry c b info p pinfo.
Proof.
  unfold flattenProfiles. rewrite in_concat. split.
  - intros (l & Hl & He). apply in_map_iff in Hl as ([b info] & <- & Hb).
    apply in_map_iff in He as ([p pinfo] & <- & Hp).
    apply qmapItems_In in Hb, Hp. by exists b, info, p, pinfo.
  - intros (b & info & p & pinfo & Hb & Hp & ->).
    apply qmapItems_In in Hb, Hp.
    eexists. split.
    + apply in_map_iff. exists (b, info). split; [reflexivity | exact Hb].
    + apply in_map_iff. exists (p, pinfo). split; [reflexivity | exact Hp].
Qed.

Lemma flatten_keys_NoDup (c : ConfigManager) (items : list (string * BrowserInfo)) :
  NoDup (List.map fst items) ->
  NoDup (List.map entryKey
           (List.concat
              (List.map (fun '(browserId, browserInfo) =>
                           List.map (fun '(profileId, profileInfo) =>
                                       makeEntry c browserId browserInfo profileId profileInfo)
                                    (qmapItems (bi_profiles browserInfo)))
                        items))).
Proof.
  induction items as [|[b info] rest IH]; simpl; [constructor|].
  intros Hnd. apply NoDup_cons in Hnd as [Hb Hrest].
  rewrite map_app. apply NoDup_app. split; [|split].
  - rewrite map_map.
    assert (Hinj : NoDup (List.map (fun x : string * ProfileInfo => (b, fst x))
                                   (qmapItems (bi_profiles info)))).
    { rewrite <- (map_map fst (fun p => (b, p))).
      apply NoDup_fmap_2; [by intros ?? [=] | apply qmapItems_NoDup]. }
    erewrite map_ext; [exact Hinj|]. by intros [p pinfo].
  - intros k Hk Hk'. apply list_elem_of_In in Hk, Hk'.
    apply in_map_iff in Hk as (e & <- & He).
    apply in_map_iff in He as ([p pinfo] & <- & _).
    apply in_map_iff in Hk' as (e' & Hkey & He').
    apply in_concat in He' as (l & Hl & He').
    apply in_map_iff in Hl as ([b' info'] & <- & Hb').
    apply in_map_iff in He' as ([p' pinfo'] & <- & _).
    rewrite !makeEntry_key in Hkey. injection Hkey as -> ->.
    apply Hb, list_elem_of_In, in_map_iff. by exists (b, info').
  - by apply IH.
Qed.

(** X18: after [refreshProfiles] the registry is sorted by [operator<]; its
    entries are exactly the entries made from the (browser, profile) pairs of
    the discovery result, so that no two of them share a (browser id, profile
    id) key; each carries the enabled flag and the order the configuration
    holds for its key; the configuration is untouched and the one signal is
    [profilesRefreshed]. *)
Theorem refreshProfiles_registry :
  forall (pm : ProfileManager) (fs : FileSystem) (now stamp refreshed : Z),
    let browsers := fst (detectBrowsers (m_browserDetector pm) fs now stamp) in
    let pm' := fst (refreshProfiles pm fs now stamp refreshed) in
    SortedEntries (m_profiles pm') /\
    (forall e,
        In e (m_profiles pm') <->
        exists b info p pinfo,
          browsers !! b = Some info /\ bi_profiles info !! p = Some pinfo /\
          e = makeEntry (m_configManager pm) b info p pinfo) /\
    NoDup (List.map entryKey (m_profiles pm')) /\
    (forall e,
        In e (m_profiles pm') ->
        isEnabled e = isProfileEnabled (m_configManager pm) (browser e) (profileId e) /\
        order e = getProfileOrder (m_configManager pm) (browser e) (profileId e)) /\
    m_configManager pm' = m_configManager pm /\
    snd (refreshProfiles pm fs now stamp refreshed) = [profilesRefreshed].
Proof.
  intros pm fs now stamp refreshed browsers pm'.
  assert (Hreg : m_profiles pm' = sortProfiles (flattenProfiles (m_configManager pm) browsers)
                 /\ m_configManager pm' = m_configManager pm
                 /\ snd (refreshProfiles pm fs now stamp refreshed) = [profilesRefreshed]).
  { unfold pm', browsers, refreshProfiles.
    by destruct (detectBrowsers (m_browserDetector pm) fs now stamp). }
  destruct Hreg as (Hreg & Hcfg & Hsig). rewrite Hreg.
  destruct (sortProfiles_is_std_sort (flattenProfiles (m_configManager pm) browsers))
    as [Hperm Hsorted].
  assert (Hin : forall e,
             In e (sortProfiles (flattenProfiles (m_configManager pm) browsers)) <->
             exists b info p pinfo,
               browsers !! b = Some info /\ bi_profiles info !! p = Some pinfo /\
               e = makeEntry (m_configManager pm) b info p pinfo).
  { intros e. rewrite <- flattenProfiles_In.
    split; apply Permutation_in; [symmetry|]; exact Hperm. }
  split; [exact Hsorted|]. split; [exact Hin|]. split; [|split; [|by split]].
  - rewrite <- (Permutation_map entryKey Hperm).
    apply flatten_keys_NoDup, qmapItems_NoDup.
  - intros e He. apply Hin in He as (b & info & p & pinfo & _ & _ & ->). by split.
Qed.

(** *** Enabling and disabling *)

Lemma updateFirst_keys (pred : ProfileEntry -> bool) (f : ProfileEntry -> ProfileEntry)
    (l : list ProfileEntry) :
  (forall e, entryKey (f e) = entryKey e) ->
  List.map entryKey (updateFirst pred f l) = List.map entryKey l.
Proof.
  intros Hf. induction l as [|e l IH]; simpl; [done|].
  destruct (pred e); simpl; [by rewrite Hf | by rewrite IH].
Qed.

Lemma matchesKey_entryKey (b p : string) (e : ProfileEntry) :
  matchesKey b p e = true <-> entryKey e = (b, p).
Proof.
  rewrite matchesKey_true. unfold entryKey. split; [by intros [-> ->] | by intros [= -> ->]].
Qed.

(** With unique keys the first entry that holds a key is the only one. *)
Lemma updateFirst_map (b p : string) (f : ProfileEntry -> ProfileEntry)
    (l : list ProfileEntry) :
  NoDup (List.map entryKey l) ->
  updateFirst (matchesKey b p) f l =
  List.map (fun e => if matchesKey b p e then f e else e) l.
Proof.
  induction l as [|e l IH]; simpl; [done|].
  intros Hnd. apply NoDup_cons in Hnd as [Hnotin Hnd].
  destruct (matchesKey b p e) eqn:Hm.
  - f_equal. symmetry. erewrite map_ext_in; [apply map_id|].
    intros e' He'. destruct (matchesKey b p e') eqn:Hm'; [|done].
    exfalso. apply Hnotin. apply matchesKey_entryKey in Hm, Hm'.
    rewrite Hm, <- Hm'. by apply list_elem_of_In, in_map.
  - f_equal. by apply IH.
Qed.

(** X19: on a registry with unique keys, [setProfileEnabled] stores the flag
    in the configuration and gives it to the entry with the key, leaving every
    other entry and the order of the list as they are; disabling therefore
    removes exactly that entry from [getAllProfiles(true)]. *)
Theorem PM_setProfileEnabled_registry :
  forall (pm : ProfileManager) (browser0 profileId0 : string) (enabled : bool),
    NoDup (List.map entryKey (m_profiles pm)) ->
    let pm' := fst (PM.setProfileEnabled pm browser0 profileId0 enabled) in
    isProfileEnabled (m_configManager pm') browser0 profileId0 = enabled /\
    m_profiles pm' =
      List.map (fun e => if matchesKey browser0 profileId0 e then withEnabled enabled e else e)
               (m_profiles pm) /\
    (enabled = false ->
     getAllProfiles pm' true =
       List.filter (fun e => negb (matchesKey browser0 profileId0 e)) (getAllProfiles pm true)).
Proof.
  intros pm browser0 profileId0 enabled Hnd pm'.
  assert (Hreg : m_profiles pm' =
                 List.map (fun e => if matchesKey browser0 profileId0 e
                                    then withEnabled enabled e else e) (m_profiles pm)).
  { unfold pm', PM.setProfileEnabled, setProfileEnabled. cbn [fst m_profiles].
    by apply updateFirst_map. }
  split; [|split; [exact Hreg|]].
  - unfold pm', PM.setProfileEnabled, setProfileEnabled, isProfileEnabled, KConfig.readBool.
    cbn [fst m_configManager]. rewrite writeEntry_lookup. by rewrite decide_True.
  - intros ->. unfold getAllProfiles. rewrite Hreg.
    clear Hreg Hnd pm'. induction (m_profiles pm) as [|e l IH]; simpl; [done|].
    destruct (matchesKey browser0 profileId0 e) eqn:Hm; simpl.
    + destruct (isEnabled e); simpl; rewrite ?Hm; simpl; exact IH.
    + destruct (isEnabled e); simpl; rewrite ?Hm; simpl; [f_equal|]; exact IH.
Qed.

(** X19 on the registry of [Sample.chromeFamily]. *)
Lemma PM_setProfileEnabled_registry_witness :
  let pm := fst (refreshProfiles (newProfileManager Sample.emptyConfig)
                                 Sample.chromeFamily 0 0 0) in
  let pm' := fst (PM.setProfileEnabled pm "chrome" "Default" false) in
  isProfileEnabled (m_configManager pm') "chrome" "Default" = false /\
  length (getAllProfiles pm' true) = 5%nat.
Proof.
  intros pm pm'.
  assert (Hnd : NoDup (List.map entryKey (m_profiles pm)))
    by (apply (bool_decide_unpack _); vm_compute; exact I).
  destruct (PM_setProfileEnabled_registry pm "chrome" "Default" false Hnd)
    as (Hcfg & _ & Hlist).
  split; [exact Hcfg|].
  unfold pm'. rewrite (Hlist eq_refl). vm_compute. reflexivity.
Defined.

(** *** Ordering and moving *)

Lemma existsb_matchesKey_false (b p : string) (l : list ProfileEntry) :
  existsb (matchesKey b p) l = false ->
  List.map (fun e => if matchesKey b p e then withOrder 0 e else e) l = l /\
  forall e, In e l -> matchesKey b p e = false.
Proof.
  intros Hno.
  assert (Hall : forall e, In e l -> matchesKey b p e = false).
  { intros e He. destruct (matchesKey b p e) eqn:Hm; [|done].
    assert (existsb (matchesKey b p) l = true) by (apply existsb_exists; eauto). congruence. }
  split; [|exact Hall].
  erewrite map_ext_in; [apply map_id|]. intros e He. by rewrite (Hall e He).
Qed.

Lemma PM_setProfileOrder_list (pm : ProfileManager) (b p : string) (o : Z) :
  NoDup (List.map entryKey (m_profiles pm)) ->
  let l' := m_profiles (fst (PM.setProfileOrder pm b p o)) in
  Permutation (List.map (fun e => if matchesKey b p e then withOrder o e else e) (m_profiles pm))
              l' /\
  NoDup (List.map entryKey l') /\
  (SortedEntries (m_profiles pm) \/ existsb (matchesKey b p) (m_profiles pm) = true ->
   SortedEntries l').
Proof.
  intros Hnd l'.
  assert (Hkeys : List.map entryKey
                    (List.map (fun e => if matchesKey b p e then withOrder o e else e)
                              (m_profiles pm))
                  = List.map entryKey (m_profiles pm)).
  { rewrite map_map. apply map_ext. intros e. by destruct (matchesKey b p e). }
  assert (Hperm : Permutation
                    (List.map (fun e => if matchesKey b p e then withOrder o e else e)
                              (m_profiles pm)) l').
  { unfold l', PM.setProfileOrder, setProfileOrder. cbn [fst m_profiles].
    destruct (existsb (matchesKey b p) (m_profiles pm)) eqn:Hex.
    - rewrite updateFirst_map by done. apply insertionSort_perm.
    - erewrite map_ext_in; [by rewrite map_id|].
      intros e He. destruct (existsb_matchesKey_false b p _ Hex) as [_ Hall].
      by rewrite (Hall e He). }
  split; [exact Hperm|]. split.
  - rewrite <- (Permutation_map entryKey Hperm), Hkeys. exact Hnd.
  - unfold l', PM.setProfileOrder, setProfileOrder. cbn [fst m_profiles].
    destruct (existsb (matchesKey b p) (m_profiles pm)) eqn:Hex.
    + intros _. apply sortProfiles_is_std_sort.
    + by intros [H|H].
Qed.

(** X20: [setProfileOrder] stores the order in the configuration; on a
    registry with unique keys it gives the order to the entry with the key
    and to no other, keeps the set of keys, and leaves the list sorted by
    [operator<] whenever the key is in the registry (the list is sorted
    again) or the list was sorted before. *)
Theorem PM_setProfileOrder_outcome :
  forall (pm : ProfileManager) (browser0 profileId0 : string) (order0 : Z),
    NoDup (List.map entryKey (m_profiles pm)) ->
    let pm' := fst (PM.setProfileOrder pm browser0 profileId0 order0) in
    getProfileOrder (m_configManager pm') browser0 profileId0 = order0 /\
    Permutation
      (List.map (fun e => if matchesKey browser0 profileId0 e then withOrder order0 e else e)
                (m_profiles pm))
      (m_profiles pm') /\
    NoDup (List.map entryKey (m_profiles pm')) /\
    (SortedEntries (m_profiles pm) \/ hasProfile pm browser0 profileId0 = true ->
     SortedEntries (m_profiles pm')).
Proof.
  intros pm browser0 profileId0 order0 Hnd pm'.
  split; [|by apply PM_setProfileOrder_list].
  unfold pm', PM.setProfileOrder, setProfileOrder, getProfileOrder, KConfig.readInt.
  cbn [fst m_configManager]. rewrite writeEntry_lookup. by rewrite decide_True.
Qed.

(** X20 on the registry of [Sample.chromeFamily]. *)
Lemma PM_setProfileOrder_outcome_witness :
  let pm := fst (refreshProfiles (newProfileManager Sample.emptyConfig)
                                 Sample.chromeFamily 0 0 0) in
  let pm' := fst (PM.setProfileOrder pm "chromium" "Default" 1) in
  SortedEntries (m_profiles pm') /\
  entryKey <$> head (m_profiles pm') = Some ("chromium", "Default").
Proof.
  intros pm pm'.
  assert (Hnd : NoDup (List.map entryKey (m_profiles pm)))
    by (apply (bool_decide_unpack _); vm_compute; exact I).
  destruct (PM_setProfileOrder_outcome pm "chromium" "Default" 1 Hnd) as (_ & _ & _ & Hs).
  split; [apply Hs; right; vm_compute; reflexivity|]. vm_compute. reflexivity.
Defined.

Lemma findWithPrevious_none (b p : string) (first : ProfileEntry) (rest : list ProfileEntry) :
  (forall e, In e rest -> matchesKey b p e = false) ->
  PM.findWithPrevious b p first rest = None.
Proof.
  revert first. induction rest as [|e rest IH]; intros first Hno; simpl; [done|].
  rewrite (Hno e) by (by left). apply IH. intros e' He'. apply Hno. by right.
Qed.

Lemma findWithNext_none (b p : string) (l : list ProfileEntry) :
  (forall e, In e (removelast l) -> matchesKey b p e = false) ->
  PM.findWithNext b p l = None.
Proof.
  induction l as [|e l IH]; [done|]. intros Hno.
  destruct l as [|next l']; [done|].
  change (PM.findWithNext b p (e :: next :: l'))
    with (if matchesKey b p e then Some (e, next) else PM.findWithNext b p (next :: l')).
  rewrite (Hno e) by (by left). apply IH. intros e' He'. apply Hno. by right.
Qed.

(** X21: [moveProfileUp] does nothing at all (no configuration write, no
    signal, same registry) when no entry after the first holds the key, and
    [moveProfileDown] does nothing when no entry before the last holds it: the
    first entry cannot move up, the last cannot move down, an unknown key
    moves nothing. *)
Theorem moveProfile_no_neighbour :
  forall (pm : ProfileManager) (browser0 profileId0 : string),
    ((forall e, In e (tl (m_profiles pm)) -> matchesKey browser0 profileId0 e = false) ->
     PM.moveProfileUp pm browser0 profileId0 = (pm, [])) /\
    ((forall e, In e (removelast (m_profiles pm)) -> matchesKey browser0 profileId0 e = false) ->
     PM.moveProfileDown pm browser0 profileId0 = (pm, [])).
Proof.
  intros pm browser0 profileId0. split; intros Hno.
  - unfold PM.moveProfileUp, getAllProfiles.
    destruct (m_profiles pm) as [|first rest]; [done|].
    by rewrite findWithPrevious_none.
  - unfold PM.moveProfileDown, getAllProfiles. by rewrite findWithNext_none.
Qed.

(** X21 on the registry of [Sample.firefoxOnly], which has one entry. *)
Lemma moveProfile_no_neighbour_witness :
  let pm := fst (refreshProfiles (newProfileManager Sample.emptyConfig)
                                 Sample.firefoxOnly 0 0 0) in
  PM.moveProfileUp pm "firefox" "Work" = (pm, []) /\
  PM.moveProfileDown pm "firefox" "Work" = (pm, []).
Proof.
  intros pm.
  destruct (moveProfile_no_neighbour pm "firefox" "Work") as [Hup Hdown].
  split; [apply Hup | apply Hdown]; intros e He; vm_compute in He; destruct He.
Defined.

Lemma NoDup_keys_eq (l : list ProfileEntry) (x y : ProfileEntry) :
  NoDup (List.map entryKey l) -> In x l -> In y l -> entryKey x = entryKey y -> x = y.
Proof.
  induction l as [|e l IH]; [done|]. simpl.
  intros Hnd. apply NoDup_cons in Hnd as [Hnotin Hnd].
  intros [<-|Hx] [<-|Hy] Hk; auto.
  - exfalso. apply Hnotin. rewrite Hk. by apply list_elem_of_In, in_map.
  - exfalso. apply Hnotin. rewrite <- Hk. by apply list_elem_of_In, in_map.
Qed.

Lemma NoDup_keys_neighbours (l1 l2 : list ProfileEntry) (x y : ProfileEntry) :
  NoDup (List.map entryKey (l1 ++ x :: y :: l2)) -> entryKey x <> entryKey y.
Proof.
  rewrite map_app. simpl. intros Hnd Hk.
  apply NoDup_app in Hnd as (_ & _ & Hnd).
  apply NoDup_cons in Hnd as [Hnotin _]. apply Hnotin. rewrite Hk. by left.
Qed.

Lemma findWithPrevious_found (b p : string) (l1 l2 : list ProfileEntry)
    (prev curr first : ProfileEntry) (rest : list ProfileEntry) :
  NoDup (List.map entryKey (first :: rest)) ->
  first :: rest = (l1 ++ prev :: curr :: l2)%list ->
  entryKey curr = (b, p) ->
  PM.findWithPrevious b p first rest = Some (prev, curr).
Proof.
  revert first rest. induction l1 as [|x l1 IH]; intros first rest Hnd Heq Hk; simpl in Heq.
  - injection Heq as -> ->. simpl. apply matchesKey_entryKey in Hk. by rewrite Hk.
  - injection Heq as -> ->.
    destruct l1 as [|y l1]; simpl.
    + assert (Hprev : matchesKey b p prev = false).
      { destruct (matchesKey b p prev) eqn:Hm; [|done].
        apply matchesKey_entryKey in Hm.
        apply (NoDup_keys_neighbours [x] l2 prev curr) in Hnd. congruence. }
      rewrite Hprev. apply matchesKey_entryKey in Hk. by rewrite Hk.
    + assert (Hy : matchesKey b p y = false).
      { destruct (matchesKey b p y) eqn:Hm; [|done].
        apply matchesKey_entryKey in Hm. exfalso.
        simpl in Hnd. apply NoDup_cons in Hnd as [_ Hnd].
        apply NoDup_cons in Hnd as [Hnotin _]. apply Hnotin.
        rewrite Hm, <- Hk. apply list_elem_of_In, in_map, in_or_app. right. right. by left. }
      rewrite Hy. apply (IH y (l1 ++ prev :: curr :: l2)%list); [|done|done].
      simpl in Hnd. by apply NoDup_cons in Hnd as [_ Hnd].
Qed.

Lemma findWithNext_found (b p : string) (l1 l2 : list ProfileEntry) (curr next : ProfileEntry) :
  NoDup (List.map entryKey (l1 ++ curr :: next :: l2)) ->
  entryKey curr = (b, p) ->
  PM.findWithNext b p (l1 ++ curr :: next :: l2) = Some (curr, next).
Proof.
  induction l1 as [|x l1 IH]; intros Hnd Hk.
  - simpl. apply matchesKey_entryKey in Hk. by rewrite Hk.
  - assert (Hx : matchesKey b p x = false).
    { destruct (matchesKey b p x) eqn:Hm; [|done].
      apply matchesKey_entryKey in Hm. exfalso.
      simpl in Hnd. apply NoDup_cons in Hnd as [Hnotin _]. apply Hnotin.
      rewrite Hm, <- Hk. apply list_elem_of_In, in_map, in_or_app. right. by left. }
    assert (Hstep : PM.findWithNext b p ((x :: l1) ++ curr :: next :: l2)
                    = PM.findWithNext b p (l1 ++ curr :: next :: l2)).
    { simpl. rewrite Hx. by destruct l1. }
    rewrite Hstep. apply IH; [|done].
    simpl in Hnd. by apply NoDup_cons in Hnd as [_ Hnd].
Qed.

(** Two [setProfileOrder] calls in a row, on different keys. *)
Lemma setProfileOrder_twice (pm : ProfileManager) (b' p' : string) (theirs : Z)
    (b p : string) (mine : Z) :
  NoDup (List.map entryKey (m_profiles pm)) ->
  (b', p') <> (b, p) ->
  hasProfile pm b p = true ->
  let pm1 := fst (PM.setProfileOrder pm b' p' theirs) in
  let pm2 := fst (PM.setProfileOrder pm1 b p mine) in
  Permutation (List.map (swapOrders b p mine b' p' theirs) (m_profiles pm)) (m_profiles pm2) /\
  NoDup (List.map entryKey (m_profiles pm2)) /\
  SortedEntries (m_profiles pm2) /\
  getProfileOrder (m_configManager pm2) b p = mine.
Proof.
  intros Hnd Hdiff Hhas pm1 pm2.
  destruct (PM_setProfileOrder_list pm b' p' theirs Hnd) as (Hperm1 & Hnd1 & _).
  fold pm1 in Hperm1, Hnd1.
  destruct (PM_setProfileOrder_list pm1 b p mine Hnd1) as (Hperm2 & Hnd2 & Hsorted2).
  fold pm2 in Hperm2, Hnd2, Hsorted2.
  assert (Hhas1 : existsb (matchesKey b p) (m_profiles pm1) = true).
  { unfold hasProfile in Hhas. apply existsb_exists in Hhas as (e & He & Hm).
    apply existsb_exists.
    exists (if matchesKey b' p' e then withOrder theirs e else e). split.
    - eapply Permutation_in; [exact Hperm1|].
      apply (in_map (fun e => if matchesKey b' p' e then withOrder theirs e else e)), He.
    - by destruct (matchesKey b' p' e). }
  split; [|split; [exact Hnd2|split; [apply Hsorted2; by right|]]].
  - rewrite <- Hperm2, <- Hperm1, map_map. apply Permutation_refl'.
    apply map_ext. intros e. unfold swapOrders.
    destruct (matchesKey b' p' e) eqn:Hm'.
    + assert (Hm : matchesKey b p e = false).
      { destruct (matchesKey b p e) eqn:Hm; [|done].
        apply matchesKey_entryKey in Hm, Hm'. congruence. }
      rewrite Hm. change (matchesKey b p (withOrder theirs e)) with (matchesKey b p e).
      by rewrite Hm.
    + by destruct (matchesKey b p e).
  - unfold pm2, PM.setProfileOrder, setProfileOrder, getProfileOrder, KConfig.readInt.
    cbn [fst m_configManager]. rewrite writeEntry_lookup. by rewrite decide_True.
Qed.

(** What the two moves do to a pair of neighbours. *)
Lemma moveProfile_swaps_orders_aux :
  forall (pm : ProfileManager) (l1 l2 : list ProfileEntry) (x y : ProfileEntry),
    NoDup (List.map entryKey (m_profiles pm)) ->
    m_profiles pm = (l1 ++ x :: y :: l2)%list ->
    (let up := fst (PM.moveProfileUp pm (browser y) (profileId y)) in
     Permutation (List.map (swapOrders (browser y) (profileId y) (order x)
                                       (browser x) (profileId x) (order y))
                           (m_profiles pm))
                 (m_profiles up) /\
     SortedEntries (m_profiles up) /\
     getProfileOrder (m_configManager up) (browser y) (profileId y) = order x) /\
    (let down := fst (PM.moveProfileDown pm (browser x) (profileId x)) in
     Permutation (List.map (swapOrders (browser x) (profileId x) (order y)
                                       (browser y) (profileId y) (order x))
                           (m_profiles pm))
                 (m_profiles down) /\
     SortedEntries (m_profiles down) /\
     getProfileOrder (m_configManager down) (browser x) (profileId x) = order y).
Proof.
  intros pm l1 l2 x y Hnd Hlist.
  assert (Hdiff : entryKey x <> entryKey y).
  { rewrite Hlist in Hnd. by apply NoDup_keys_neighbours in Hnd. }
  assert (Hx : hasProfile pm (browser x) (profileId x) = true).
  { unfold hasProfile. apply existsb_exists. exists x. split.
    - rewrite Hlist. apply in_or_app. right. by left.
    - by apply matchesKey_entryKey. }
  assert (Hy : hasProfile pm (browser y) (profileId y) = true).
  { unfold hasProfile. apply existsb_exists. exists y. split.
    - rewrite Hlist. apply in_or_app. right. right. by left.
    - by apply matchesKey_entryKey. }
  split.
  - assert (Hfound : PM.moveProfileUp pm (browser y) (profileId y) =
                     let '(pm1, s1) := PM.setProfileOrder pm (browser x) (profileId x) (order y) in
                     let '(pm2, s2) := PM.setProfileOrder pm1 (browser y) (profileId y) (order x) in
                     (pm2, (s1 ++ s2)%list)).
    { unfold PM.moveProfileUp, getAllProfiles.
      destruct (m_profiles pm) as [|first rest] eqn:Hreg;
        [by destruct l1|].
      by rewrite (findWithPrevious_found (browser y) (profileId y) l1 l2 x y first rest Hnd Hlist). }
    destruct (setProfileOrder_twice pm (browser x) (profileId x) (order y)
                (browser y) (profileId y) (order x) Hnd Hdiff Hy) as (Hperm & _ & Hsorted & Hcfg).
    cbv zeta. rewrite Hfound.
    destruct (PM.setProfileOrder pm (browser x) (profileId x) (order y)) as [pm1 s1].
    cbn [fst] in *.
    destruct (PM.setProfileOrder pm1 (browser y) (profileId y) (order x)) as [pm2 s2].
    cbn [fst] in *. by repeat split.
  - assert (Hfound : PM.moveProfileDown pm (browser x) (profileId x) =
                     let '(pm1, s1) := PM.setProfileOrder pm (browser y) (profileId y) (order x) in
                     let '(pm2, s2) := PM.setProfileOrder pm1 (browser x) (profileId x) (order y) in
                     (pm2, (s1 ++ s2)%list)).
    { unfold PM.moveProfileDown, getAllProfiles. rewrite Hlist.
      rewrite (findWithNext_found (browser x) (profileId x) l1 l2 x y); [done| |done].
      by rewrite <- Hlist. }
    assert (Hdiff' : entryKey y <> entryKey x) by congruence.
    destruct (setProfileOrder_twice pm (browser y) (profileId y) (order x)
                (browser x) (profileId x) (order y) Hnd Hdiff' Hx) as (Hperm & _ & Hsorted & Hcfg).
    cbv zeta. rewrite Hfound.
    destruct (PM.setProfileOrder pm (browser y) (profileId y) (order x)) as [pm1 s1].
    cbn [fst] in *.
    destruct (PM.setProfileOrder pm1 (browser x) (profileId x) (order y)) as [pm2 s2].
    cbn [fst] in *. by repeat split.
Qed.

(** X22: on a registry with unique keys, [moveProfileUp] of the entry that
    directly follows [prev] gives the entry the order value of [prev] and
    [prev] the order value of the entry, changes no other entry, and sorts the
    list again; [moveProfileDown] does the same with the entry that directly
    follows.  In both cases the configuration then holds the neighbour's
    former order for the moved key. *)
Theorem moveProfile_swaps_orders :
  forall (pm : ProfileManager) (l1 l2 : list ProfileEntry) (x y : ProfileEntry),
    NoDup (List.map entryKey (m_profiles pm)) ->
    m_profiles pm = (l1 ++ x :: y :: l2)%list ->
    (let up := fst (PM.moveProfileUp pm (browser y) (profileId y)) in
     Permutation (List.map (swapOrders (browser y) (profileId y) (order x)
                                       (browser x) (profileId x) (order y))
                           (m_profiles pm))
                 (m_profiles up) /\
     SortedEntries (m_profiles up) /\
     getProfileOrder (m_configManager up) (browser y) (profileId y) = order x) /\
    (let down := fst (PM.moveProfileDown pm (browser x) (profileId x)) in
     Permutation (List.map (swapOrders (browser x) (profileId x) (order y)
                                       (browser y) (profileId y) (order x))
                           (m_profiles pm))
                 (m_profiles down) /\
     SortedEntries (m_profiles down) /\
     getProfileOrder (m_configManager down) (browser x) (profileId x) = order y).
Proof. exact moveProfile_swaps_orders_aux. Qed.

Lemma withOrder_same (e : ProfileEntry) : withOrder (order e) e = e.
Proof. by destruct e. Qed.

(** X23: when the two neighbours have the same order value, as all entries
    have under the default order 999, a move leaves the registry exactly as it
    was: on a sorted registry with unique keys and pairwise different sort
    keys, [moveProfileUp] and [moveProfileDown] return the same list. *)
Theorem moveProfile_equal_orders :
  forall (pm : ProfileManager) (l1 l2 : list ProfileEntry) (x y : ProfileEntry),
    NoDup (List.map entryKey (m_profiles pm)) ->
    NoDup (List.map sortKey (m_profiles pm)) ->
    SortedEntries (m_profiles pm) ->
    m_profiles pm = (l1 ++ x :: y :: l2)%list ->
    order x = order y ->
    m_profiles (fst (PM.moveProfileUp pm (browser y) (profileId y))) = m_profiles pm /\
    m_profiles (fst (PM.moveProfileDown pm (browser x) (profileId x))) = m_profiles pm.
Proof.
  intros pm l1 l2 x y Hnd Hsk Hsorted Hlist Hsame.
  assert (Hinx : In x (m_profiles pm)) by (rewrite Hlist; apply in_or_app; right; by left).
  assert (Hiny : In y (m_profiles pm))
    by (rewrite Hlist; apply in_or_app; right; right; by left).
  assert (Hid : forall b p mine b' p' theirs,
             entryKey x = (b, p) /\ mine = order x /\ entryKey y = (b', p') /\ theirs = order y \/
             entryKey y = (b, p) /\ mine = order y /\ entryKey x = (b', p') /\ theirs = order x ->
             List.map (swapOrders b p mine b' p' theirs) (m_profiles pm) = m_profiles pm).
  { intros b p mine b' p' theirs Hcase.
    erewrite map_ext_in; [apply map_id|]. intros e He. unfold swapOrders.
    destruct (matchesKey b p e) eqn:Hm; [|destruct (matchesKey b' p' e) eqn:Hm'; [|done]].
    - apply matchesKey_entryKey in Hm.
      destruct Hcase as [(Hk & -> & _)|(Hk & -> & _)].
      + rewrite (NoDup_keys_eq _ e x Hnd He Hinx) by congruence. apply withOrder_same.
      + rewrite (NoDup_keys_eq _ e y Hnd He Hiny) by congruence. apply withOrder_same.
    - apply matchesKey_entryKey in Hm'.
      destruct Hcase as [(_ & _ & Hk & ->)|(_ & _ & Hk & ->)].
      + rewrite (NoDup_keys_eq _ e y Hnd He Hiny) by congruence. apply withOrder_same.
      + rewrite (NoDup_keys_eq _ e x Hnd He Hinx) by congruence. apply withOrder_same. }
  destruct (moveProfile_swaps_orders_aux pm l1 l2 x y Hnd Hlist) as [Hup Hdown].
  split.
  - destruct Hup as (Hperm & Hs & _).
    rewrite Hid in Hperm by (right; rewrite Hsame; repeat split).
    symmetry. by apply sorted_arrangement_unique.
  - destruct Hdown as (Hperm & Hs & _).
    rewrite Hid in Hperm by (left; rewrite Hsame; repeat split).
    symmetry. by apply sorted_arrangement_unique.
Qed.

(** X22 on two Firefox profiles with orders 1 and 2. *)
Lemma moveProfile_swaps_orders_witness :
  let pm := mkProfileManager newBrowserDetector Sample.emptyConfig
              [plainEntry "firefox" "A" 1; plainEntry "firefox" "B" 2] None in
  getProfileOrder (m_configManager (fst (PM.moveProfileUp pm "firefox" "B"))) "firefox" "B" = 1 /\
  m_profiles (fst (PM.moveProfileUp pm "firefox" "B"))
  = [plainEntry "firefox" "B" 1; plainEntry "firefox" "A" 2].
Proof.
  intros pm.
  assert (Hnd : NoDup (List.map entryKey (m_profiles pm)))
    by (apply (bool_decide_unpack _); vm_compute; exact I).
  destruct (moveProfile_swaps_orders pm [] [] (plainEntry "firefox" "A" 1)
              (plainEntry "firefox" "B" 2) Hnd eq_refl) as [(_ & _ & Hcfg) _].
  split; [exact Hcfg|]. vm_compute. reflexivity.
Defined.

(** X23 on two Firefox profiles that both have the default order. *)
Lemma moveProfile_equal_orders_witness :
  let pm := mkProfileManager newBrowserDetector Sample.emptyConfig
              [plainEntry "firefox" "A" 999; plainEntry "firefox" "B" 999] None in
  m_profiles (fst (PM.moveProfileUp pm "firefox" "B")) = m_profiles pm /\
  m_profiles (fst (PM.moveProfileDown pm "firefox" "A")) = m_profiles pm.
Proof.
  intros pm.
  apply (moveProfile_equal_orders pm [] [] (plainEntry "firefox" "A" 999)
           (plainEntry "firefox" "B" 999)).
  - apply (bool_decide_unpack _); vm_compute; exact I.
  - apply (bool_decide_unpack _); vm_compute; exact I.
  - repeat constructor.
  - reflexivity.
  - reflexivity.
Defined.

(** ** The override file *)

Lemma readerInvariant_initial (fs : FileSystem) : readerInvariant fs Yaml.initialReader.
Proof.
  split; [|split]; simpl.
  - intros id path H. by rewrite lookup_empty in H.
  - intros id val H. by rewrite lookup_empty in H.
  - done.
Qed.

Lemma readerInvariant_setPosition (fs : FileSystem) (r : Yaml.Reader) (inside : bool)
    (base : Z) (key : string) (keyIndent : Z) :
  readerInvariant fs r -> (key <> "" -> In key knownBrowsers) ->
  readerInvariant fs (Yaml.setPosition r inside base key keyIndent).
Proof. intros (He & Hn & _) Hk. by split; [|split]. Qed.

Lemma readerInvariant_insertExec (fs : FileSystem) (r : Yaml.Reader) (key path : string) :
  readerInvariant fs r -> In key knownBrowsers -> Yaml.isExecutableFile fs path = true ->
  readerInvariant fs (Yaml.insertExec r key path).
Proof.
  intros (He & Hn & Hc) Hk Hp. split; [|by split]. simpl.
  intros id p. rewrite lookup_insert. case_decide as Hid; [|apply He].
  intros [= <-]. by subst.
Qed.

Lemma readerInvariant_insertEnabled (fs : FileSystem) (r : Yaml.Reader) (key : string)
    (val : bool) :
  readerInvariant fs r -> In key knownBrowsers ->
  readerInvariant fs (Yaml.insertEnabled r key val).
Proof.
  intros (He & Hn & Hc) Hk. split; [exact He|]. split; [|exact Hc]. simpl.
  intros id v. rewrite lookup_insert. case_decide as Hid; [|apply Hn].
  intros _. by subst.
Qed.

Lemma readLine_invariant (fs : FileSystem) (r : Yaml.Reader) (line : string) :
  readerInvariant fs r -> readerInvariant fs (Yaml.readLine fs r line).
Proof.
  intros Hinv. unfold Yaml.readLine. cbv zeta.
  destruct (_ || _); [exact Hinv|].
  destruct (negb (Yaml.inBrowsers r)).
  { case_bool_decide; [|exact Hinv]. by apply readerInvariant_setPosition. }
  destruct (_ <=? Yaml.baseIndent r); [by apply readerInvariant_setPosition|].
  destruct (_ =? Yaml.baseIndent r + 2).
  { destruct (_ <=? _); [exact Hinv|].
    destruct (stringListContains _ _) eqn:Hknown;
      [|by apply readerInvariant_setPosition].
    apply stringListContains_In in Hknown.
    destruct (negb (QStr.isEmpty _));
      [|apply readerInvariant_setPosition; [exact Hinv | by intros _]].
    apply readerInvariant_setPosition; [|done].
    destruct (Yaml.isExecutableFile fs _) eqn:Hexec; [|exact Hinv].
    by apply readerInvariant_insertExec. }
  destruct (negb (QStr.isEmpty (Yaml.currentKey r)) && _) eqn:Hkey; [|exact Hinv].
  apply andb_true_iff in Hkey as [Hkey _]. apply negb_true_iff, isEmpty_false in Hkey.
  assert (Hcur : In (Yaml.currentKey r) knownBrowsers) by (by apply Hinv).
  destruct (_ <? _); [|exact Hinv].
  destruct (bool_decide _ && negb _).
  { destruct (Yaml.isExecutableFile fs _) eqn:Hexec; [|exact Hinv].
    by apply readerInvariant_insertExec. }
  destruct (bool_decide _ && negb _); [|exact Hinv].
  destruct (Yaml.parseBool _); [|exact Hinv].
  by apply readerInvariant_insertEnabled.
Qed.

Lemma readLines_invariant (fs : FileSystem) (lines : list string) :
  readerInvariant fs (Yaml.readLines fs lines).
Proof.
  unfold Yaml.readLines.
  assert (H : forall r, readerInvariant fs r ->
                        readerInvariant fs (List.fold_left (Yaml.readLine fs) lines r)).
  { induction lines as [|line lines IH]; intros r Hr; simpl; [exact Hr|].
    by apply IH, readLine_invariant. }
  apply H, readerInvariant_initial.
Qed.

(** Before a line that reads "browsers:" nothing is recorded. *)
Lemma readLines_without_block (fs : FileSystem) (lines : list string) :
  (forall line, In line lines -> QStr.trimmed line <> "browsers:") ->
  Yaml.readLines fs lines = Yaml.initialReader.
Proof.
  unfold Yaml.readLines. intros Hno.
  induction lines as [|line lines IH]; simpl; [done|].
  assert (Hstep : Yaml.readLine fs Yaml.initialReader line = Yaml.initialReader).
  { unfold Yaml.readLine. cbv zeta. destruct (_ || _); [done|].
    cbn [Yaml.inBrowsers Yaml.initialReader negb].
    rewrite bool_decide_eq_false_2; [done|]. apply Hno. by left. }
  rewrite Hstep. apply IH. intros l Hl. apply Hno. by right.
Qed.

(** X24: [loadYamlOverrides] never touches the stored preferences; the
    executable overrides it records are for firefox, chrome or chromium only
    and each points to an existing, regular, executable file; the enabled
    overrides are for these three ids only; and both maps are empty when no
    file is named or found, when it cannot be opened, or when no line of it
    reads "browsers:". *)
Theorem loadYamlOverrides_outcome :
  forall (fs : FileSystem) (yamlEnvPath yamlName ymlName : string)
         (openText : string -> option (list string)) (c : ConfigManager),
    let path := Yaml.yamlPath fs yamlEnvPath yamlName ymlName in
    let c' := Yaml.loadYamlOverrides fs yamlEnvPath yamlName ymlName openText c in
    m_config c' = m_config c /\
    (forall id exe,
        m_browserExecOverrides c' !! id = Some exe ->
        In id knownBrowsers /\ exe <> "" /\ Fs.exists_ fs exe = true /\
        isRegularFile fs exe = true /\ Fs.executable fs exe = true) /\
    (forall id (val : bool), m_browserEnabledOverrides c' !! id = Some val -> In id knownBrowsers) /\
    (path = "" \/ openText path = None \/
     (exists lines, openText path = Some lines /\
                    forall line, In line lines -> QStr.trimmed line <> "browsers:") ->
     m_browserExecOverrides c' = ∅ /\ m_browserEnabledOverrides c' = ∅).
Proof.
  intros fs yamlEnvPath yamlName ymlName openText c path c'.
  unfold c', Yaml.loadYamlOverrides. fold path.
  destruct (QStr.isEmpty path) eqn:Hpath.
  { cbn [m_config m_browserExecOverrides m_browserEnabledOverrides].
    split; [done|]. split; [intros id exe H; by rewrite lookup_empty in H|].
    split; [intros id val H; by rewrite lookup_empty in H | done]. }
  destruct (openText path) as [lines|] eqn:Hopen.
  2:{ cbn [m_config m_browserExecOverrides m_browserEnabledOverrides].
      split; [done|]. split; [intros id exe H; by rewrite lookup_empty in H|].
      split; [intros id val H; by rewrite lookup_empty in H | done]. }
  cbn [m_config m_browserExecOverrides m_browserEnabledOverrides].
  destruct (readLines_invariant fs lines) as (Hexec & Hen & _).
  split; [done|]. split; [|split; [exact Hen|]].
  - intros id exe Hl. destruct (Hexec id exe Hl) as [Hid Hfile].
    split; [exact Hid|]. unfold Yaml.isExecutableFile in Hfile.
    apply andb_true_iff in Hfile as [Hfile Hx].
    apply andb_true_iff in Hfile as [Hfile Hr].
    apply andb_true_iff in Hfile as [Hne He].
    apply negb_true_iff, isEmpty_false in Hne. done.
  - intros [Hempty|[Hnone|(lines' & [= <-] & Hno)]].
    + apply isEmpty_false in Hpath. done.
    + discriminate.
    + by rewrite (readLines_without_block fs lines Hno).
Qed.

(** X24 on the override file of the repository's test. *)
Lemma loadYamlOverrides_outcome_witness :
  let c' := Yaml.loadYamlOverrides Sample.firefoxOnly "/tmp/picker.yaml" "" ""
              (fun _ => Some (testYaml "/usr/bin/firefox" "false")) Sample.emptyConfig in
  m_browserExecOverrides c' !! "firefox" = Some "/usr/bin/firefox" /\
  m_browserEnabledOverrides c' !! "firefox" = Some false /\
  Fs.executable Sample.firefoxOnly "/usr/bin/firefox" = true.
Proof.
  intros c'.
  assert (Hexe : m_browserExecOverrides c' !! "firefox" = Some "/usr/bin/firefox")
    by (vm_compute; reflexivity).
  destruct (loadYamlOverrides_outcome Sample.firefoxOnly "/tmp/picker.yaml" "" ""
              (fun _ => Some (testYaml "/usr/bin/firefox" "false")) Sample.emptyConfig)
    as (_ & Hfiles & _).
  destruct (Hfiles "firefox" "/usr/bin/firefox" Hexe) as (_ & _ & _ & _ & Hx).
  split; [exact Hexe|]. split; [vm_compute; reflexivity | exact Hx].
Defined.

(** ** The command line and the timeout *)






Section WindowFacts.

Variable parseUrl : string -> QUrl.
Variable startDetached : string -> list string -> SpawnReport.

(** X26: when the countdown ends, the dialog is rejected without any launch
    if no profile of the registry is enabled; otherwise (registry entries
    carrying a browser id) it launches an enabled entry of the registry and
    is accepted, whatever the launch returns. *)
Theorem onTimeout_outcome :
  forall (pm : ProfileManager) (url : string),
    (forall e, In e (m_profiles pm) -> browser e <> "") ->
    (getAllProfiles pm true = [] ->
     onTimeout parseUrl startDetached pm url = (None, Rejected)) /\
    (getAllProfiles pm true <> [] ->
     exists e, In e (m_profiles pm) /\ isEnabled e = true /\
               onTimeout parseUrl startDetached pm url
               = (Some (launchProfile parseUrl startDetached pm (browser e) (profileId e) url),
                  Accepted)).
Proof.
  intros pm url Hids. unfold onTimeout. cbv zeta.
  destruct (getDefaultProfile_cases pm) as [Hempty|[Hin Hen]].
  - rewrite Hempty. cbn [browser emptyProfileEntry QStr.isEmpty negb].
    split; [reflexivity|]. intros Hsome. exfalso.
    unfold getDefaultProfile in Hempty. cbv zeta in Hempty.
    assert (Hfirst : forall e rest, getAllProfiles pm true = e :: rest -> e <> emptyProfileEntry).
    { intros e rest Hl Habs.
      assert (Hine : In e (m_profiles pm)).
      { assert (Hf : In e (getAllProfiles pm true)) by (rewrite Hl; by left).
        unfold getAllProfiles in Hf. by apply filter_In in Hf as [Hf _]. }
      apply (Hids e Hine). by rewrite Habs. }
    destruct (getAllProfiles pm true) as [|e rest] eqn:Hl; [done|].
    destruct (_ && _) in Hempty; [|by apply (Hfirst e rest)].
    destruct (negb (QStr.isEmpty (browser (getProfile pm _ _))) && _) eqn:Hc in Hempty;
      [|by apply (Hfirst e rest)].
    rewrite Hempty in Hc. discriminate.
  - assert (Hne : QStr.isEmpty (browser (getDefaultProfile pm)) = false).
    { destruct (QStr.isEmpty _) eqn:Hb; [|done]. apply isEmpty_true in Hb.
      by destruct (Hids _ Hin). }
    rewrite Hne. cbn [negb]. split.
    + intros Hnone. exfalso.
      assert (Hf : In (getDefaultProfile pm) (getAllProfiles pm true))
        by (unfold getAllProfiles; by apply filter_In).
      by rewrite Hnone in Hf.
    + intros _. by exists (getDefaultProfile pm).
Qed.

End WindowFacts.

(** X26 on the Chrome registry, where every profile is enabled. *)
Lemma onTimeout_outcome_witness :
  snd (onTimeout Sample.parseUrl Sample.spawnOk
         (refreshProfiles (newProfileManager Sample.emptyConfig) Sample.chromeFamily 0 0 0).1
         "https://example.org/") = Accepted.
Proof.
  set (pm := (refreshProfiles (newProfileManager Sample.emptyConfig) Sample.chromeFamily 0 0 0).1).
  assert (Hids : forall e, In e (m_profiles pm) -> browser e <> "").
  { intros e He.
    assert (Hall : Forall (fun e => browser e <> "") (m_profiles pm)).
    { apply (bool_decide_unpack _). vm_compute. exact I. }
    rewrite Forall_forall in Hall. apply Hall. by apply list_elem_of_In. }
  destruct (onTimeout_outcome Sample.parseUrl Sample.spawnOk pm "https://example.org/" Hids)
    as [_ Hsome].
  destruct Hsome as (e & _ & _ & Hrun).
  - vm_compute. discriminate.
  - by rewrite Hrun.
Defined.

(** ** From the override file to discovery *)

Lemma loadYamlOverrides_files (fs : FileSystem) (yamlEnvPath yamlName ymlName : string)
    (openText : string -> option (list string)) (c : ConfigManager) (id exe : string) :
  m_browserExecOverrides (Yaml.loadYamlOverrides fs yamlEnvPath yamlName ymlName openText c)
    !! id = Some exe ->
  In id knownBrowsers /\ Yaml.isExecutableFile fs exe = true.
Proof.
  unfold Yaml.loadYamlOverrides.
  destruct (QStr.isEmpty _);
    [cbn [m_browserExecOverrides]; intros H; by rewrite lookup_empty in H|].
  destruct (openText _) as [lines|];
    [|cbn [m_browserExecOverrides]; intros H; by rewrite lookup_empty in H].
  cbn [m_browserExecOverrides]. apply (readLines_invariant fs lines).
Qed.

Lemma isExecutableFile_existsAndExec (fs : FileSystem) (p : string) :
  Yaml.isExecutableFile fs p = existsAndExec fs p.
Proof.
  unfold Yaml.isExecutableFile, existsAndExec. by destruct (QStr.isEmpty p).
Qed.

Lemma configuredDetector_scans (execOverrides : gmap string string)
    (enabledOverrides : gmap string bool) (fs : FileSystem) (now stamp : Z) :
  fst (detectBrowsers (configuredDetector execOverrides enabledOverrides) fs now stamp)
  = scanBrowsers (configuredDetector execOverrides enabledOverrides) fs.
Proof. reflexivity. Qed.

(** X27: the overrides read from the file, handed to a new detector, decide
    discovery for every file system and every file content: a browser the
    file disables is reported as not installed and is absent from the
    discovery result; a browser for which the file gave an accepted
    executable and which it does not disable is reported as installed and is
    listed with exactly that executable. *)
Theorem yamlOverrides_loadAndApply :
  forall (fs : FileSystem) (yamlEnvPath yamlName ymlName : string)
         (openText : string -> option (list string)) (c : ConfigManager)
         (now stamp : Z) (id : string),
    let c' := Yaml.loadYamlOverrides fs yamlEnvPath yamlName ymlName openText c in
    let d := configuredDetector (m_browserExecOverrides c') (m_browserEnabledOverrides c') in
    let browsers := fst (detectBrowsers d fs now stamp) in
    (m_browserEnabledOverrides c' !! id = Some false ->
     isBrowserInstalled d fs id = false /\ browsers !! id = None) /\
    (forall exe,
        m_browserExecOverrides c' !! id = Some exe ->
        m_browserEnabledOverrides c' !! id <> Some false ->
        isBrowserInstalled d fs id = true /\
        exists info, browsers !! id = Some info /\ bi_executable info = exe).
Proof.
  intros fs yamlEnvPath yamlName ymlName openText c now stamp id c' d browsers.
  unfold browsers, d. rewrite configuredDetector_scans. fold d.
  assert (Hexec : m_execOverrides d = m_browserExecOverrides c') by reflexivity.
  assert (Hen : m_enabledOverrides d = m_browserEnabledOverrides c') by reflexivity.
  split.
  - intros Hoff. rewrite <- Hen in Hoff. split; [|by apply scanBrowsers_omits_disabled].
    apply explicitlyDisabled_true in Hoff. unfold isBrowserInstalled.
    repeat case_decide; subst; try done; by rewrite Hoff.
  - intros exe Hexe Hon.
    destruct (loadYamlOverrides_files _ _ _ _ _ _ _ _ Hexe) as [Hid Hfile].
    rewrite isExecutableFile_existsAndExec in Hfile.
    assert (Hnotoff : explicitlyDisabled d id = false).
    { destruct (explicitlyDisabled d id) eqn:Hoff; [|done].
      apply explicitlyDisabled_true in Hoff. by rewrite Hen in Hoff. }
    assert (Hne : QStr.isEmpty exe = false) by (by apply (existsAndExec_nonempty fs)).
    rewrite <- Hexec in Hexe. split.
    + unfold isBrowserInstalled.
      destruct Hid as [<-|[<-|[<-|[]]]]; repeat case_decide; try done;
        rewrite Hnotoff, Hexe; cbn [from_option Datatypes.id]; by rewrite Hfile.
    + rewrite (scanBrowsers_known d fs id Hid), Hnotoff.
      assert (Hres : resolvedExecutable d fs id = exe).
      { unfold resolvedExecutable. rewrite Hexe. cbn [from_option Datatypes.id]. by rewrite Hne. }
      rewrite Hres, Hne. eauto.
Qed.

(** X27 on the two override files of the repository's test. *)
Lemma yamlOverrides_loadAndApply_witness :
  let load text :=
    Yaml.loadYamlOverrides Sample.firefoxOnly "/tmp/picker.yaml" "" ""
      (fun _ => Some text) Sample.emptyConfig in
  let detector c := configuredDetector (m_browserExecOverrides c) (m_browserEnabledOverrides c) in
  (exists info,
      fst (detectBrowsers (detector (load (testYaml "/usr/bin/firefox" "true")))
             Sample.firefoxOnly 0 0) !! "firefox" = Some info /\
      bi_executable info = "/usr/bin/firefox") /\
  fst (detectBrowsers (detector (load (testYaml "/usr/bin/firefox" "false")))
         Sample.firefoxOnly 0 0) !! "firefox" = None.
Proof.
  intros load detector. split.
  - destruct (yamlOverrides_loadAndApply Sample.firefoxOnly "/tmp/picker.yaml" "" ""
                (fun _ => Some (testYaml "/usr/bin/firefox" "true")) Sample.emptyConfig
                0 0 "firefox") as [_ Hon].
    destruct (Hon "/usr/bin/firefox") as [_ Hlisted].
    + vm_compute. reflexivity.
    + vm_compute. discriminate.
    + exact Hlisted.
  - destruct (yamlOverrides_loadAndApply Sample.firefoxOnly "/tmp/picker.yaml" "" ""
                (fun _ => Some (testYaml "/usr/bin/firefox" "false")) Sample.emptyConfig
                0 0 "firefox") as [Hoff _].
    apply Hoff. vm_compute. reflexivity.
Defined.
